(** * oidc-client: the relying-party client of lib/oidc-client.js

    A shallow embedding of [OidcClient] and of the methods on its prototype,
    followed by the properties of the request builder, the response
    processor, the identity-token verifier, the token binder and the
    signing-key resolver, and then by those of the metadata, the logout
    request, the constructor and the request options.

    Conventions of the embedding.
    - A JavaScript string is the sequence of its code units; the model
      covers the strings whose code units are below 256, one [ascii] each.
    - A JavaScript number is an exact integer ([Z]); [NaN] is the [None] of
      [ToNumber].  Fractions and infinities are outside the model.
    - An object is the list of its own properties in insertion order; two
      object values are never [===], as they never are the same reference
      in the code modelled here.
    - A call either returns or throws ([result]); a promise is fulfilled or
      rejected ([promise]); callbacks run as soon as the promise they are
      attached to is settled, which is the order the single chain of the
      source gives them.
    - [utility.log] only writes to the console and is left out.
    - [mergeRequestOptions] works on the settings and on the [url] module
      of Node, which is a parameter of its embedding. *)

From Stdlib Require Import ZArith String Ascii List Bool Lia DecimalString.
From stdpp Require Import gmap strings.

Set Warnings "-register-all".
Local Arguments String.append : simpl nomatch.
Local Open Scope string_scope.
Local Open Scope Z_scope.

(** ** JavaScript values and the built-ins the client uses *)

Module JS.

Inductive value : Type :=
| VUndefined
| VNull
| VBool (b : bool)
| VNum (n : Z)
| VStr (s : string)
| VArr (items : list value)
| VObj (fields : list (string * value)).

Abbreviation obj := (list (string * value)).

Inductive exn : Type :=
| Error (message : string)         (* Error(message), created by the client *)
| SyntaxError (message : string)   (* thrown by JSON.parse *)
| TypeError (message : string)     (* thrown by the engine *)
| Collaborator (message : string). (* failure reported by a collaborator *)

Definition exn_message (e : exn) : string :=
  match e with
  | Error m | SyntaxError m | TypeError m | Collaborator m => m
  end.

Inductive result (A : Type) : Type :=
| Return (a : A)
| Throw (e : exn).
Arguments Return {A} a.
Arguments Throw {A} e.

Inductive promise (A : Type) : Type :=
| Fulfilled (a : A)
| Rejected (e : exn).
Arguments Fulfilled {A} a.
Arguments Rejected {A} e.

(** What a collaborator answers: a value, or a failure with its message. *)
Inductive reply (A : Type) : Type :=
| Reply (a : A)
| Failure (message : string).
Arguments Reply {A} a.
Arguments Failure {A} message.

(** [ToBoolean]. *)
Definition truthy (v : value) : bool :=
  match v with
  | VUndefined | VNull => false
  | VBool b => b
  | VNum n => negb (n =? 0)
  | VStr s => negb (String.eqb s "")
  | VArr _ | VObj _ => true
  end.

(** [a === b]. *)
Definition strict_eq (a b : value) : bool :=
  match a, b with
  | VUndefined, VUndefined => true
  | VNull, VNull => true
  | VBool x, VBool y => Bool.eqb x y
  | VNum x, VNum y => x =? y
  | VStr x, VStr y => String.eqb x y
  | _, _ => false
  end.

Definition Z_to_string (n : Z) : string :=
  NilZero.string_of_int (Z.to_int n).

Fixpoint join (sep : string) (l : list string) : string :=
  match l with
  | [] => ""
  | [x] => x
  | x :: rest => x +:+ sep +:+ join sep rest
  end.

(** [ToString]; exact for the safe integers, those below 2^53 in absolute
    value, which the engine prints digit by digit. *)
Fixpoint to_string (v : value) : string :=
  match v with
  | VUndefined => "undefined"
  | VNull => "null"
  | VBool true => "true"
  | VBool false => "false"
  | VNum n => Z_to_string n
  | VStr s => s
  | VArr items =>
      join "," (List.map (fun x => match x with
                                   | VUndefined | VNull => ""
                                   | _ => to_string x
                                   end) items)
  | VObj _ => "[object Object]"
  end.

(** *** Strings *)

Definition code (c : ascii) : N := N_of_ascii c.

(** The characters of the class [\s] among the code units below 256. *)
Definition is_space (c : ascii) : bool :=
  let n := code c in
  ((9 <=? n) && (n <=? 13) || (n =? 32) || (n =? 160))%N.

(** [s.split(/\s+/g)]: [cur] is the piece being read, [in_gap] tells that
    the previous character belonged to a separator. *)
Fixpoint split_from (cur : string) (in_gap : bool) (s : string) : list string :=
  match s with
  | EmptyString => [cur]
  | String c rest =>
      if is_space c then
        if in_gap then split_from cur true rest
        else cur :: split_from "" true rest
      else split_from (cur +:+ String c "") false rest
  end.

Definition split_spaces (s : string) : list string := split_from "" false s.

Definition lower_char (c : ascii) : ascii :=
  let n := code c in
  if ((65 <=? n) && (n <=? 90) || (192 <=? n) && (n <=? 222) && negb (n =? 215))%N
  then ascii_of_N (n + 32) else c.

(** [s.toLowerCase()]. *)
Fixpoint toLowerCase (s : string) : string :=
  match s with
  | EmptyString => EmptyString
  | String c rest => String (lower_char c) (toLowerCase rest)
  end.

(** [s.indexOf(t)]. *)
Definition indexOf (s t : string) : Z :=
  match String.index 0 t s with
  | Some i => Z.of_nat i
  | None => -1
  end.

Fixpoint last_char (s : string) : option ascii :=
  match s with
  | EmptyString => None
  | String c EmptyString => Some c
  | String _ rest => last_char rest
  end.

Definition hex_digit (n : N) : ascii :=
  ascii_of_N (if (n <? 10)%N then 48 + n else 55 + n).

Definition percent (n : N) : string :=
  String "%" (String (hex_digit (n / 16)) (String (hex_digit (n mod 16)) "")).

Definition unreserved (c : ascii) : bool :=
  let n := code c in
  ((48 <=? n) && (n <=? 57) || (65 <=? n) && (n <=? 90) || (97 <=? n) && (n <=? 122)
   || (n =? 45) || (n =? 95) || (n =? 46) || (n =? 33) || (n =? 126)
   || (n =? 42) || (n =? 39) || (n =? 40) || (n =? 41))%N.

(** [encodeURIComponent(s)]: the unreserved characters stay, every other
    code unit is written as the escaped bytes of its UTF-8 encoding. *)
Fixpoint encodeURIComponent (s : string) : string :=
  match s with
  | EmptyString => EmptyString
  | String c rest =>
      let n := code c in
      (if unreserved c then String c ""
       else if (n <? 128)%N then percent n
       else percent (192 + n / 64) +:+ percent (128 + n mod 64))
      +:+ encodeURIComponent rest
  end.

(** The bytes of [s] in hexadecimal, two lower-case digits each. *)
Fixpoint hex_of_bytes (s : string) : string :=
  match s with
  | EmptyString => EmptyString
  | String c rest =>
      String (lower_char (hex_digit (code c / 16)))
        (String (lower_char (hex_digit (code c mod 16))) (hex_of_bytes rest))
  end.

(** *** Objects *)

Fixpoint lookup_field (k : string) (o : obj) : value :=
  match o with
  | [] => VUndefined
  | (k', v) :: rest => if String.eqb k k' then v else lookup_field k rest
  end.

(** [o[k] = v]: an own property keeps its place, a new one goes last. *)
Fixpoint set_field (k : string) (v : value) (o : obj) : obj :=
  match o with
  | [] => [(k, v)]
  | (k', v') :: rest =>
      if String.eqb k k' then (k, v) :: rest else (k', v') :: set_field k v rest
  end.

(** [delete o[k]]. *)
Definition delete_field (k : string) (o : obj) : obj :=
  List.filter (fun kv => negb (String.eqb k (fst kv))) o.

(** [v.k] for a property name [k] that no prototype defines, and for
    [length]. *)
Definition prop (v : value) (k : string) : result value :=
  match v with
  | VUndefined | VNull =>
      Throw (TypeError ("Cannot read properties of " +:+ to_string v))
  | VObj o => Return (lookup_field k o)
  | VArr items =>
      Return (if String.eqb k "length" then VNum (Z.of_nat (List.length items))
              else VUndefined)
  | VStr s =>
      Return (if String.eqb k "length" then VNum (Z.of_nat (String.length s))
              else VUndefined)
  | VBool _ | VNum _ => Return VUndefined
  end.

(** [v[0]]. *)
Definition elem0 (v : value) : result value :=
  match v with
  | VUndefined | VNull =>
      Throw (TypeError ("Cannot read properties of " +:+ to_string v))
  | VObj o => Return (lookup_field "0" o)
  | VArr items => Return (List.hd VUndefined items)
  | VStr (String c _) => Return (VStr (String c ""))
  | VStr EmptyString | VBool _ | VNum _ => Return VUndefined
  end.

(** [delete v[k]]; on a value that is not an object it changes nothing. *)
Definition delete_prop (k : string) (v : value) : value :=
  match v with
  | VObj o => VObj (delete_field k o)
  | _ => v
  end.

End JS.
Import JS.

Arguments truthy !v : simpl nomatch.
Arguments strict_eq !a !b : simpl nomatch.
Arguments prop !v k : simpl nomatch.
Arguments elem0 !v : simpl nomatch.
Arguments delete_prop k !v : simpl nomatch.
Arguments to_string !v : simpl nomatch.

(** ** Collaborators, state and control flow *)

(** The capabilities the client consumes (section 6 of the specification).
    [JSON_parse] answers [Failure] where [JSON.parse] throws a
    [SyntaxError]; [getJson] is the fetch behind [utility.getJson]: the url,
    the bearer token and the transport settings give a JSON value or the
    message of a transport error; [rand] is the supply [utility.rand] draws
    from; [verifyJWSByPemX509Cert] answers whether the signature is valid
    together with [parsedJWS.payloadS]; [sha256] answers the digest in
    hexadecimal, as [r.crypto.Util.sha256] does. *)
Record Runtime : Type := {
  JSON_parse : string -> reply value;
  JSON_stringify : value -> string;
  getJson : value -> value -> value -> reply value;
  rand : nat -> string;
  verifyJWSByPemX509Cert : value -> value -> reply (bool * string);
  sha256 : value -> string;
  hextob64u : string -> string
}.

(** What a call can read and change: the settings object of the client,
    the request-state store (section 6: string entries under string keys,
    read by [get], written by [set], cleared by [set] without a value), the
    number of random values drawn so far, and the reading of [Date.now()]
    in milliseconds. *)
Record world : Type := {
  settings : obj;
  request_state_store : gmap string string;
  rand_calls : nat;
  clock : Z
}.

Definition with_settings (s : obj) (w : world) : world :=
  {| settings := s; request_state_store := request_state_store w;
     rand_calls := rand_calls w; clock := clock w |}.

Definition with_store (m : gmap string string) (w : world) : world :=
  {| settings := settings w; request_state_store := m;
     rand_calls := rand_calls w; clock := clock w |}.

Definition with_rand_calls (n : nat) (w : world) : world :=
  {| settings := settings w; request_state_store := request_state_store w;
     rand_calls := n; clock := clock w |}.

Definition M (A : Type) : Type := world -> result A * world.

Definition ret {A} (a : A) : M A := fun w => (Return a, w).

Definition throw {A} (e : exn) : M A := fun w => (Throw e, w).

Definition bind {A B} (m : M A) (f : A -> M B) : M B :=
  fun w =>
    match m w with
    | (Return a, w') => f a w'
    | (Throw e, w') => (Throw e, w')
    end.

Definition lift {A} (r : result A) : M A := fun w => (r, w).

Declare Scope js_scope.
Delimit Scope js_scope with js.
Notation "x <- m ;; k" := (bind m (fun x => k))
  (at level 100, m at next level, right associativity) : js_scope.
Notation "m ;;; k" := (bind m (fun _ => k))
  (at level 100, right associativity) : js_scope.
Local Open Scope js_scope.

(** [promise.resolve(v)] and [promise.reject(e)]. *)
Definition resolve {A} (a : A) : M (promise A) := ret (Fulfilled a).
Definition reject {A} (e : exn) : M (promise A) := ret (Rejected e).

(** A callback that throws rejects the promise derived from it. *)
Definition settle {A} (m : M (promise A)) : M (promise A) :=
  fun w =>
    match m w with
    | (Return q, w') => (Return q, w')
    | (Throw e, w') => (Return (Rejected e), w')
    end.

(** [p.then(onFulfilled)]. *)
Definition then_ {A B} (p : promise A) (onFulfilled : A -> M (promise B))
  : M (promise B) :=
  match p with
  | Fulfilled a => settle (onFulfilled a)
  | Rejected e => ret (Rejected e)
  end.

(** [p.then(onFulfilled, onRejected)]. *)
Definition then2 {A B} (p : promise A) (onFulfilled : A -> M (promise B))
    (onRejected : exn -> M (promise B)) : M (promise B) :=
  match p with
  | Fulfilled a => settle (onFulfilled a)
  | Rejected e => settle (onRejected e)
  end.

(** [p.catch(onRejected)]. *)
Definition catch_ {A} (p : promise A) (onRejected : exn -> M (promise A))
  : M (promise A) :=
  match p with
  | Fulfilled a => ret (Fulfilled a)
  | Rejected e => settle (onRejected e)
  end.

Definition of_reply (r : reply value) : promise value :=
  match r with
  | Reply v => Fulfilled v
  | Failure m => Rejected (Collaborator m)
  end.

Definition read_settings : M obj := fun w => (Return (settings w), w).

Definition setting (k : string) : M value :=
  fun w => (Return (lookup_field k (settings w)), w).

Definition set_setting (k : string) (v : value) : M unit :=
  fun w => (Return tt, with_settings (set_field k v (settings w)) w).

(** The failure every step of the client aborts with, whichever way it
    reaches the caller: thrown by the call or carried by a rejected
    promise. *)
Definition failure {A} (r : result (promise A)) : option exn :=
  match r with
  | Throw e => Some e
  | Return (Rejected e) => Some e
  | Return (Fulfilled _) => None
  end.

(** ** lib/utility.js *)

(** Modelled from the spec: [utility.error(promise, message)]; lib/utility.js
    is not among the sources.  Section 4.3 has every failing step abort with
    the named error and section 7 makes every failure an explicit outcome
    that carries its message and is surfaced upward unchanged: the call
    raises [Error(message)]. *)
Definition utility_error {A} (message : string) : M A :=
  throw (Error message).

(** The own properties of an object, as a [for .. in] loop visits them;
    claims and settings are objects. *)
Definition own_keys (v : value) : list string :=
  match v with
  | VObj o => List.map fst o
  | _ => []
  end.

Definition own_value (v : value) (k : string) : value :=
  match v with
  | VObj o => lookup_field k o
  | _ => VUndefined
  end.

(** Modelled from the spec: [utility.copy(obj, target)]; lib/utility.js is
    not among the sources.  Section 4.4 (step 6) merges the properties of
    [obj] over [target], those of [obj] taking precedence; without [target]
    the result is a copy of [obj]. *)
Definition utility_copy (o : value) (target : obj) : obj :=
  List.fold_left (fun t k => set_field k (own_value o k) t) (own_keys o) target.

(** ** lib/oidc-client.js *)

Section Client.

Context (rt : Runtime).

(** Modelled from the spec: [utility.rand()]; lib/utility.js is not among
    the sources.  Section 4.2: a fresh random string at every call, here
    the next one of the supply [rand rt]. *)
Definition utility_rand : M string :=
  fun w => (Return (rand rt (rand_calls w)),
            with_rand_calls (S (rand_calls w)) w).

(** [function error(message)]: the wrapper calls [utility.error] and has no
    return statement of its own; it is left by the exception raised
    there. *)
Definition error {A} (message : string) : M A := utility_error message.

Definition parse (text : string) : M value :=
  match JSON_parse rt text with
  | Reply v => ret v
  | Failure m => throw (SyntaxError m)
  end.

Definition store_get (key : value) : M value :=
  fun w =>
    (Return match request_state_store w !! to_string key with
            | Some s => VStr s
            | None => VUndefined
            end, w).

(** [store.set(key, value)]. *)
Definition store_set (key : value) (s : string) : M unit :=
  fun w => (Return tt,
            with_store (<[to_string key := s]> (request_state_store w)) w).

(** [store.set(key)]: without a value the entry is cleared. *)
Definition store_clear (key : value) : M unit :=
  fun w => (Return tt,
            with_store (delete (to_string key) (request_state_store w)) w).

Definition well_known : string := ".well-known/openid-configuration".

(** [authority.indexOf(..) < 0], then the two [+=]; strings and arrays are
    the values that have an [indexOf]. *)
Definition discovery_url (authority : value) : result value :=
  match authority with
  | VStr a =>
      if indexOf a well_known <? 0 then
        let a := match last_char a with
                 | Some "/"%char => a
                 | _ => a +:+ "/"
                 end in
        Return (VStr (a +:+ well_known))
      else Return authority
  | VArr items =>
      if List.existsb (strict_eq (VStr well_known)) items then Return authority
      else
        let a := if strict_eq (List.last items VUndefined) (VStr "/")
                 then to_string authority
                 else to_string authority +:+ "/" in
        Return (VStr (a +:+ well_known))
  | _ => Throw (TypeError "self._settings.authority.indexOf is not a function")
  end.

(** [new Cookies(req, res)]: the store the constructor falls back on.  The
    client calls [get] and [set] on the store of its settings and reads no
    property of it; what the store holds is the [request_state_store] of
    the [world], whichever object the settings name, and the object stands
    here without properties. *)
Definition Cookies : value := VObj [].

(** [function OidcClient(req, res, serverSettings)]: the settings of the
    new client; [req] and [res] go to [Cookies] and nowhere else. *)
Definition OidcClient (serverSettings : value) : result obj :=
  let s := utility_copy serverSettings [] in
  let s := if truthy (lookup_field "request_state_key" s) then s
           else set_field "request_state_key" (VStr "OidcClient.request_state") s in
  let s := if truthy (lookup_field "request_state_store" s) then s
           else set_field "request_state_store" Cookies s in
  let s := match lookup_field "load_user_profile" s with
           | VUndefined => set_field "load_user_profile" (VBool true) s
           | _ => s
           end in
  let s := match lookup_field "filter_protocol_claims" s with
           | VUndefined => set_field "filter_protocol_claims" (VBool true) s
           | _ => s
           end in
  match (if truthy (lookup_field "authority" s)
         then match discovery_url (lookup_field "authority" s) with
              | Return a => Return (set_field "authority" a s)
              | Throw e => Throw e
              end
         else Return s) with
  | Throw e => Throw e
  | Return s =>
      Return (if truthy (lookup_field "response_type" s) then s
              else set_field "response_type" (VStr "id_token token") s)
  end.

Definition isOidc (s : obj) : result bool :=
  let response_type := lookup_field "response_type" s in
  if truthy response_type then
    match response_type with
    | VStr text =>
        let result := List.filter (fun item => String.eqb item "id_token")
                                  (split_spaces text) in
        Return match result with
               | item :: _ => truthy (VStr item)
               | [] => false
               end
    | _ => Throw (TypeError "self._settings.response_type.split is not a function")
    end
  else Return false.

Definition isOauth (s : obj) : result bool :=
  let response_type := lookup_field "response_type" s in
  if truthy response_type then
    match response_type with
    | VStr text =>
        let result := List.filter (fun item => String.eqb item "token")
                                  (split_spaces text) in
        Return match result with
               | item :: _ => truthy (VStr item)
               | [] => false
               end
    | _ => Throw (TypeError "self._settings.response_type.split is not a function")
    end
  else Return false.

Definition loadMetadataAsync : M (promise value) :=
  metadata <- setting "metadata" ;;
  if truthy metadata then resolve metadata else
  authority <- setting "authority" ;;
  if negb (truthy authority) then error "No authority configured" else
  httpSettings <- setting "httpSettings" ;;
  p <- then_ (of_reply (getJson rt authority VNull httpSettings))
         (fun metadata => set_setting "metadata" metadata ;;; resolve metadata) ;;
  catch_ p (fun err =>
    error ("Failed to load metadata (" +:+ exn_message err +:+ ")")).

Definition getKeyAsync (jwks : value) : M (promise value) :=
  keys <- lift (prop jwks "keys") ;;
  no_keys <- (if negb (truthy keys) then ret true
              else len <- lift (prop keys "length") ;; ret (negb (truthy len))) ;;
  if no_keys : bool then error "Signing keys empty" else
  key <- lift (elem0 keys) ;;
  kty <- lift (prop key "kty") ;;
  if negb (strict_eq kty (VStr "RSA")) then error "Signing key not RSA" else
  x5c <- lift (prop key "x5c") ;;
  no_chain <- (if negb (truthy x5c) then ret true
               else len <- lift (prop x5c "length") ;; ret (negb (truthy len))) ;;
  if no_chain : bool then error "RSA keys empty" else
  cert <- lift (elem0 x5c) ;;
  resolve cert.

Definition loadX509SigningKeyAsync : M (promise value) :=
  jwks <- setting "jwks" ;;
  if truthy jwks then getKeyAsync jwks else
  p <- loadMetadataAsync ;;
  then_ p (fun metadata =>
    jwks_uri <- lift (prop metadata "jwks_uri") ;;
    if negb (truthy jwks_uri) then error "Metadata does not contain jwks_uri" else
    httpSettings <- setting "httpSettings" ;;
    then2 (of_reply (getJson rt jwks_uri VNull httpSettings))
      (fun jwks => set_setting "jwks" jwks ;;; getKeyAsync jwks)
      (fun err =>
         error ("Failed to load signing keys (" +:+ exn_message err +:+ ")"))).

Definition loadUserProfile (access_token : value) : M (promise value) :=
  p <- loadMetadataAsync ;;
  then_ p (fun metadata =>
    userinfo_endpoint <- lift (prop metadata "userinfo_endpoint") ;;
    if negb (truthy userinfo_endpoint)
    then reject (Error "Metadata does not contain userinfo_endpoint") else
    httpSettings <- setting "httpSettings" ;;
    ret (of_reply (getJson rt userinfo_endpoint access_token httpSettings))).

(** In the two rejection handlers of the source the parameter is named
    [error] and hides the function of that name: [error(error)] calls the
    rejection value, which is not a function. *)
Definition call_of_rejection {A} : M A :=
  throw (TypeError "error is not a function").

Definition loadAuthorizationEndpoint : M (promise value) :=
  authorization_endpoint <- setting "authorization_endpoint" ;;
  if truthy authorization_endpoint then resolve authorization_endpoint else
  authority <- setting "authority" ;;
  if negb (truthy authority) then error "No authorization_endpoint configured" else
  p <- loadMetadataAsync ;;
  q <- then_ p (fun metadata =>
         if negb (truthy metadata)
         then error "Metadata does not contain authorization_endpoint" else
         endpoint <- lift (prop metadata "authorization_endpoint") ;;
         if negb (truthy endpoint)
         then error "Metadata does not contain authorization_endpoint"
         else resolve endpoint) ;;
  catch_ q (fun _ => call_of_rejection).

Definition required : list string :=
  ["client_id"; "redirect_uri"; "response_type"; "scope"].

Definition optional : list string :=
  ["prompt"; "display"; "max_age"; "ui_locales"; "id_token_hint";
   "login_hint"; "acr_values"; "response_mode"].

(** The body of the two [forEach] loops. *)
Definition append_param (s : obj) (url key : string) : string :=
  let value := lookup_field key s in
  if truthy value
  then url +:+ "&" +:+ key +:+ "=" +:+ encodeURIComponent (to_string value)
  else url.

Definition createTokenRequestAsync : M (promise value) :=
  p <- loadAuthorizationEndpoint ;;
  then2 p
    (fun authorization_endpoint =>
       state <- utility_rand ;;
       let url := to_string authorization_endpoint +:+ "?state="
                  +:+ encodeURIComponent state in
       s <- read_settings ;;
       oidc <- lift (isOidc s) ;;
       nonce_url <- (if oidc : bool
                     then nonce <- utility_rand ;;
                          ret (VStr nonce,
                               url +:+ "&nonce=" +:+ encodeURIComponent nonce)
                     else ret (VNull, url)) ;;
       let nonce := fst nonce_url in
       let url := List.fold_left (append_param s) required (snd nonce_url) in
       let url := List.fold_left (append_param s) optional url in
       oidc <- lift (isOidc s) ;;
       oauth <- lift (isOauth s) ;;
       let request_state :=
         [("oidc", VBool oidc); ("oauth", VBool oauth); ("state", VStr state)] in
       let request_state :=
         if truthy nonce then set_field "nonce" nonce request_state
         else request_state in
       store_set (lookup_field "request_state_key" s)
                 (JSON_stringify rt (VObj request_state)) ;;;
       resolve (VObj [("request_state", VObj request_state); ("url", VStr url)]))
    (fun _ => call_of_rejection).

Definition createLogoutRequestAsync (id_token_hint : value) : M (promise value) :=
  p <- loadMetadataAsync ;;
  then_ p (fun metadata =>
    endpoint <- lift (prop metadata "end_session_endpoint") ;;
    if negb (truthy endpoint) then error "No end_session_endpoint in metadata" else
    redirect <- setting "post_logout_redirect_uri" ;;
    if truthy id_token_hint && truthy redirect
    then resolve (VStr (to_string endpoint
                        +:+ "?post_logout_redirect_uri="
                        +:+ encodeURIComponent (to_string redirect)
                        +:+ "&id_token_hint="
                        +:+ encodeURIComponent (to_string id_token_hint)))
    else resolve endpoint).

(** [ToNumber]: [None] is [NaN].  Of the numeric strings the model reads
    the decimal integers with an optional sign; a string in another numeric
    form (white space around the digits, a fraction, an exponent, a radix
    prefix, [Infinity]) is outside the model, and the properties below take
    the claims [iat] and [exp] of a token as numbers. *)
Fixpoint digits (acc : Z) (s : string) : option Z :=
  match s with
  | EmptyString => Some acc
  | String c rest =>
      let n := code c in
      if ((48 <=? n) && (n <=? 57))%N
      then digits (10 * acc + Z.of_N (n - 48)) rest
      else None
  end.

Definition StringToNumber (s : string) : option Z :=
  match s with
  | EmptyString => Some 0
  | String "-"%char (String c rest) => Z.opp <$> digits 0 (String c rest)
  | String "+"%char (String c rest) => digits 0 (String c rest)
  | _ => digits 0 s
  end.

Definition ToNumber (v : value) : option Z :=
  match v with
  | VUndefined => None
  | VNull => Some 0
  | VBool b => Some (if b then 1 else 0)
  | VNum n => Some n
  | VStr s => StringToNumber s
  | VArr _ => StringToNumber (to_string v)
  | VObj _ => None
  end.

(** [Math.round(Date.now() / 1000)]. *)
Definition now_seconds (w : world) : Z := (clock w + 500) / 1000.

Definition current_time : M Z := fun w => (Return (now_seconds w), w).

(** [now - iat > 5 * 60]. *)
Definition issued_too_long_ago (now : Z) (iat : value) : bool :=
  match ToNumber iat with
  | Some t => now - t >? 5 * 60
  | None => false
  end.

(** [exp < now]. *)
Definition expired (now : Z) (exp : value) : bool :=
  match ToNumber exp with
  | Some t => t <? now
  | None => false
  end.

(** The callback of [loadUserProfile(..).then]: a truthy [statusCode] marks
    an http response instead of a profile. *)
Definition merge_profile (id_token_contents profile : value) : M (promise value) :=
  statusCode <- lift (prop profile "statusCode") ;;
  if truthy statusCode
  then resolve (VObj (utility_copy id_token_contents []))
  else match id_token_contents with
       | VObj target => resolve (VObj (utility_copy profile target))
       | _ => resolve id_token_contents
       end.

(** The end of the callback below: the claims of the token, with the
    profile of the userinfo endpoint when there is an access token and
    [load_user_profile] is set. *)
Definition with_profile (id_token_contents access_token : value)
  : M (promise value) :=
  load_user_profile <- setting "load_user_profile" ;;
  if truthy access_token && truthy load_user_profile then
    r <- loadUserProfile access_token ;;
    then_ r (merge_profile id_token_contents)
  else resolve id_token_contents.

(** The callback of the inner [loadMetadataAsync().then]. *)
Definition check_claims (id_token_contents access_token metadata : value)
  : M (promise value) :=
  iss <- lift (prop id_token_contents "iss") ;;
  issuer <- lift (prop metadata "issuer") ;;
  if negb (strict_eq iss issuer) then error "Invalid issuer" else
  aud <- lift (prop id_token_contents "aud") ;;
  client_id <- setting "client_id" ;;
  if negb (strict_eq aud client_id) then error "Invalid audience" else
  now <- current_time ;;
  iat <- lift (prop id_token_contents "iat") ;;
  if issued_too_long_ago now iat then error "Token issued too long ago" else
  exp <- lift (prop id_token_contents "exp") ;;
  if expired now exp then error "Token expired" else
  with_profile id_token_contents access_token.

(** The callback of [loadX509SigningKeyAsync().then]. *)
Definition check_signature (id_token nonce access_token cert : value)
  : M (promise value) :=
  match verifyJWSByPemX509Cert rt id_token cert with
  | Failure m => throw (Collaborator m)
  | Reply (true, payloadS) =>
      id_token_contents <- parse payloadS ;;
      token_nonce <- lift (prop id_token_contents "nonce") ;;
      if negb (strict_eq nonce token_nonce) then error "Invalid nonce" else
      q <- loadMetadataAsync ;;
      then_ q (check_claims id_token_contents access_token)
  | Reply (false, _) => error "JWT failed to validate"
  end.

Definition validateIdTokenAsync (id_token nonce access_token : value)
  : M (promise value) :=
  p <- loadX509SigningKeyAsync ;;
  then_ p (check_signature id_token nonce access_token).

(** [hash.substr(0, hash.length / 2)]. *)
Definition left_half (hash : string) : string :=
  String.substring 0 (Nat.div2 (String.length hash)) hash.

Definition validateAccessTokenAsync (id_token_contents access_token : value)
  : M (promise value) :=
  at_hash <- lift (prop id_token_contents "at_hash") ;;
  if negb (truthy at_hash) then error "No at_hash in id_token" else
  let hash := sha256 rt access_token in
  let left := left_half hash in
  let left_b64u := hextob64u rt left in
  if negb (strict_eq (VStr left_b64u) at_hash)
  then error "at_hash failed to validate"
  else resolve VUndefined.

Definition validateIdTokenAndAccessTokenAsync (id_token nonce access_token : value)
  : M (promise value) :=
  p <- validateIdTokenAsync id_token nonce access_token ;;
  then_ p (fun id_token_contents =>
    q <- validateAccessTokenAsync id_token_contents access_token ;;
    then_ q (fun _ => resolve id_token_contents)).

Definition remove : list string :=
  ["nonce"; "at_hash"; "iat"; "nbf"; "exp"; "aud"; "iss"; "idp"].

(** The callback of [localPromise.then] in [processResponseAsync]. *)
Definition deliver (result profile : value) : M (promise value) :=
  filter_protocol_claims <- setting "filter_protocol_claims" ;;
  let profile :=
    if truthy profile && truthy filter_protocol_claims
    then List.fold_left (fun p key => delete_prop key p) remove profile
    else profile in
  id_token <- lift (prop result "id_token") ;;
  access_token <- lift (prop result "access_token") ;;
  expires_in <- lift (prop result "expires_in") ;;
  scope <- lift (prop result "scope") ;;
  session_state <- lift (prop result "session_state") ;;
  resolve (VObj [("profile", profile); ("id_token", id_token);
                 ("access_token", access_token); ("expires_in", expires_in);
                 ("scope", scope); ("session_state", session_state)]).

(** [result.token_type.toLowerCase() !== "bearer"], for a [token_type] that
    is not falsy. *)
Definition not_bearer (token_type : value) : result bool :=
  match token_type with
  | VStr s => Return (negb (strict_eq (VStr (toLowerCase s)) (VStr "bearer")))
  | _ => Throw (TypeError "result.token_type.toLowerCase is not a function")
  end.

(** The request state the response is checked against: the argument, or
    the entry of the store, which is cleared as soon as it is read; then
    [JSON.parse]. *)
Definition load_request_state (requestState : value) : M value :=
  key <- setting "request_state_key" ;;
  request_state <-
    (if negb (truthy requestState)
     then stored <- store_get key ;; store_clear key ;;; ret stored
     else ret requestState) ;;
  if negb (truthy request_state) then error "No request state loaded" else
  request_state <- parse (to_string request_state) ;;
  if negb (truthy request_state) then error "No request state loaded" else
  ret request_state.

(** The checks of the response against the request state, up to the choice
    of [localPromise]. *)
Definition check_response (result request_state : value) : M unit :=
  state <- lift (prop request_state "state") ;;
  if negb (truthy state) then error "No state loaded" else
  if negb (truthy result) then error "No OIDC response" else
  result_error <- lift (prop result "error") ;;
  if truthy result_error then error (to_string result_error) else
  result_state <- lift (prop result "state") ;;
  if negb (strict_eq result_state state) then error "Invalid state" else
  oidc <- lift (prop request_state "oidc") ;;
  oauth <- lift (prop request_state "oauth") ;;
  (if truthy oidc
   then id_token <- lift (prop result "id_token") ;;
        if negb (truthy id_token) then error "No identity token" else
        nonce <- lift (prop request_state "nonce") ;;
        if negb (truthy nonce) then error "No nonce loaded"
        else ret tt
   else ret tt) ;;;
  (if truthy oauth
   then access_token <- lift (prop result "access_token") ;;
        if negb (truthy access_token) then error "No access token" else
        token_type <- lift (prop result "token_type") ;;
        bad_type <- (if negb (truthy token_type) then ret true
                     else lift (not_bearer token_type)) ;;
        if bad_type : bool then error "Invalid token type" else
        expires_in <- lift (prop result "expires_in") ;;
        if negb (truthy expires_in) then error "No token expiration"
        else ret tt
   else ret tt).

(** The choice of [localPromise]. *)
Definition verify_tokens (result request_state : value) : M (promise value) :=
  oidc <- lift (prop request_state "oidc") ;;
  oauth <- lift (prop request_state "oauth") ;;
  id_token <- lift (prop result "id_token") ;;
  nonce <- lift (prop request_state "nonce") ;;
  access_token <- lift (prop result "access_token") ;;
  if truthy oidc && truthy oauth
  then validateIdTokenAndAccessTokenAsync id_token nonce access_token
  else if truthy oidc
  then validateIdTokenAsync id_token nonce VUndefined
  else resolve VUndefined.

Definition processResponseAsync (result requestState : value)
  : M (promise value) :=
  request_state <- load_request_state requestState ;;
  check_response result request_state ;;;
  localPromise <- verify_tokens result request_state ;;
  then_ localPromise (deliver result).

End Client.

(** ** A runtime to run the client on

    [JSON.parse] and [JSON.stringify] on the texts made of objects, arrays,
    strings, integers, [true], [false] and [null]; [hextob64u] of
    jsrsasign; a table of documents for [utility.getJson]; and stand-ins for
    the signature check and the digest, which the properties below never
    look into. *)

Module Sample.

Definition json_space (c : ascii) : bool :=
  let n := code c in ((n =? 32) || (n =? 9) || (n =? 10) || (n =? 13))%N.

Fixpoint skip_spaces (s : string) : string :=
  match s with
  | String c rest => if json_space c then skip_spaces rest else s
  | EmptyString => s
  end.

Definition hex_value (c : ascii) : option N :=
  let n := code c in
  if ((48 <=? n) && (n <=? 57))%N then Some (n - 48)%N
  else if ((97 <=? n) && (n <=? 102))%N then Some (n - 87)%N
  else if ((65 <=? n) && (n <=? 70))%N then Some (n - 55)%N
  else None.

(** The characters of a string literal after its opening quote, and the
    text that follows the closing quote. *)
Fixpoint string_literal (s : string) : option (string * string) :=
  match s with
  | EmptyString => None
  | String "034"%char rest => Some ("", rest)
  | String "\"%char (String e rest) =>
      let plain (c : ascii) :=
        match string_literal rest with
        | Some (body, tail) => Some (String c body, tail)
        | None => None
        end in
      match e with
      | "034"%char => plain "034"%char
      | "\"%char => plain "\"%char
      | "/"%char => plain "/"%char
      | "b"%char => plain (ascii_of_N 8)
      | "f"%char => plain (ascii_of_N 12)
      | "n"%char => plain (ascii_of_N 10)
      | "r"%char => plain (ascii_of_N 13)
      | "t"%char => plain (ascii_of_N 9)
      | "u"%char =>
          match rest with
          | String "0" (String "0" (String h (String l rest'))) =>
              match hex_value h, hex_value l, string_literal rest' with
              | Some x, Some y, Some (body, tail) =>
                  Some (String (ascii_of_N (16 * x + y)) body, tail)
              | _, _, _ => None
              end
          | _ => None
          end
      | _ => None
      end
  | String c rest =>
      if (code c <? 32)%N then None
      else match string_literal rest with
           | Some (body, tail) => Some (String c body, tail)
           | None => None
           end
  end.

Fixpoint digit_run (s : string) : string * string :=
  match s with
  | String c rest =>
      if ((48 <=? code c) && (code c <=? 57))%N
      then let '(ds, tail) := digit_run rest in (String c ds, tail)
      else ("", s)
  | EmptyString => ("", s)
  end.

(** An integer literal; a fraction or an exponent is refused. *)
Definition integer_literal (s : string) : option (Z * string) :=
  let '(negative, s') := match s with
                         | String "-"%char rest => (true, rest)
                         | _ => (false, s)
                         end in
  let '(ds, tail) := digit_run s' in
  match ds, tail with
  | EmptyString, _ => None
  | String "0" (String _ _), _ => None
  | _, String "."%char _ | _, String "e"%char _ | _, String "E"%char _ => None
  | _, _ => match digits 0 ds with
            | Some n => Some (if negative : bool then - n else n, tail)
            | None => None
            end
  end.

Definition literal (word : string) (v : value) (s : string)
  : option (value * string) :=
  if String.prefix word s
  then Some (v, String.substring (String.length word)
                                 (String.length s - String.length word) s)
  else None.

Fixpoint json_value (fuel : nat) (s : string) : option (value * string) :=
  match fuel with
  | O => None
  | S fuel =>
      match skip_spaces s with
      | String "{"%char rest =>
          match skip_spaces rest with
          | String "}"%char tail => Some (VObj [], tail)
          | _ => json_members fuel [] rest
          end
      | String "["%char rest =>
          match skip_spaces rest with
          | String "]"%char tail => Some (VArr [], tail)
          | _ => json_elements fuel [] rest
          end
      | String "034"%char rest =>
          match string_literal rest with
          | Some (text, tail) => Some (VStr text, tail)
          | None => None
          end
      | String "t"%char _ as s' => literal "true" (VBool true) s'
      | String "f"%char _ as s' => literal "false" (VBool false) s'
      | String "n"%char _ as s' => literal "null" VNull s'
      | s' => match integer_literal s' with
              | Some (n, tail) => Some (VNum n, tail)
              | None => None
              end
      end
  end
with json_members (fuel : nat) (acc : obj) (s : string) : option (value * string) :=
  match fuel with
  | O => None
  | S fuel =>
      match skip_spaces s with
      | String "034"%char rest =>
          match string_literal rest with
          | Some (key, tail) =>
              match skip_spaces tail with
              | String ":"%char tail =>
                  match json_value fuel tail with
                  | Some (v, tail) =>
                      match skip_spaces tail with
                      | String ","%char tail =>
                          json_members fuel (set_field key v acc) tail
                      | String "}"%char tail =>
                          Some (VObj (set_field key v acc), tail)
                      | _ => None
                      end
                  | None => None
                  end
              | _ => None
              end
          | None => None
          end
      | _ => None
      end
  end
with json_elements (fuel : nat) (acc : list value) (s : string)
  : option (value * string) :=
  match fuel with
  | O => None
  | S fuel =>
      match json_value fuel s with
      | Some (v, tail) =>
          match skip_spaces tail with
          | String ","%char tail => json_elements fuel (acc ++ [v]) tail
          | String "]"%char tail => Some (VArr (acc ++ [v]), tail)
          | _ => None
          end
      | None => None
      end
  end.

Definition parse_text (s : string) : reply value :=
  match json_value (S (String.length s)) s with
  | Some (v, tail) =>
      match skip_spaces tail with
      | EmptyString => Reply v
      | _ => Failure "Unexpected non-whitespace character after JSON"
      end
  | None => Failure "Unexpected token in JSON"
  end.

Definition quote : string := String "034"%char "".

Definition escape_char (c : ascii) : string :=
  let n := code c in
  if (n =? 34)%N then "\" +:+ quote
  else if (n =? 92)%N then "\\"
  else if (n =? 8)%N then "\b"
  else if (n =? 12)%N then "\f"
  else if (n =? 10)%N then "\n"
  else if (n =? 13)%N then "\r"
  else if (n =? 9)%N then "\t"
  else if (n <? 32)%N
       then "\u00" +:+ String (lower_char (hex_digit (n / 16)))
                              (String (lower_char (hex_digit (n mod 16))) "")
  else String c "".

Fixpoint escape (s : string) : string :=
  match s with
  | EmptyString => EmptyString
  | String c rest => escape_char c +:+ escape rest
  end.

Definition quoted (s : string) : string := quote +:+ escape s +:+ quote.

(** [JSON.stringify(v)]: a member whose value is [undefined] is left out,
    an element that is [undefined] is written [null]. *)
Fixpoint stringify (v : value) : string :=
  match v with
  | VUndefined | VNull => "null"
  | VBool true => "true"
  | VBool false => "false"
  | VNum n => Z_to_string n
  | VStr s => quoted s
  | VArr items => "[" +:+ join "," (List.map stringify items) +:+ "]"
  | VObj fields =>
      "{" +:+ join "," ((fix members (l : obj) : list string :=
                           match l with
                           | [] => []
                           | (_, VUndefined) :: rest => members rest
                           | (k, x) :: rest =>
                               (quoted k +:+ ":" +:+ stringify x) :: members rest
                           end) fields) +:+ "}"
  end.

Fixpoint hex_bits (s : string) : list bool :=
  match s with
  | EmptyString => []
  | String c rest =>
      let n := match hex_value c with Some n => n | None => 0%N end in
      [N.testbit n 3; N.testbit n 2; N.testbit n 1; N.testbit n 0] ++ hex_bits rest
  end.

Definition bits_value (bits : list bool) : N :=
  List.fold_left (fun n (b : bool) => (2 * n + if b then 1 else 0)%N) bits 0%N.

Definition b64u_char (n : N) : ascii :=
  ascii_of_N (if (n <? 26)%N then 65 + n
              else if (n <? 52)%N then 71 + n
              else if (n <? 62)%N then n - 4
              else if (n =? 62)%N then 45 else 95).

Fixpoint sextets (fuel : nat) (bits : list bool) : string :=
  match fuel, bits with
  | O, _ | _, [] => EmptyString
  | S fuel, _ =>
      let six := List.firstn 6 (bits ++ [false; false; false; false; false]) in
      String (b64u_char (bits_value six)) (sextets fuel (List.skipn 6 bits))
  end.

(** [hextob64u] of jsrsasign: an odd number of digits gets a leading zero;
    base64 with the url alphabet and without padding. *)
Definition hex_to_b64u (hex : string) : string :=
  let hex := if Nat.odd (String.length hex) then "0" +:+ hex else hex in
  let bits := hex_bits hex in
  sextets (List.length bits) bits.

(** A stand-in for the signature check: a token is the text of the
    certificate, a colon, and the payload. *)
Definition verify (id_token cert : value) : reply (bool * string) :=
  match id_token, cert with
  | VStr token, VStr c =>
      let tag := c +:+ ":" in
      if String.prefix tag token
      then Reply (true, String.substring (String.length tag)
                          (String.length token - String.length tag) token)
      else Reply (false, "")
  | _, _ => Failure "not a JWS"
  end.

(** A stand-in for the digest: sixty-four hexadecimal digits read off the
    first characters of the text. *)
Definition digest (v : value) : string :=
  String.substring 0 64
    (hex_of_bytes (to_string v)
     +:+ hex_of_bytes "0123456789abcdef0123456789abcdef").

Definition authority_url : string :=
  "https://idp.example/.well-known/openid-configuration".

Definition metadata_document : value :=
  VObj [("issuer", VStr "https://idp.example");
        ("authorization_endpoint", VStr "https://idp.example/authorize");
        ("jwks_uri", VStr "https://idp.example/jwks");
        ("userinfo_endpoint", VStr "https://idp.example/userinfo")].

Definition jwks_document : value :=
  VObj [("keys", VArr [VObj [("kty", VStr "RSA");
                             ("x5c", VArr [VStr "CERT-A"; VStr "CERT-B"])]])].

Definition userinfo_document : value :=
  VObj [("sub", VStr "alice"); ("name", VStr "Alice A."); ("idp", VStr "local")].

(** What the transport answers; the userinfo endpoint wants the bearer
    token [AT-1] and otherwise hands back its http response. *)
Definition fetch (url token httpSettings : value) : reply value :=
  match url with
  | VStr u =>
      if String.eqb u authority_url then Reply metadata_document
      else if String.eqb u "https://idp.example/jwks" then Reply jwks_document
      else if String.eqb u "https://idp.example/userinfo"
           then if strict_eq token (VStr "AT-1") then Reply userinfo_document
                else Reply (VObj [("statusCode", VNum 401)])
      else Failure "connect ECONNREFUSED"
  | _ => Failure "Invalid URI"
  end.

Definition random (n : nat) : string := "r" +:+ Z_to_string (Z.of_nat n) +:+ "/x".

(** A key set whose first key is an elliptic-curve key and whose second
    key is an RSA key with a certificate. *)
Definition mixed_key_set : value :=
  VObj [("keys", VArr [VObj [("kty", VStr "EC"); ("x5c", VArr [VStr "CERT-E"])];
                       VObj [("kty", VStr "RSA"); ("x5c", VArr [VStr "CERT-R"])]])].

Definition client (s : obj) (store : gmap string string) (time : Z) : world :=
  {| settings := s; request_state_store := store; rand_calls := 0; clock := time |}.

Definition runtime : Runtime :=
  {| JSON_parse := parse_text;
     JSON_stringify := stringify;
     getJson := fetch;
     rand := random;
     verifyJWSByPemX509Cert := verify;
     sha256 := digest;
     hextob64u := hex_to_b64u |}.

(** A client of the provider above, the world after it has asked for a
    token request, and the response of the provider to that request. *)
Definition server_settings : value :=
  VObj [("authority", VStr "https://idp.example");
        ("client_id", VStr "app");
        ("redirect_uri", VStr "https://app.example/cb?x=1");
        ("scope", VStr "openid profile");
        ("display", VStr "");
        ("max_age", VNum 3600)].

Definition configured : obj :=
  match OidcClient server_settings with
  | Return s => s
  | Throw _ => []
  end.

Definition fresh : world := client configured ∅ 1700000000400.

Definition started : world := snd (createTokenRequestAsync runtime fresh).

Definition token_claims (iat exp : Z) : value :=
  VObj [("iss", VStr "https://idp.example"); ("aud", VStr "app");
        ("iat", VNum iat); ("exp", VNum exp); ("nonce", VStr "r1/x");
        ("at_hash", VStr "QVQtMTAxMjM0NTY3ODlhYg");
        ("sub", VStr "alice"); ("email", VStr "alice@example.org")].

(** The claims of the token issued at 1699999900 that expires at
    1700000600. *)
Definition claims_of_token : obj :=
  [("iss", VStr "https://idp.example"); ("aud", VStr "app");
   ("iat", VNum 1699999900); ("exp", VNum 1700000600); ("nonce", VStr "r1/x");
   ("at_hash", VStr "QVQtMTAxMjM0NTY3ODlhYg");
   ("sub", VStr "alice"); ("email", VStr "alice@example.org")].

Definition id_token_of (claims : value) : value :=
  VStr ("CERT-A:" +:+ stringify claims).

Definition callback (state : string) (iat exp : Z) : value :=
  VObj [("state", VStr state);
        ("id_token", id_token_of (token_claims iat exp));
        ("access_token", VStr "AT-1");
        ("token_type", VStr "Bearer");
        ("expires_in", VNum 3600);
        ("scope", VStr "openid profile")].

(** The response to the request, and what the client makes of it. *)
Definition response : value := callback "r0/x" 1699999900 1700000600.

Definition session : value :=
  match fst (processResponseAsync runtime response VUndefined started) with
  | Return (Fulfilled s) => s
  | _ => VUndefined
  end.

Definition finished : world :=
  snd (processResponseAsync runtime response VUndefined started).

(** The world once the signing key and the metadata are resolved. *)
Definition resolved : world :=
  snd (loadMetadataAsync runtime (snd (loadX509SigningKeyAsync runtime started))).

(** The client of the sample with a [max_age] of zero: every session must
    be a new one. *)
Definition impatient : world :=
  client (set_field "max_age" (VNum 0) configured) ∅ 1700000000400.

End Sample.

(** ** [mergeRequestOptions]

    The method works on the settings alone; what it needs of the [url]
    module of Node is taken as a parameter: the [protocol] of
    [url.parse(text)] ([null] when the text has none) and
    [url.resolve(from, to)]. *)

Record UrlModule : Type := {
  url_parse_protocol : string -> value;
  url_resolve : string -> string -> string
}.

(** [a || b]. *)
Definition or_else (a b : value) : value := if truthy a then a else b.

(** [v == 'https']: an object is compared through its text, a number or
    a boolean through the number of [https], which is [NaN]. *)
Definition loose_eq_https (v : value) : bool :=
  match v with
  | VStr _ | VArr _ | VObj _ => String.eqb (to_string v) "https"
  | VUndefined | VNull | VBool _ | VNum _ => false
  end.

(** [items.join(sep)]. *)
Definition array_join (items : list value) (sep : value) : string :=
  join (match sep with
        | VUndefined => ","
        | _ => to_string sep
        end)
       (List.map (fun x => match x with
                           | VUndefined | VNull => ""
                           | _ => to_string x
                           end) items).

Section RequestOptions.

Context (url : UrlModule).

(** [function originalURL(req)]. *)
Definition originalURL (req : value) : M string :=
  headers <- lift (prop req "headers") ;;
  connection <- lift (prop req "connection") ;;
  encrypted <- lift (prop connection "encrypted") ;;
  secure <- (if truthy encrypted then ret true
             else forwarded <- lift (prop headers "x-forwarded-proto") ;;
                  ret (loose_eq_https forwarded)) ;;
  let protocol := if secure : bool then "https" else "http" in
  host <- lift (prop headers "host") ;;
  path <- lift (prop req "url") ;;
  ret (protocol +:+ "://" +:+ to_string host
       +:+ to_string (or_else path (VStr ""))).

(** [if (options.name) { params.target = options.name; }]. *)
Definition merge_option (options : value) (name target : string) : M unit :=
  v <- lift (prop options name) ;;
  if truthy v then set_setting target v else ret tt.

(** [params.openid.realm = v], in strict mode: only an object takes the
    property.  An array would take it too, as a named property that this
    model of arrays has no place for. *)
Definition set_realm (v : value) : M unit :=
  openid <- setting "openid" ;;
  match openid with
  | VObj o => set_setting "openid" (VObj (set_field "realm" v o))
  | VArr _ => ret tt
  | _ => throw (TypeError "Cannot set property 'realm'")
  end.

(** [callbackURL] as lines 458 to 466 leave it: the option or else the
    setting, resolved against the url of the request when it names no
    protocol. *)
Definition resolve_callback (req options : value) : M value :=
  option_callback <- lift (prop options "callbackURL") ;;
  config_callback <- setting "callbackURL" ;;
  let callbackURL := or_else option_callback config_callback in
  if truthy callbackURL
  then match callbackURL with
       | VStr text =>
           if truthy (url_parse_protocol url text) then ret callbackURL
           else base <- originalURL req ;;
                ret (VStr (url_resolve url base text))
       | _ => throw (TypeError "Parameter 'url' must be a string")
       end
  else ret callbackURL.

(** The end of the method, from [var scope] on. *)
Definition merge_scope (options : value) : M unit :=
  option_scope <- lift (prop options "scope") ;;
  config_scope <- setting "scope" ;;
  separator <- setting "scopeSeparator" ;;
  let scope := or_else option_scope config_scope in
  let scope := match scope with
               | VArr items => VStr (array_join items separator)
               | _ => scope
               end in
  if truthy scope
  then set_setting "scope"
         (VStr ("openid" +:+ to_string separator +:+ to_string scope))
  else set_setting "scope" (VStr "openid").

Definition mergeRequestOptions (req options : value) : M unit :=
  callbackURL <- resolve_callback req options ;;
  set_setting "redirect_uri" callbackURL ;;;
  option_mode <- lift (prop options "response_mode") ;;
  config_mode <- setting "response_mode" ;;
  (if truthy (or_else option_mode config_mode)
   then set_setting "response_mode" (or_else option_mode config_mode)
   else ret tt) ;;;
  option_type <- lift (prop options "response_type") ;;
  config_type <- setting "response_type" ;;
  set_setting "response_type" (or_else option_type config_type) ;;;
  merge_option options "prompt" "prompt" ;;;
  merge_option options "display" "display" ;;;
  merge_option options "login_hint" "login_hint" ;;;
  merge_option options "accessType" "access_type" ;;;
  realm <- lift (prop options "openidRealm") ;;
  (if truthy realm then set_realm realm else ret tt) ;;;
  merge_option options "hd" "hd" ;;;
  merge_option options "acr_values" "acr_values" ;;;
  merge_scope options.

End RequestOptions.

(** A [url] module to run [mergeRequestOptions] on: it knows the schemes
    [http] and [https], and resolves a path against the origin of the
    base. *)
Module SampleUrl.

Definition protocol_of (text : string) : value :=
  if String.prefix "https://" text then VStr "https:"
  else if String.prefix "http://" text then VStr "http:"
  else VNull.

Definition origin_of (base : string) : string :=
  let skip := if String.prefix "https://" base then 8%nat else 7%nat in
  match String.index skip "/" base with
  | Some i => String.substring 0 i base
  | None => base
  end.

Definition resolve_path (base path : string) : string :=
  origin_of base +:+ path.

Definition module : UrlModule :=
  {| url_parse_protocol := protocol_of; url_resolve := resolve_path |}.

(** A request that came through a proxy which ended the TLS connection. *)
Definition request : value :=
  VObj [("headers", VObj [("host", VStr "app.example");
                          ("x-forwarded-proto", VStr "https")]);
        ("connection", VObj []);
        ("url", VStr "/login?next=%2Fhome")].

Definition options : value :=
  VObj [("callbackURL", VStr "/auth/cb");
        ("scope", VArr [VStr "profile"; VStr "email"]);
        ("prompt", VStr "login"); ("max_age", VNum 60)].

Definition configured : obj :=
  set_field "scopeSeparator" (VStr " ") Sample.configured.

End SampleUrl.


(** ** Vocabulary of the statements *)

(** The values that have an [indexOf] method. *)
Definition has_indexOf (v : value) : Prop :=
  match v with
  | VStr _ | VArr _ => True
  | _ => False
  end.

(** [w'] is [w] up to the two documents the client caches in its settings
    ([metadata] and [jwks]). *)
Definition same_but_cache (w w' : world) : Prop :=
  request_state_store w' = request_state_store w
  /\ rand_calls w' = rand_calls w
  /\ clock w' = clock w
  /\ forall k : string, k <> "metadata" -> k <> "jwks" ->
       lookup_field k (settings w') = lookup_field k (settings w).

(** A computation that changes nothing but that cache. *)
Definition quiet {A} (m : M A) : Prop :=
  forall w : world, same_but_cache w (snd (m w)).

(** The key of the entry of the store. *)
Definition state_key (w : world) : string :=
  to_string (lookup_field "request_state_key" (settings w)).

(** The world once the entry is cleared. *)
Definition cleared (w : world) : world :=
  with_store (delete (state_key w) (request_state_store w)) w.

(** The identity token passes the checks that come before the clock is
    read: the certificate is resolved, the signature is valid, the payload
    is a JSON text, its [nonce] is the expected one, the metadata is
    resolved (in the world [w2]), its [issuer] is the [iss] of the token and
    the [client_id] of the settings is its [aud]. *)
Definition passes_checks (rt : Runtime) (id_token nonce : value) (w w2 : world)
    (claims : value) : Prop :=
  exists (cert metadata : value) (payloadS : string) (w1 : world)
         (token_nonce iss issuer aud : value),
    loadX509SigningKeyAsync rt w = (Return (Fulfilled cert), w1)
    /\ verifyJWSByPemX509Cert rt id_token cert = Reply (true, payloadS)
    /\ JSON_parse rt payloadS = Reply claims
    /\ prop claims "nonce" = Return token_nonce
    /\ strict_eq nonce token_nonce = true
    /\ loadMetadataAsync rt w1 = (Return (Fulfilled metadata), w2)
    /\ prop claims "iss" = Return iss
    /\ prop metadata "issuer" = Return issuer
    /\ strict_eq iss issuer = true
    /\ prop claims "aud" = Return aud
    /\ strict_eq aud (lookup_field "client_id" (settings w2)) = true.

(** The two failures of the time window. *)
Definition too_old : exn := Error "Token issued too long ago".
Definition token_expired : exn := Error "Token expired".

(** The object without the properties named in [keys]. *)
Definition strip (keys : list string) (o : obj) : obj :=
  List.fold_left (fun o key => delete_field key o) keys o.

(** The protocol claims, as step 8 of section 4.3 of the specification
    lists them. *)
Definition reserved_claims : list string :=
  ["nonce"; "at_hash"; "iat"; "nbf"; "exp"; "aud"; "iss"; "idp"].

(** The parameters of the authorization url after [state] and [nonce], in
    the order section 4.2 of the specification gives them. *)
Definition request_parameters : list string :=
  ["client_id"; "redirect_uri"; "response_type"; "scope";
   "prompt"; "display"; "max_age"; "ui_locales"; "id_token_hint";
   "login_hint"; "acr_values"; "response_mode"].

(** The values whose text [to_string] gives as the engine does: every
    number in them is a safe integer. *)
Fixpoint safe_text (v : value) : bool :=
  match v with
  | VNum n => Z.abs n <? 2 ^ 53
  | VArr items => List.forallb safe_text items
  | _ => true
  end.

(** The authorization url: the endpoint, [state], [nonce] when there is
    one, then those of the [request_parameters] whose setting is truthy
    (not undefined, null, false, zero or the empty string), in their
    order, every value percent-encoded. *)
Definition query_parameter (s : obj) (key : string) : string :=
  "&" +:+ key +:+ "=" +:+ encodeURIComponent (to_string (lookup_field key s)).

Definition configured_keys (s : obj) : list string :=
  List.filter (fun key => truthy (lookup_field key s)) request_parameters.

Definition concat_all (l : list string) : string :=
  List.fold_right String.append "" l.

Definition authorization_url (endpoint state : string) (nonce : option string)
    (s : obj) : string :=
  endpoint +:+ "?state=" +:+ encodeURIComponent state
  +:+ match nonce with
      | Some n => "&nonce=" +:+ encodeURIComponent n
      | None => ""
      end
  +:+ concat_all (List.map (query_parameter s) (configured_keys s)).

(** The key set [loadX509SigningKeyAsync] works on in the world [w]: the
    one cached in the settings, or else the one fetched from the [jwks_uri]
    of the metadata. *)
Definition uses_key_set (rt : Runtime) (w : world) (jwks : value) : Prop :=
  (truthy (lookup_field "jwks" (settings w)) = true
   /\ jwks = lookup_field "jwks" (settings w))
  \/ (truthy (lookup_field "jwks" (settings w)) = false
      /\ exists (metadata jwks_uri : value) (w1 : world),
           loadMetadataAsync rt w = (Return (Fulfilled metadata), w1)
           /\ prop metadata "jwks_uri" = Return jwks_uri
           /\ truthy jwks_uri = true
           /\ getJson rt jwks_uri VNull (lookup_field "httpSettings" (settings w1))
              = Reply jwks).

(** The metadata cannot give the authorization endpoint: it is not
    resolved, or it is resolved without an [authorization_endpoint]. *)
Definition no_endpoint_in_metadata (rt : Runtime) (w : world) : Prop :=
  forall (metadata endpoint : value) (w1 : world),
    loadMetadataAsync rt w = (Return (Fulfilled metadata), w1) ->
    prop metadata "authorization_endpoint" = Return endpoint ->
    truthy endpoint = false.

(** The request state [createTokenRequestAsync] records: the two flags,
    the state, and the nonce when there is one and it is not empty. *)
Definition request_state_record (oidc oauth : bool) (state : string)
    (nonce : option string) : obj :=
  [("oidc", VBool oidc); ("oauth", VBool oauth); ("state", VStr state)]
  ++ match nonce with
     | Some n => if String.eqb n "" then [] else [("nonce", VStr n)]
     | None => []
     end.


(** ** Further clients to run the client on *)

Module Cases.

Import Sample.

Definition with_setting (k : string) (v : value) (w : world) : world :=
  with_settings (set_field k v (settings w)) w.

(** A client whose authorization endpoint is configured. *)
Definition pinned : world :=
  with_setting "authorization_endpoint" (VStr "https://login.example/auth") fresh.

(** A client without an authority. *)
Definition stray : world := with_setting "authority" VUndefined fresh.

(** A client of a provider that does not answer. *)
Definition unreachable : world :=
  with_setting "authority"
    (VStr "https://down.example/.well-known/openid-configuration") fresh.

(** What the token request of the sample answers. *)
Definition request : value :=
  match fst (createTokenRequestAsync runtime fresh) with
  | Return (Fulfilled answer) => answer
  | _ => VUndefined
  end.

(** Clients whose metadata names no key set, and a key set that cannot be
    fetched. *)
Definition no_jwks_uri : world :=
  with_setting "metadata" (VObj [("issuer", VStr "https://idp.example")]) fresh.

Definition dead_jwks_uri : world :=
  with_setting "metadata"
    (VObj [("issuer", VStr "https://idp.example");
           ("jwks_uri", VStr "https://down.example/jwks")]) fresh.

(** Clients with a key set without keys, and with an RSA key without
    certificates. *)
Definition empty_keys : world :=
  with_setting "jwks" (VObj [("keys", VArr [])]) fresh.

Definition bare_rsa_key : world :=
  with_setting "jwks" (VObj [("keys", VArr [VObj [("kty", VStr "RSA")]])]) fresh.

(** A client with a place to come back to after the logout, of a provider
    with an end-session endpoint. *)
Definition logout_metadata : value :=
  VObj [("issuer", VStr "https://idp.example");
        ("end_session_endpoint", VStr "https://idp.example/logout")].

Definition logout : world :=
  with_setting "post_logout_redirect_uri" (VStr "https://app.example/bye")
    (with_setting "metadata" logout_metadata fresh).

(** Settings that switch the profile request off and name no key for the
    request state, and the client made of them. *)
Definition terse_settings : value :=
  VObj [("client_id", VStr "app"); ("request_state_key", VStr "");
        ("request_state_store", VNull);
        ("load_user_profile", VBool false); ("filter_protocol_claims", VNull);
        ("authority", VStr "https://idp.example/")].

Definition terse : obj :=
  match OidcClient terse_settings with
  | Return s => s
  | Throw _ => []
  end.

(** The world once the signing key and the metadata are resolved. *)
Definition resolved_from (w : world) : world :=
  snd (loadMetadataAsync runtime (snd (loadX509SigningKeyAsync runtime w))).

(** Clients, after their token request, of a provider whose metadata names
    no userinfo endpoint, and one that cannot be reached. *)
Definition no_userinfo : world :=
  with_setting "metadata"
    (VObj [("issuer", VStr "https://idp.example");
           ("jwks_uri", VStr "https://idp.example/jwks")]) started.

Definition dead_userinfo : world :=
  with_setting "metadata"
    (VObj [("issuer", VStr "https://idp.example");
           ("jwks_uri", VStr "https://idp.example/jwks");
           ("userinfo_endpoint", VStr "https://down.example/userinfo")]) started.

(** The token of the sample, and tokens of another issuer and for another
    client. *)
Definition good_claims : value := token_claims 1699999900 1700000600.

Definition claims_from (iss aud : string) : value :=
  VObj [("iss", VStr iss); ("aud", VStr aud);
        ("iat", VNum 1699999900); ("exp", VNum 1700000600);
        ("nonce", VStr "r1/x")].

(** What the validation of the identity token of the sample answers when
    it is given the access token. *)
Definition verified_with (access_token : value) : obj :=
  match fst (validateIdTokenAsync runtime (id_token_of good_claims)
               (VStr "r1/x") access_token started) with
  | Return (Fulfilled (VObj claims)) => claims
  | _ => []
  end.

(** The request state of the sample, the fields of the response to it,
    and responses that lack something. *)
Definition request_state : obj :=
  [("oidc", VBool true); ("oauth", VBool true);
   ("state", VStr "r0/x"); ("nonce", VStr "r1/x")].

Definition response_fields : obj :=
  match response with
  | VObj r => r
  | _ => []
  end.

Definition mac_response : obj := set_field "token_type" (VStr "mac") response_fields.

Definition spent_response : obj := set_field "expires_in" (VNum 0) response_fields.

Definition bare_response : obj := [("state", VStr "r0/x")].

Definition denied_response : value :=
  VObj [("error", VStr "access_denied"); ("state", VStr "r7/x")].

(** The request state of a request for an access token alone, and the
    response to it. *)
Definition oauth_state : obj :=
  [("oidc", VBool false); ("oauth", VBool true); ("state", VStr "r5/x")].

Definition oauth_response : obj :=
  [("state", VStr "r5/x"); ("access_token", VStr "AT-5");
   ("token_type", VStr "BEARER"); ("expires_in", VNum 600)].

(** A client behind the proxy of [SampleUrl], before and after the options
    of the request are merged, and the sample client after a merge without
    options. *)
Definition web : world := client SampleUrl.configured ∅ 0.

Definition merged : world :=
  snd (mergeRequestOptions SampleUrl.module SampleUrl.request
         SampleUrl.options web).

Definition merged_bare : world :=
  snd (mergeRequestOptions SampleUrl.module SampleUrl.request (VObj []) fresh).

Definition absolute_options : value :=
  VObj [("callbackURL", VStr "https://other.example/cb")].

Definition merged_absolute : world :=
  snd (mergeRequestOptions SampleUrl.module SampleUrl.request
         absolute_options web).

Definition realm_options : obj := [("openidRealm", VStr "https://app.example/")].

(** A client whose response type is given as a list. *)
Definition listed : world :=
  with_setting "response_type" (VArr [VStr "id_token"; VStr "token"]) pinned.

(** The request state of a request for an identity token alone. *)
Definition oidc_state : obj :=
  [("oidc", VBool true); ("oauth", VBool false);
   ("state", VStr "r0/x"); ("nonce", VStr "r1/x")].

End Cases.


(** ** Further vocabulary *)

(** The settings a constructor leaves behind: no key twice, the
    request-state key, the store and the response type set, the two flags
    defined, and an authority, when there is one, that is its own discovery
    url. *)
Definition settled (s : obj) : Prop :=
  List.NoDup (List.map fst s)
  /\ truthy (lookup_field "request_state_key" s) = true
  /\ truthy (lookup_field "request_state_store" s) = true
  /\ lookup_field "load_user_profile" s <> VUndefined
  /\ lookup_field "filter_protocol_claims" s <> VUndefined
  /\ (truthy (lookup_field "authority" s) = true ->
      discovery_url (lookup_field "authority" s)
      = Return (lookup_field "authority" s))
  /\ truthy (lookup_field "response_type" s) = true.

(** The keys the constructor may write. *)
Definition constructor_keys : list string :=
  ["request_state_key"; "request_state_store"; "load_user_profile";
   "filter_protocol_claims"; "authority"; "response_type"].

(** A token type that reads [bearer], in whatever case. *)
Definition bearer (token_type : value) : Prop :=
  exists s : string, token_type = VStr s /\ toLowerCase s = "bearer".

(** The response [r] answers the request state [rs]: the state is there
    and is the one of the response, the response reports no error, an OIDC
    request has its identity token and its nonce, an OAuth request its
    access token, of type bearer, with an expiration. *)
Definition accepted (r rs : obj) : Prop :=
  truthy (lookup_field "state" rs) = true
  /\ truthy (lookup_field "error" r) = false
  /\ strict_eq (lookup_field "state" r) (lookup_field "state" rs) = true
  /\ (truthy (lookup_field "oidc" rs) = true ->
      truthy (lookup_field "id_token" r) = true
      /\ truthy (lookup_field "nonce" rs) = true)
  /\ (truthy (lookup_field "oauth" rs) = true ->
      truthy (lookup_field "access_token" r) = true
      /\ bearer (lookup_field "token_type" r)
      /\ truthy (lookup_field "expires_in" r) = true).

(** [m] keeps the property [I] of the world, whatever its outcome. *)
Definition preserves {A} (I : world -> Prop) (m : M A) : Prop :=
  forall w : world, I w -> I (snd (m w)).

(** The settings [mergeRequestOptions] may write. *)
Definition merged_keys : list string :=
  ["redirect_uri"; "response_mode"; "response_type"; "prompt"; "display";
   "login_hint"; "access_type"; "openid"; "hd"; "acr_values"; "scope"].

(** The options that are copied when they are set, and the settings they
    are copied to. *)
Definition option_targets : list (string * string) :=
  [("prompt", "prompt"); ("display", "display"); ("login_hint", "login_hint");
   ("accessType", "access_type"); ("hd", "hd"); ("acr_values", "acr_values")].

(** [w'] is [w] but for the settings named in [keys]. *)
Definition same_but (keys : list string) (w w' : world) : Prop :=
  request_state_store w' = request_state_store w
  /\ rand_calls w' = rand_calls w
  /\ clock w' = clock w
  /\ forall k : string, ~ In k keys ->
       lookup_field k (settings w') = lookup_field k (settings w).


(** * Properties *)

(** ** Values, objects and control flow *)

Lemma strict_eq_true (a b : value) : strict_eq a b = true -> a = b.
Proof.
  destruct a, b; simpl; try discriminate; try reflexivity; intros H.
  - apply Bool.eqb_prop in H. congruence.
  - apply Z.eqb_eq in H. congruence.
  - apply String.eqb_eq in H. congruence.
Qed.

Lemma strict_eq_differs (a b : value) : a <> b -> strict_eq a b = false.
Proof.
  intros H. destruct (strict_eq a b) eqn:E; [|reflexivity].
  apply strict_eq_true in E. contradiction.
Qed.

Lemma strict_eq_string (s : string) : strict_eq (VStr s) (VStr s) = true.
Proof. simpl. apply String.eqb_refl. Qed.

Lemma lookup_set_field_eq (k : string) (v : value) (o : obj) :
  lookup_field k (set_field k v o) = v.
Proof.
  induction o as [|[k' v'] o IH]; simpl.
  - now rewrite String.eqb_refl.
  - destruct (String.eqb k k') eqn:E; simpl; rewrite ?String.eqb_refl, ?E; auto.
Qed.

Lemma lookup_set_field_ne (k k' : string) (v : value) (o : obj) :
  k <> k' -> lookup_field k (set_field k' v o) = lookup_field k o.
Proof.
  intros Hne. apply String.eqb_neq in Hne.
  induction o as [|[k0 v0] o IH]; simpl.
  - now rewrite Hne.
  - destruct (String.eqb k' k0) eqn:E; simpl.
    + apply String.eqb_eq in E. subst k0. now rewrite Hne.
    + now rewrite IH.
Qed.

Lemma lookup_set_field (k k' : string) (v : value) (o : obj) :
  lookup_field k (set_field k' v o)
  = if String.eqb k k' then v else lookup_field k o.
Proof.
  destruct (String.eqb k k') eqn:E.
  - apply String.eqb_eq in E. subst. apply lookup_set_field_eq.
  - apply String.eqb_neq in E. now apply lookup_set_field_ne.
Qed.

Lemma lookup_absent (k : string) (o : obj) :
  ~ In k (List.map fst o) -> lookup_field k o = VUndefined.
Proof.
  induction o as [|[k' v'] o IH]; simpl; [reflexivity|]. intros H.
  destruct (String.eqb k k') eqn:E.
  - apply String.eqb_eq in E. subst. tauto.
  - apply IH. tauto.
Qed.

Lemma lookup_delete_field (k k' : string) (o : obj) :
  lookup_field k (delete_field k' o)
  = if String.eqb k' k then VUndefined else lookup_field k o.
Proof.
  unfold delete_field. induction o as [|[k0 v0] o IH]; simpl.
  - now destruct (String.eqb k' k).
  - destruct (String.eqb k' k0) eqn:E0; simpl.
    + apply String.eqb_eq in E0. subst k0. rewrite IH.
      destruct (String.eqb k' k) eqn:E; [reflexivity|].
      rewrite String.eqb_sym in E. now rewrite E.
    + rewrite IH. destruct (String.eqb k k0) eqn:E1; [|reflexivity].
      apply String.eqb_eq in E1. subst k0. now rewrite E0.
Qed.

Lemma keys_delete_field (k : string) (o : obj) :
  List.map fst (delete_field k o)
  = List.filter (fun k' => negb (String.eqb k k')) (List.map fst o).
Proof.
  unfold delete_field. induction o as [|[k0 v0] o IH]; simpl; [reflexivity|].
  destruct (String.eqb k k0); simpl; now rewrite IH.
Qed.

(** The properties of [utility.copy(o, target)]: those of [o] first, the
    other ones of [target] behind them. *)
Lemma lookup_utility_copy (o : value) (target : obj) (k : string) :
  lookup_field k (utility_copy o target)
  = if List.existsb (String.eqb k) (own_keys o) then own_value o k
    else lookup_field k target.
Proof.
  unfold utility_copy. generalize (own_keys o) as ks. intros ks. revert target.
  induction ks as [|k0 ks IH]; intros target; simpl; [reflexivity|].
  rewrite IH, lookup_set_field.
  destruct (String.eqb k k0) eqn:E; simpl; [|reflexivity].
  apply String.eqb_eq in E. subst k0.
  now destruct (List.existsb (String.eqb k) ks).
Qed.

Lemma lookup_copy_of (o : obj) (k : string) :
  lookup_field k (utility_copy (VObj o) []) = lookup_field k o.
Proof.
  rewrite lookup_utility_copy. simpl.
  destruct (List.existsb (String.eqb k) (List.map fst o)) eqn:E; [reflexivity|].
  symmetry. apply lookup_absent. intros Hin.
  assert (List.existsb (String.eqb k) (List.map fst o) = true); [|congruence].
  apply List.existsb_exists. exists k. split; [assumption|apply String.eqb_refl].
Qed.

Lemma set_field_fresh (k : string) (v : value) (t : obj) :
  ~ In k (List.map fst t) -> set_field k v t = (t ++ [(k, v)])%list.
Proof.
  induction t as [|[k' v'] t IH]; simpl; [reflexivity|]. intros H.
  destruct (String.eqb k k') eqn:E.
  - apply String.eqb_eq in E. subst. tauto.
  - rewrite IH by tauto. reflexivity.
Qed.

Lemma lookup_member (o : obj) (k : string) (v : value) :
  List.NoDup (List.map fst o) -> In (k, v) o -> lookup_field k o = v.
Proof.
  induction o as [|[k' v'] o IH]; simpl; [tauto|].
  intros Hnd [Heq|Hin].
  - inversion Heq. subst. now rewrite String.eqb_refl.
  - inversion Hnd as [|? ? Hout Hnd']. subst.
    destruct (String.eqb k k') eqn:E; [|now apply IH].
    apply String.eqb_eq in E. subst k'. exfalso. apply Hout.
    change k with (fst (k, v)). now apply List.in_map.
Qed.

(** Without a target [utility.copy] gives the object back, property by
    property. *)
Lemma utility_copy_clone (o : obj) :
  List.NoDup (List.map fst o) -> utility_copy (VObj o) [] = o.
Proof.
  intros Hnd. unfold utility_copy. cbn [own_keys own_value].
  assert (forall (rest t : obj),
             o = (t ++ rest)%list ->
             List.fold_left (fun t k => set_field k (lookup_field k o) t)
                            (List.map fst rest) t = o) as Hfold.
  { induction rest as [|[k v] rest IH]; intros t Ho; simpl.
    - now rewrite Ho, List.app_nil_r.
    - apply IH. rewrite set_field_fresh.
      + rewrite (lookup_member o k v Hnd).
        * rewrite Ho, <- List.app_assoc. reflexivity.
        * rewrite Ho. apply List.in_or_app. right. now left.
      + rewrite Ho, List.map_app in Hnd. simpl in Hnd.
        apply List.NoDup_remove_2 in Hnd. intros Hin. apply Hnd.
        apply List.in_or_app. now left. }
  apply (Hfold o []). reflexivity.
Qed.

Lemma lookup_clone (o : value) (k : string) :
  lookup_field k (utility_copy o []) = own_value o k.
Proof.
  rewrite lookup_utility_copy.
  destruct (List.existsb (String.eqb k) (own_keys o)) eqn:E; [reflexivity|].
  destruct o; try reflexivity. simpl in *. symmetry. apply lookup_absent.
  intros Hin.
  assert (List.existsb (String.eqb k) (List.map fst fields) = true); [|congruence].
  apply List.existsb_exists. exists k. split; [assumption|apply String.eqb_refl].
Qed.

(** ** The response type and the two flags *)

Lemma truthy_string (text : string) : text <> "" -> truthy (VStr text) = true.
Proof. intros H. simpl. apply String.eqb_neq in H. now rewrite H. Qed.

Lemma first_match (token : string) (l : list string) :
  token <> "" ->
  match List.filter (fun item => String.eqb item token) l with
  | item :: _ => truthy (VStr item)
  | [] => false
  end = bool_decide (token ∈ l).
Proof.
  intros Hne. induction l as [|x l IH].
  - symmetry. apply bool_decide_eq_false_2. apply not_elem_of_nil.
  - cbn [List.filter]. destruct (String.eqb x token) eqn:E.
    + apply String.eqb_eq in E. subst x. rewrite (truthy_string _ Hne).
      symmetry. apply bool_decide_eq_true_2. apply elem_of_cons. now left.
    + rewrite IH. apply String.eqb_neq in E.
      apply bool_decide_ext. rewrite elem_of_cons. intuition congruence.
Qed.

Lemma isOidc_tokens (s : obj) (text : string) :
  lookup_field "response_type" s = VStr text -> text <> "" ->
  isOidc s = Return (bool_decide ("id_token" ∈ split_spaces text)).
Proof.
  intros H Hne. unfold isOidc. rewrite H, (truthy_string _ Hne).
  now rewrite first_match.
Qed.

Lemma isOauth_tokens (s : obj) (text : string) :
  lookup_field "response_type" s = VStr text -> text <> "" ->
  isOauth s = Return (bool_decide ("token" ∈ split_spaces text)).
Proof.
  intros H Hne. unfold isOauth. rewrite H, (truthy_string _ Hne).
  now rewrite first_match.
Qed.

Lemma append_empty (s : string) : s +:+ "" = s.
Proof. induction s; simpl; congruence. Qed.

Lemma append_append (a b c : string) : (a +:+ b) +:+ c = a +:+ b +:+ c.
Proof. induction a; simpl; congruence. Qed.

(** A text without white space is a single token. *)
Lemma split_from_solid (cur s : string) (g : bool) :
  (forall c, In c (list_ascii_of_string s) -> is_space c = false) ->
  split_from cur g s = [cur +:+ s].
Proof.
  revert cur g. induction s as [|c s IH]; intros cur g H; simpl.
  - now rewrite append_empty.
  - rewrite (H c) by (simpl; auto). rewrite IH by (intros; apply H; simpl; auto).
    f_equal. now rewrite append_append.
Qed.

(** No token of the split holds white space, when the piece in progress
    holds none. *)
Lemma split_from_no_space (cur s : string) (g : bool) (t : string) :
  (forall c, In c (list_ascii_of_string cur) -> is_space c = false) ->
  In t (split_from cur g s) ->
  forall c, In c (list_ascii_of_string t) -> is_space c = false.
Proof.
  revert cur g. induction s as [|c0 s IH]; intros cur g Hcur; simpl.
  - intros [<-|[]]. exact Hcur.
  - destruct (is_space c0) eqn:E.
    + destruct g.
      * apply IH. exact Hcur.
      * intros [<-|Hin]; [exact Hcur|]. revert Hin. apply IH. intros c [].
    + apply IH. intros c Hc.
      assert (In c (list_ascii_of_string cur ++ [c0])) as Hin.
      { clear -Hc. induction cur; simpl in *; [exact Hc|].
        destruct Hc as [->|Hc]; [now left|right; auto]. }
      apply in_app_or in Hin. destruct Hin as [Hin|[<-|[]]]; auto.
Qed.

(** C10: without a [response_type] in the configuration the constructor
    sets it to [id_token token], and the new client is both an OIDC and an
    OAuth client; [isOidc] and [isOauth] split the response type at white
    space and look for the exact tokens [id_token] and [token], so that the
    response type [id_token2] makes neither hold. *)
Theorem C10_default_response_type_and_flags :
  (forall serverSettings : value,
      truthy (own_value serverSettings "response_type") = false ->
      (truthy (own_value serverSettings "authority") = true ->
       has_indexOf (own_value serverSettings "authority")) ->
      exists s : obj,
        OidcClient serverSettings = Return s
        /\ lookup_field "response_type" s = VStr "id_token token"
        /\ isOidc s = Return true /\ isOauth s = Return true)
  /\ (forall (s : obj) (text : string),
         lookup_field "response_type" s = VStr text -> text <> "" ->
         isOidc s = Return (bool_decide ("id_token" ∈ split_spaces text))
         /\ isOauth s = Return (bool_decide ("token" ∈ split_spaces text)))
  /\ (forall (s : obj) (text token : string),
         lookup_field "response_type" s = VStr text ->
         In token (split_spaces text) ->
         forall c, In c (list_ascii_of_string token) -> is_space c = false)
  /\ (isOidc [("response_type", VStr "id_token2")] = Return false
      /\ isOauth [("response_type", VStr "id_token2")] = Return false).
Proof.
  split; [|split; [|split]].
  - intros ss Hrt Hauth. unfold OidcClient.
    set (s0 := utility_copy ss []).
    set (s1 := if truthy (lookup_field "request_state_key" s0) then s0 else _).
    set (s1' := if truthy (lookup_field "request_state_store" s1) then s1
                else _).
    set (s2 := match lookup_field "load_user_profile" s1' with
               | VUndefined => _ | _ => s1' end).
    set (s3 := match lookup_field "filter_protocol_claims" s2 with
               | VUndefined => _ | _ => s2 end).
    assert (forall k, k <> "request_state_key" -> k <> "request_state_store" ->
                      k <> "load_user_profile" ->
                      k <> "filter_protocol_claims" ->
                      lookup_field k s3 = own_value ss k) as Hframe.
    { intros k H1 H1' H2 H3. subst s3.
      assert (lookup_field k s2 = own_value ss k) as E2.
      { subst s2.
        assert (lookup_field k s1' = own_value ss k) as E1.
        { subst s1' s1.
          destruct (truthy (lookup_field "request_state_key" s0));
            destruct (truthy (lookup_field "request_state_store" _));
            rewrite ?lookup_set_field_ne by assumption; apply lookup_clone. }
        destruct (lookup_field "load_user_profile" s1');
          rewrite ?lookup_set_field_ne by assumption; exact E1. }
      destruct (lookup_field "filter_protocol_claims" s2);
        rewrite ?lookup_set_field_ne by assumption; exact E2. }
    assert (exists s4, (if truthy (lookup_field "authority" s3)
                        then match discovery_url (lookup_field "authority" s3) with
                             | Return a => Return (set_field "authority" a s3)
                             | Throw e => Throw e
                             end
                        else Return s3) = Return s4
                       /\ lookup_field "response_type" s4
                          = own_value ss "response_type") as (s4 & -> & E4).
    { rewrite (Hframe "authority") by discriminate.
      destruct (truthy (own_value ss "authority")) eqn:Ea.
      - specialize (Hauth eq_refl).
        destruct (own_value ss "authority") eqn:Ev; try contradiction; simpl.
        + destruct (indexOf s well_known <? 0);
            eexists; (split; [reflexivity|]);
            rewrite lookup_set_field_ne by discriminate;
            apply Hframe; discriminate.
        + destruct (List.existsb (strict_eq (VStr well_known)) items);
            eexists; (split; [reflexivity|]);
            rewrite lookup_set_field_ne by discriminate;
            apply Hframe; discriminate.
      - eexists. split; [reflexivity|]. apply Hframe; discriminate. }
    rewrite E4, Hrt. eexists. split; [reflexivity|].
    split; [apply lookup_set_field_eq|].
    split.
    + rewrite (isOidc_tokens _ "id_token token");
        [reflexivity|apply lookup_set_field_eq|discriminate].
    + rewrite (isOauth_tokens _ "id_token token");
        [reflexivity|apply lookup_set_field_eq|discriminate].
  - intros s text H Hne. split; [now apply isOidc_tokens|now apply isOauth_tokens].
  - intros s text token _ Hin. revert Hin. unfold split_spaces.
    apply split_from_no_space. intros c [].
  - split; reflexivity.
Qed.

Lemma C10_witness :
  exists s : obj,
    OidcClient (VObj [("client_id", VStr "app");
                      ("authority", VStr "https://idp.example")]) = Return s
    /\ lookup_field "response_type" s = VStr "id_token token"
    /\ isOidc s = Return true /\ isOauth s = Return true.
Proof.
  apply (proj1 C10_default_response_type_and_flags).
  - reflexivity.
  - intros _. exact I.
Defined.

(** ** The signing key *)

Lemma length_not_zero (n : nat) : (Z.of_nat (S n) =? 0) = false.
Proof. apply Z.eqb_neq. lia. Qed.

(** Runs the monad and leaves the tests on values for rewriting. *)
Ltac run :=
  unfold bind, lift, ret, throw, error, utility_error, resolve, reject,
    setting, set_setting, read_settings, current_time, store_get,
    store_clear, store_set, utility_rand, call_of_rejection, settle;
  cbn -[lookup_field set_field String.append
        Z.of_nat Z.eqb Z.sub Z.add Z.div Z.gtb Z.ltb Z.mul
        utility_copy toLowerCase encodeURIComponent lookup insert delete
        state_key cleared parse isOidc isOauth getKeyAsync loadMetadataAsync
        loadX509SigningKeyAsync loadUserProfile loadAuthorizationEndpoint
        issued_too_long_ago expired now_seconds merge_profile with_profile
        check_claims check_signature validateIdTokenAsync
        validateAccessTokenAsync validateIdTokenAndAccessTokenAsync
        load_request_state check_response verify_tokens deliver].

Ltac run_in H :=
  unfold bind, lift, ret, throw, error, utility_error, resolve, reject,
    setting, set_setting, read_settings, current_time, store_get,
    store_clear, store_set, utility_rand, call_of_rejection, settle in H;
  cbn -[lookup_field set_field String.append
        Z.of_nat Z.eqb Z.sub Z.add Z.div Z.gtb Z.ltb Z.mul
        utility_copy toLowerCase encodeURIComponent lookup insert delete
        state_key cleared parse isOidc isOauth getKeyAsync loadMetadataAsync
        loadX509SigningKeyAsync loadUserProfile loadAuthorizationEndpoint
        issued_too_long_ago expired now_seconds merge_profile with_profile
        check_claims check_signature validateIdTokenAsync
        validateAccessTokenAsync validateIdTokenAndAccessTokenAsync
        load_request_state check_response verify_tokens deliver] in H.

(** Case analysis on the first test of the goal. *)
Ltac split_match :=
  match goal with
  | |- context [match ?x with _ => _ end] =>
      lazymatch x with
      | context [match _ with _ => _ end] => fail
      | _ => destruct x eqn:?
      end
  end.

Section SigningKey.

Context (rt : Runtime).

(** The key set is judged by its first key alone. *)
Lemma getKeyAsync_first_not_rsa (w : world) (jwks first kty : value)
    (others : list value) :
  prop jwks "keys" = Return (VArr (first :: others)) ->
  prop first "kty" = Return kty -> kty <> VStr "RSA" ->
  getKeyAsync jwks w = (Throw (Error "Signing key not RSA"), w).
Proof.
  intros Hkeys Hkty Hne. unfold getKeyAsync. run.
  rewrite Hkeys. run. rewrite length_not_zero. run.
  rewrite Hkty. run. rewrite (strict_eq_differs _ _ Hne). reflexivity.
Qed.

Lemma getKeyAsync_first_rsa (w : world) (jwks first cert : value)
    (others chain : list value) :
  prop jwks "keys" = Return (VArr (first :: others)) ->
  prop first "kty" = Return (VStr "RSA") ->
  prop first "x5c" = Return (VArr (cert :: chain)) ->
  getKeyAsync jwks w = (Return (Fulfilled cert), w).
Proof.
  intros Hkeys Hkty Hx5c. unfold getKeyAsync. run.
  rewrite Hkeys. run. rewrite length_not_zero. run.
  rewrite Hkty. run. rewrite Hx5c. run.
  rewrite length_not_zero. reflexivity.
Qed.

Lemma loadX509SigningKeyAsync_cached (w : world) :
  truthy (lookup_field "jwks" (settings w)) = true ->
  loadX509SigningKeyAsync rt w = getKeyAsync (lookup_field "jwks" (settings w)) w.
Proof.
  intros H. unfold loadX509SigningKeyAsync, bind, setting. now rewrite H.
Qed.

Lemma loadX509SigningKeyAsync_fetched (w w1 : world) (metadata jwks_uri jwks : value) :
  truthy (lookup_field "jwks" (settings w)) = false ->
  loadMetadataAsync rt w = (Return (Fulfilled metadata), w1) ->
  prop metadata "jwks_uri" = Return jwks_uri -> truthy jwks_uri = true ->
  getJson rt jwks_uri VNull (lookup_field "httpSettings" (settings w1)) = Reply jwks ->
  loadX509SigningKeyAsync rt w
  = settle (getKeyAsync jwks) (with_settings (set_field "jwks" jwks (settings w1)) w1).
Proof.
  intros Hno Hmeta Huri Htruthy Hfetch. unfold loadX509SigningKeyAsync. run.
  rewrite Hno, Hmeta. run. rewrite Huri. run. rewrite Htruthy. run.
  rewrite Hfetch. run. run.
  destruct (getKeyAsync jwks _) as [[q|e] w2]; reflexivity.
Qed.

(** C5, as the code has it: [loadX509SigningKeyAsync] looks at the first key
    of the key set and at no other.  When that key is not an RSA key the
    call fails with [Signing key not RSA], whatever keys follow it; when it
    is an RSA key with a certificate chain that is not empty, the first
    certificate of the chain is the result. *)
Theorem C5_first_key_decides (w : world) (jwks first : value)
    (others : list value) :
  uses_key_set rt w jwks ->
  prop jwks "keys" = Return (VArr (first :: others)) ->
  (forall kty : value,
      prop first "kty" = Return kty -> kty <> VStr "RSA" ->
      failure (fst (loadX509SigningKeyAsync rt w))
      = Some (Error "Signing key not RSA"))
  /\ (forall (cert : value) (chain : list value),
         prop first "kty" = Return (VStr "RSA") ->
         prop first "x5c" = Return (VArr (cert :: chain)) ->
         fst (loadX509SigningKeyAsync rt w) = Return (Fulfilled cert)).
Proof.
  intros [[Hcached ->]|(Hno & metadata & jwks_uri & w1 & Hmeta & Huri & Htruthy
                        & Hfetch)] Hkeys.
  - rewrite loadX509SigningKeyAsync_cached by assumption. split.
    + intros kty Hkty Hne.
      now rewrite (getKeyAsync_first_not_rsa w _ first kty others).
    + intros cert chain Hkty Hx5c.
      now rewrite (getKeyAsync_first_rsa w _ first cert others chain).
  - rewrite (loadX509SigningKeyAsync_fetched w w1 metadata jwks_uri jwks)
      by assumption.
    unfold settle. split.
    + intros kty Hkty Hne.
      now rewrite (getKeyAsync_first_not_rsa _ jwks first kty others).
    + intros cert chain Hkty Hx5c.
      now rewrite (getKeyAsync_first_rsa _ jwks first cert others chain).
Qed.

End SigningKey.

Lemma C5_witness :
  fst (loadX509SigningKeyAsync Sample.runtime Sample.started)
  = Return (Fulfilled (VStr "CERT-A")).
Proof.
  apply (proj2 (C5_first_key_decides Sample.runtime Sample.started
                  Sample.jwks_document
                  (VObj [("kty", VStr "RSA");
                         ("x5c", VArr [VStr "CERT-A"; VStr "CERT-B"])])
                  []
                  (or_intror
                     (conj eq_refl
                        (ex_intro _ Sample.metadata_document
                           (ex_intro _ (VStr "https://idp.example/jwks")
                              (ex_intro _ Sample.started
                                 (conj eq_refl
                                    (conj eq_refl
                                       (conj eq_refl eq_refl))))))))
                  eq_refl)
               (VStr "CERT-A") [VStr "CERT-B"]); reflexivity.
Defined.

(** C5 with the first qualifying key as the selected one does not hold:
    with an elliptic-curve key first and an RSA key with a certificate
    second, the call fails with [Signing key not RSA] and does not return
    the certificate of the second key. *)
Lemma C5_counterexample :
  fst (loadX509SigningKeyAsync Sample.runtime
         (Sample.client [("jwks", Sample.mixed_key_set)] ∅ 0))
  = Throw (Error "Signing key not RSA")
  /\ fst (loadX509SigningKeyAsync Sample.runtime
            (Sample.client [("jwks", Sample.mixed_key_set)] ∅ 0))
     <> Return (Fulfilled (VStr "CERT-R")).
Proof. split; [reflexivity|discriminate]. Qed.

(** ** The access token and [at_hash] *)

(** The left half of the hexadecimal digits is the left half of the
    bytes. *)
Lemma substring_hex (k : nat) (s : string) :
  String.substring 0 (2 * k) (hex_of_bytes s)
  = hex_of_bytes (String.substring 0 k s).
Proof.
  revert s. induction k as [|k IH]; intros s.
  - destruct s; reflexivity.
  - destruct s as [|c s]; [reflexivity|].
    replace (2 * S k)%nat with (S (S (2 * k))) by lia.
    cbn [hex_of_bytes String.substring]. now rewrite IH.
Qed.

Lemma length_hex (s : string) :
  String.length (hex_of_bytes s) = (2 * String.length s)%nat.
Proof. induction s as [|c s IH]; simpl; [reflexivity|]. rewrite IH. lia. Qed.

Lemma left_half_bytes (s : string) (n : nat) :
  String.length s = (2 * n)%nat ->
  left_half (hex_of_bytes s) = hex_of_bytes (String.substring 0 n s).
Proof.
  intros H. unfold left_half. rewrite length_hex, Nat.div2_double, H.
  apply substring_hex.
Qed.

Section TokenBinder.

Context (rt : Runtime).

(** C4: [validateAccessTokenAsync] fails with [No at_hash in id_token]
    when the claims carry no [at_hash]; with an [at_hash] it succeeds
    exactly when the base64url text of the left half of the SHA-256 digest
    of the access token is that [at_hash], and fails with
    [at_hash failed to validate] otherwise. *)
Theorem C4_access_token_binding (w : world) (claims : obj) (access_token : value) :
  let at_hash := lookup_field "at_hash" claims in
  let left_b64u := VStr (hextob64u rt (left_half (sha256 rt access_token))) in
  let outcome := validateAccessTokenAsync rt (VObj claims) access_token w in
  (~ In "at_hash" (List.map fst claims) ->
   outcome = (Throw (Error "No at_hash in id_token"), w))
  /\ (truthy at_hash = false ->
      outcome = (Throw (Error "No at_hash in id_token"), w))
  /\ (truthy at_hash = true ->
      (outcome = (Return (Fulfilled VUndefined), w) <-> at_hash = left_b64u)
      /\ (at_hash <> left_b64u ->
          outcome = (Throw (Error "at_hash failed to validate"), w))).
Proof.
  intros at_hash left_b64u outcome.
  assert (truthy at_hash = false ->
          outcome = (Throw (Error "No at_hash in id_token"), w)) as Hmissing.
  { intros H. subst outcome. unfold validateAccessTokenAsync. run.
    fold at_hash. now rewrite H. }
  assert (truthy at_hash = true -> at_hash <> left_b64u ->
          outcome = (Throw (Error "at_hash failed to validate"), w)) as Hbad.
  { intros H Hne. subst outcome. unfold validateAccessTokenAsync. run.
    fold at_hash. rewrite H. run. fold left_b64u.
    rewrite strict_eq_differs by congruence. reflexivity. }
  split; [|split].
  - intros Habsent. apply Hmissing. unfold at_hash.
    now rewrite lookup_absent.
  - exact Hmissing.
  - intros H. split; [split|].
    + intros Hok. destruct (strict_eq left_b64u at_hash) eqn:E.
      * symmetry. now apply strict_eq_true.
      * assert (at_hash <> left_b64u) as Hne.
        { intros ->. unfold left_b64u in E. now rewrite strict_eq_string in E. }
        rewrite (Hbad H Hne) in Hok. discriminate.
    + intros Heq. subst outcome. unfold validateAccessTokenAsync. run.
      fold at_hash. rewrite H. run. fold left_b64u. rewrite Heq.
      unfold left_b64u. now rewrite strict_eq_string.
    + now apply Hbad.
Qed.

End TokenBinder.

Lemma C4_witness :
  validateAccessTokenAsync Sample.runtime
    (VObj [("sub", VStr "alice"); ("at_hash", VStr "QVQtMTAxMjM0NTY3ODlhYg")])
    (VStr "AT-1") (Sample.client [] ∅ 0)
  = (Return (Fulfilled VUndefined), Sample.client [] ∅ 0).
Proof.
  apply (proj2 (proj1 (proj2 (proj2
           (C4_access_token_binding Sample.runtime (Sample.client [] ∅ 0)
              [("sub", VStr "alice"); ("at_hash", VStr "QVQtMTAxMjM0NTY3ODlhYg")]
              (VStr "AT-1"))) eq_refl))).
  reflexivity.
Defined.

(** ** What the calls leave unchanged *)

Lemma same_but_cache_refl (w : world) : same_but_cache w w.
Proof. repeat split. Qed.

Lemma same_but_cache_trans (w1 w2 w3 : world) :
  same_but_cache w1 w2 -> same_but_cache w2 w3 -> same_but_cache w1 w3.
Proof.
  intros (S1 & R1 & C1 & K1) (S2 & R2 & C2 & K2). repeat split; try congruence.
  intros k Hm Hj. rewrite K2, K1; auto.
Qed.

Lemma quiet_ret {A} (a : A) : quiet (ret a).
Proof. intros w. apply same_but_cache_refl. Qed.

Lemma quiet_throw {A} (e : exn) : quiet (@throw A e).
Proof. intros w. apply same_but_cache_refl. Qed.

Lemma quiet_error {A} (message : string) : quiet (@error A message).
Proof. intros w. apply same_but_cache_refl. Qed.

Lemma quiet_lift {A} (r : result A) : quiet (lift r).
Proof. intros w. apply same_but_cache_refl. Qed.

Lemma quiet_resolve {A} (a : A) : quiet (resolve a).
Proof. intros w. apply same_but_cache_refl. Qed.

Lemma quiet_reject {A} (e : exn) : quiet (@reject A e).
Proof. intros w. apply same_but_cache_refl. Qed.

Lemma quiet_setting (k : string) : quiet (setting k).
Proof. intros w. apply same_but_cache_refl. Qed.

Lemma quiet_read_settings : quiet read_settings.
Proof. intros w. apply same_but_cache_refl. Qed.

Lemma quiet_current_time : quiet current_time.
Proof. intros w. apply same_but_cache_refl. Qed.

Lemma quiet_call_of_rejection {A} : quiet (@call_of_rejection A).
Proof. intros w. apply same_but_cache_refl. Qed.

Lemma quiet_bind {A B} (m : M A) (f : A -> M B) :
  quiet m -> (forall a, quiet (f a)) -> quiet (bind m f).
Proof.
  intros Hm Hf w. unfold bind. specialize (Hm w).
  destruct (m w) as [[a|e] w1]; simpl in *; [|exact Hm].
  eapply same_but_cache_trans; [exact Hm|apply Hf].
Qed.

Lemma quiet_settle {A} (m : M (promise A)) : quiet m -> quiet (settle m).
Proof.
  intros Hm w. unfold settle. specialize (Hm w).
  now destruct (m w) as [[q|e] w1].
Qed.

Lemma quiet_then {A B} (p : promise A) (f : A -> M (promise B)) :
  (forall a, quiet (f a)) -> quiet (then_ p f).
Proof.
  intros Hf. destruct p; simpl; [apply quiet_settle, Hf|apply quiet_ret].
Qed.

Lemma quiet_then2 {A B} (p : promise A) (f : A -> M (promise B))
    (g : exn -> M (promise B)) :
  (forall a, quiet (f a)) -> (forall e, quiet (g e)) -> quiet (then2 p f g).
Proof. intros Hf Hg. destruct p; simpl; apply quiet_settle; auto. Qed.

Lemma quiet_catch {A} (p : promise A) (g : exn -> M (promise A)) :
  (forall e, quiet (g e)) -> quiet (catch_ p g).
Proof.
  intros Hg. destruct p; simpl; [apply quiet_ret|apply quiet_settle, Hg].
Qed.

Lemma quiet_cache_metadata (v : value) : quiet (set_setting "metadata" v).
Proof.
  intros w. repeat split. intros k Hm Hj. simpl.
  now apply lookup_set_field_ne.
Qed.

Lemma quiet_cache_jwks (v : value) : quiet (set_setting "jwks" v).
Proof.
  intros w. repeat split. intros k Hm Hj. simpl.
  now apply lookup_set_field_ne.
Qed.

Create HintDb quiet.

#[export] Hint Resolve quiet_ret quiet_throw quiet_error quiet_lift
  quiet_resolve quiet_reject quiet_setting quiet_read_settings
  quiet_current_time quiet_call_of_rejection quiet_cache_metadata
  quiet_cache_jwks : quiet.

(** Splits a computation along its binds, callbacks and tests. *)
Ltac quiet_step :=
  match goal with
  | |- quiet (bind _ _) => apply quiet_bind; [|intros ?]
  | |- quiet (then_ _ _) => apply quiet_then; intros ?
  | |- quiet (then2 _ _ _) => apply quiet_then2; intros ?
  | |- quiet (catch_ _ _) => apply quiet_catch; intros ?
  | |- quiet (if ?b then _ else _) => destruct b
  | |- quiet (match ?x with _ => _ end) => destruct x
  | |- quiet _ => solve [auto with quiet]
  end.

Ltac quiet_all := repeat quiet_step.

Section Quiet.

Context (rt : Runtime).

Lemma quiet_parse (text : string) : quiet (parse rt text).
Proof. unfold parse. quiet_all. Qed.

Lemma quiet_loadMetadataAsync : quiet (loadMetadataAsync rt).
Proof. unfold loadMetadataAsync. quiet_all. Qed.

Lemma quiet_getKeyAsync (jwks : value) : quiet (getKeyAsync jwks).
Proof. unfold getKeyAsync. quiet_all. Qed.

Hint Resolve quiet_parse quiet_loadMetadataAsync quiet_getKeyAsync : quiet.

Lemma quiet_loadX509SigningKeyAsync : quiet (loadX509SigningKeyAsync rt).
Proof. unfold loadX509SigningKeyAsync. quiet_all. Qed.

Lemma quiet_loadUserProfile (access_token : value) :
  quiet (loadUserProfile rt access_token).
Proof. unfold loadUserProfile. quiet_all. Qed.

Lemma quiet_merge_profile (c profile : value) : quiet (merge_profile c profile).
Proof. unfold merge_profile. quiet_all. Qed.

Hint Resolve quiet_loadX509SigningKeyAsync quiet_loadUserProfile
  quiet_merge_profile : quiet.

Lemma quiet_with_profile (c access_token : value) :
  quiet (with_profile rt c access_token).
Proof. unfold with_profile. quiet_all. Qed.

Hint Resolve quiet_with_profile : quiet.

Lemma quiet_check_claims (c access_token metadata : value) :
  quiet (check_claims rt c access_token metadata).
Proof. unfold check_claims. quiet_all. Qed.

Hint Resolve quiet_check_claims : quiet.

Lemma quiet_check_signature (id_token nonce access_token cert : value) :
  quiet (check_signature rt id_token nonce access_token cert).
Proof. unfold check_signature. quiet_all. Qed.

Hint Resolve quiet_check_signature : quiet.

Lemma quiet_validateIdTokenAsync (id_token nonce access_token : value) :
  quiet (validateIdTokenAsync rt id_token nonce access_token).
Proof. unfold validateIdTokenAsync. quiet_all. Qed.

Lemma quiet_validateAccessTokenAsync (c access_token : value) :
  quiet (validateAccessTokenAsync rt c access_token).
Proof. unfold validateAccessTokenAsync. quiet_all. Qed.

Hint Resolve quiet_validateIdTokenAsync quiet_validateAccessTokenAsync : quiet.

Lemma quiet_validateIdTokenAndAccessTokenAsync (id_token nonce access_token : value) :
  quiet (validateIdTokenAndAccessTokenAsync rt id_token nonce access_token).
Proof. unfold validateIdTokenAndAccessTokenAsync. quiet_all. Qed.

Hint Resolve quiet_validateIdTokenAndAccessTokenAsync : quiet.

Lemma quiet_verify_tokens (result request_state : value) :
  quiet (verify_tokens rt result request_state).
Proof. unfold verify_tokens. quiet_all. Qed.

Lemma quiet_check_response (result request_state : value) :
  quiet (check_response result request_state).
Proof. unfold check_response. quiet_all. Qed.

Lemma quiet_deliver (result profile : value) : quiet (deliver result profile).
Proof. unfold deliver. quiet_all. Qed.

End Quiet.

(** ** The response processor *)

Section ResponseProcessor.

Context (rt : Runtime).

Lemma load_request_state_world (requestState : value) (w : world) :
  snd (load_request_state rt requestState w)
  = if truthy requestState then w else cleared w.
Proof.
  unfold load_request_state, parse.
  destruct (truthy requestState) eqn:E; run.
  - rewrite E. run. destruct (JSON_parse rt (to_string requestState)); run;
      [destruct (truthy a)|]; reflexivity.
  - fold (state_key w). fold (cleared w).
    destruct (request_state_store w !! state_key w) as [s|]; run;
      [|reflexivity].
    destruct (String.eqb s ""); run; [reflexivity|].
    destruct (JSON_parse rt s); run; [destruct (truthy a)|]; reflexivity.
Qed.

Lemma load_request_state_stored (requestState : value) (w : world) (s : string) :
  truthy requestState = false ->
  request_state_store w !! state_key w = Some s -> s <> "" ->
  load_request_state rt requestState w
  = load_request_state rt (VStr s) (cleared w).
Proof.
  intros Hno Hs Hne. unfold load_request_state, parse. run.
  rewrite Hno. run. fold (state_key w). fold (cleared w). rewrite Hs. run.
  apply String.eqb_neq in Hne. rewrite Hne. run. rewrite ?Hne. reflexivity.
Qed.


Lemma quiet_after_load (result request_state : value) :
  quiet (check_response result request_state ;;;
         localPromise <- verify_tokens rt result request_state ;;
         then_ localPromise (deliver result)).
Proof.
  apply quiet_bind; [apply quiet_check_response|intros _].
  apply quiet_bind; [apply quiet_verify_tokens|intros p].
  apply quiet_then. intros v. apply quiet_deliver.
Qed.

Lemma processResponseAsync_world (result requestState : value) (w : world) :
  same_but_cache (if truthy requestState then w else cleared w)
                 (snd (processResponseAsync rt result requestState w)).
Proof.
  unfold processResponseAsync, bind at 1.
  pose proof (load_request_state_world requestState w) as Hw.
  destruct (load_request_state rt requestState w) as [[rs|e] w1]; simpl in Hw;
    subst w1; [|apply same_but_cache_refl].
  apply (quiet_after_load result rs).
Qed.

Lemma processResponseAsync_stored (result requestState : value) (w : world)
    (s : string) :
  truthy requestState = false ->
  request_state_store w !! state_key w = Some s -> s <> "" ->
  processResponseAsync rt result requestState w
  = processResponseAsync rt result (VStr s) (cleared w).
Proof.
  intros Hno Hs Hne. unfold processResponseAsync, bind at 1 3.
  now rewrite (load_request_state_stored requestState w s).
Qed.


(** C1: once the request state is resolved and carries a [state], a
    response that is there and reports no [error] fails with
    [Invalid state] as soon as its [state] is not that of the request
    state, whatever its other fields are. *)
Theorem C1_state_mismatch (result requestState : value) (w w1 : world)
    (request_state state result_error result_state : value) :
  load_request_state rt requestState w = (Return request_state, w1) ->
  prop request_state "state" = Return state -> truthy state = true ->
  truthy result = true ->
  prop result "error" = Return result_error -> truthy result_error = false ->
  prop result "state" = Return result_state -> result_state <> state ->
  processResponseAsync rt result requestState w
  = (Throw (Error "Invalid state"), w1).
Proof.
  intros Hload Hstate Hpresent Hresult Herror Hunset Hrstate Hdiffers.
  unfold processResponseAsync, bind at 1. rewrite Hload.
  unfold check_response. run. rewrite Hstate. run. rewrite Hpresent. run.
  rewrite Hresult. run. rewrite Herror. run. rewrite Hunset. run.
  rewrite Hrstate. run. rewrite (strict_eq_differs _ _ Hdiffers). reflexivity.
Qed.

(** The text of a request state that is there but is no JSON text: the
    [SyntaxError] of [JSON.parse] leaves the call, and the failure
    [No request state loaded] is not reached. *)
Lemma unparsable_request_state (result requestState : value) (w : world)
    (m : string) :
  truthy requestState = true ->
  JSON_parse rt (to_string requestState) = Failure m ->
  processResponseAsync rt result requestState w = (Throw (SyntaxError m), w).
Proof.
  intros Hthere Hparse. unfold processResponseAsync, load_request_state, parse.
  run. rewrite Hthere. run. rewrite Hthere. run. now rewrite Hparse.
Qed.

Lemma unparsable_stored_state (result requestState : value) (w : world)
    (s m : string) :
  truthy requestState = false ->
  request_state_store w !! state_key w = Some s -> s <> "" ->
  JSON_parse rt s = Failure m ->
  processResponseAsync rt result requestState w
  = (Throw (SyntaxError m), cleared w).
Proof.
  intros Hno Hs Hne Hparse.
  rewrite (processResponseAsync_stored result requestState w s) by assumption.
  apply unparsable_request_state; [now apply truthy_string|exact Hparse].
Qed.

End ResponseProcessor.

(** ** The identity token *)

Section IdentityToken.

Context (rt : Runtime).

(** After the checks of [passes_checks] the call is left with the two tests
    on the clock and the profile. *)
Lemma validateIdTokenAsync_checked (id_token nonce access_token : value)
    (w w2 : world) (claims iat exp : value) :
  passes_checks rt id_token nonce w w2 claims ->
  prop claims "iat" = Return iat -> prop claims "exp" = Return exp ->
  validateIdTokenAsync rt id_token nonce access_token w
  = if issued_too_long_ago (now_seconds w) iat
    then (Return (Rejected too_old), w2)
    else if expired (now_seconds w) exp
    then (Return (Rejected token_expired), w2)
    else settle (settle (with_profile rt claims access_token)) w2.
Proof.
  intros (cert & metadata & payloadS & w1 & token_nonce & iss & issuer & aud
          & Hcert & Hsig & Hparse & Hn & Hnonce & Hmeta & Hi & Hissuer & Hiss
          & Ha & Haud) Hiat Hexp.
  assert (clock w2 = clock w) as Hclock.
  { pose proof (quiet_loadX509SigningKeyAsync rt w) as (_ & _ & C1 & _).
    pose proof (quiet_loadMetadataAsync rt w1) as (_ & _ & C2 & _).
    rewrite Hcert in C1. rewrite Hmeta in C2. simpl in *. congruence. }
  unfold validateIdTokenAsync, bind at 1. rewrite Hcert.
  unfold then_, check_signature. rewrite Hsig.
  unfold parse. rewrite Hparse. run. rewrite Hn. run. rewrite Hnonce. run.
  rewrite Hmeta. run. unfold check_claims. run.
  rewrite Hi. run. rewrite Hissuer. run. rewrite Hiss. run.
  rewrite Ha. run. rewrite Haud. run. rewrite Hiat. run.
  unfold now_seconds. rewrite Hclock.
  destruct (issued_too_long_ago ((clock w + 500) / 1000) iat); run;
    [reflexivity|].
  rewrite Hexp. run.
  destruct (expired ((clock w + 500) / 1000) exp); run; [reflexivity|].
  destruct (with_profile rt claims access_token w2) as [[q|e] w3]; reflexivity.
Qed.

Lemma prop_throws (v : value) (k : string) (e : exn) :
  prop v k = Throw e -> exists m, e = TypeError m.
Proof. destruct v; simpl; intros H; inversion H; eauto. Qed.

Ltac type_errors :=
  repeat match goal with
         | H : prop _ _ = Throw _ |- _ =>
             apply prop_throws in H; destruct H as [? ->]
         end.

(** Resolving the metadata and loading the profile fail with other
    failures than the two of the time window. *)
Lemma with_profile_failure (claims access_token : value) (w : world) (e : exn) :
  failure (fst (settle (settle (with_profile rt claims access_token)) w)) = Some e ->
  e <> too_old /\ e <> token_expired.
Proof.
  unfold with_profile, loadUserProfile, loadMetadataAsync, merge_profile,
    then_, catch_, of_reply, too_old, token_expired.
  run. repeat (split_match; run);
    intros H; inversion H; subst; type_errors; split; discriminate.
Qed.

Lemma passes_checks_world (id_token nonce : value) (w w2 : world) (claims : value) :
  passes_checks rt id_token nonce w w2 claims -> same_but_cache w w2.
Proof.
  intros (cert & metadata & payloadS & w1 & token_nonce & iss & issuer & aud
          & Hcert & _ & _ & _ & _ & Hmeta & _).
  pose proof (quiet_loadX509SigningKeyAsync rt w) as H1.
  pose proof (quiet_loadMetadataAsync rt w1) as H2.
  rewrite Hcert in H1. rewrite Hmeta in H2.
  exact (same_but_cache_trans _ _ _ H1 H2).
Qed.

(** C3, as the code has it: for a token that passes the signature, nonce,
    issuer and audience checks, with [now] the reading of the clock in
    seconds, rounded, the call is rejected with [Token issued too long ago]
    exactly when [now - iat > 300], and with [Token expired] exactly when
    [now - iat <= 300] and [exp < now]: the age of the token is tested
    first. *)
Theorem C3_time_window (id_token nonce access_token : value) (w w2 : world)
    (claims : value) (iat exp : Z) :
  passes_checks rt id_token nonce w w2 claims ->
  prop claims "iat" = Return (VNum iat) ->
  prop claims "exp" = Return (VNum exp) ->
  let now := now_seconds w in
  let rejection :=
    failure (fst (validateIdTokenAsync rt id_token nonce access_token w)) in
  (rejection = Some too_old <-> now - iat > 300)
  /\ (rejection = Some token_expired <-> now - iat <= 300 /\ exp < now).
Proof.
  intros Hchecks Hiat Hexp now rejection. subst rejection.
  rewrite (validateIdTokenAsync_checked _ _ _ _ _ _ _ _ Hchecks Hiat Hexp).
  fold now. unfold issued_too_long_ago, expired. cbn [ToNumber].
  destruct (Z.gtb_spec (now - iat) (5 * 60)) as [Hold|Hfresh].
  - cbn [fst failure]. split; split; try lia; try discriminate.
    intros _. reflexivity.
  - destruct (Z.ltb_spec exp now) as [Hpast|Hvalid].
    + cbn [fst failure]. split; split; try lia; try discriminate.
      intros _. reflexivity.
    + split; split; try lia; intros H;
        apply with_profile_failure in H; tauto.
Qed.

(** C9: with an access token and [load_user_profile] set, on a token that
    passes every check, its [iat] and [exp] numbers inside the time window,
    a userinfo answer with a [statusCode] makes the call succeed with a
    copy of the claims of the token alone; an answer without one is merged
    over the claims of the token, its own values winning where both have a
    key. *)
Theorem C9_userinfo_profile (id_token nonce access_token : value)
    (w w2 w3 : world) (claims : obj) (iat exp : Z)
    (profile statusCode : value) :
  passes_checks rt id_token nonce w w2 (VObj claims) ->
  lookup_field "iat" claims = VNum iat ->
  lookup_field "exp" claims = VNum exp ->
  now_seconds w - iat <= 300 -> now_seconds w <= exp ->
  truthy access_token = true ->
  truthy (lookup_field "load_user_profile" (settings w)) = true ->
  loadUserProfile rt access_token w2 = (Return (Fulfilled profile), w3) ->
  prop profile "statusCode" = Return statusCode ->
  exists result : obj,
    validateIdTokenAsync rt id_token nonce access_token w
    = (Return (Fulfilled (VObj result)), w3)
    /\ (truthy statusCode = true ->
        (forall k : string, lookup_field k result = lookup_field k claims)
        /\ (List.NoDup (List.map fst claims) -> result = claims))
    /\ (truthy statusCode = false ->
        forall k : string,
          lookup_field k result
          = if List.existsb (String.eqb k) (own_keys profile)
            then own_value profile k
            else lookup_field k claims).
Proof.
  intros Hchecks Hiat Hexp Hage Hlife Htoken Hload Hprofile Hstatus.
  assert (issued_too_long_ago (now_seconds w) (VNum iat) = false) as Hfresh.
  { unfold issued_too_long_ago. cbn [ToNumber]. rewrite Z.gtb_ltb.
    apply Z.ltb_ge. lia. }
  assert (expired (now_seconds w) (VNum exp) = false) as Hvalid.
  { unfold expired. cbn [ToNumber]. apply Z.ltb_ge. lia. }
  pose proof (passes_checks_world _ _ _ _ _ Hchecks) as (_ & _ & _ & Hkeys).
  rewrite (validateIdTokenAsync_checked _ _ access_token _ _ _
             (VNum iat) (VNum exp) Hchecks)
    by (cbn [prop]; congruence).
  rewrite Hfresh, Hvalid. unfold with_profile. run.
  rewrite Hkeys by discriminate. rewrite Htoken, Hload. run.
  rewrite Hprofile. unfold merge_profile. run. rewrite Hstatus. run.
  destruct (truthy statusCode); run.
  - eexists. split; [reflexivity|]. split; [|discriminate].
    intros _. split; [intros k; apply lookup_copy_of|apply utility_copy_clone].
  - eexists. split; [reflexivity|]. split; [discriminate|].
    intros _ k. apply lookup_utility_copy.
Qed.

End IdentityToken.

(** ** The profile of the session *)

Lemma lookup_strip (keys : list string) (o : obj) (k : string) :
  lookup_field k (strip keys o)
  = if List.existsb (String.eqb k) keys then VUndefined else lookup_field k o.
Proof.
  unfold strip. revert o. induction keys as [|k0 keys IH]; intros o; simpl;
    [reflexivity|].
  rewrite IH, lookup_delete_field, (String.eqb_sym k0 k).
  destruct (String.eqb k k0); simpl; [|reflexivity].
  now destruct (List.existsb (String.eqb k) keys).
Qed.

Lemma keys_strip (keys : list string) (o : obj) :
  List.map fst (strip keys o)
  = List.filter (fun k => negb (List.existsb (String.eqb k) keys))
                (List.map fst o).
Proof.
  unfold strip. revert o. induction keys as [|k0 keys IH]; intros o; simpl.
  - induction (List.map fst o) as [|k l IHl]; simpl; congruence.
  - rewrite IH, keys_delete_field. generalize (List.map fst o) as l.
    induction l as [|k l IHl]; simpl; [reflexivity|].
    rewrite (String.eqb_sym k0 k).
    destruct (String.eqb k k0); simpl; [exact IHl|].
    destruct (List.existsb (String.eqb k) keys); simpl; congruence.
Qed.

Lemma existsb_In (k : string) (keys : list string) :
  List.existsb (String.eqb k) keys = true <-> In k keys.
Proof.
  rewrite List.existsb_exists. split.
  - intros (x & Hin & E). apply String.eqb_eq in E. now subst.
  - intros Hin. exists k. split; [assumption|apply String.eqb_refl].
Qed.

Section Session.

Context (rt : Runtime).

Lemma check_response_world (result request_state : value) (w : world) :
  snd (check_response result request_state w) = w.
Proof.
  unfold check_response, not_bearer. run. repeat (split_match; run);
    reflexivity.
Qed.

(** C7: when [processResponseAsync] succeeds with [filter_protocol_claims]
    set and the verification has yielded a claims object, the profile of
    the session is that object without [nonce], [at_hash], [iat], [nbf],
    [exp], [aud], [iss] and [idp]: none of them is a key of the profile,
    and every other key is there, in its place and with its value. *)
Theorem C7_protocol_claims_filtered (result requestState : value)
    (w w' : world) (session : value) :
  processResponseAsync rt result requestState w
  = (Return (Fulfilled session), w') ->
  truthy (lookup_field "filter_protocol_claims" (settings w)) = true ->
  exists (request_state verified : value) (w1 w2 : world),
    load_request_state rt requestState w = (Return request_state, w1)
    /\ verify_tokens rt result request_state w1
       = (Return (Fulfilled verified), w2)
    /\ forall claims : obj,
         verified = VObj claims ->
         exists profile : obj,
           prop session "profile" = Return (VObj profile)
           /\ (forall k, In k reserved_claims -> ~ In k (List.map fst profile))
           /\ (forall k, In k reserved_claims ->
                         lookup_field k profile = VUndefined)
           /\ (forall k, ~ In k reserved_claims ->
                         lookup_field k profile = lookup_field k claims)
           /\ List.map fst profile
              = List.filter
                  (fun k => negb (List.existsb (String.eqb k) reserved_claims))
                  (List.map fst claims).
Proof.
  intros H Hfilter. change reserved_claims with remove.
  unfold processResponseAsync in H. unfold bind at 1 in H.
  pose proof (load_request_state_world rt requestState w) as Hw1.
  destruct (load_request_state rt requestState w) as [[rs|e] w1] eqn:Hload;
    [|discriminate].
  unfold bind at 1 in H.
  pose proof (check_response_world result rs w1) as Hw1'.
  destruct (check_response result rs w1) as [[[]|e] w1'] eqn:Hcheck;
    [|discriminate].
  simpl in Hw1'. subst w1'. unfold bind at 1 in H.
  pose proof (quiet_verify_tokens rt result rs w1) as Hw2.
  destruct (verify_tokens rt result rs w1) as [[[v|e]|e] w2] eqn:Hverify;
    try discriminate.
  exists rs, v, w1, w2. split; [reflexivity|]. split; [exact Hverify|].
  intros claims ->.
  assert (truthy (lookup_field "filter_protocol_claims" (settings w2)) = true)
    as Hfilter2.
  { destruct Hw2 as (_ & _ & _ & Hkeys). simpl in Hkeys, Hw1.
    rewrite Hkeys by discriminate. rewrite Hw1.
    now destruct (truthy requestState). }
  unfold then_, deliver in H. run_in H. rewrite Hfilter2 in H. run_in H.
  change (delete_field "idp" _) with (strip remove claims) in H.
  repeat match type of H with
         | context [match prop ?r ?k with _ => _ end] =>
             destruct (prop r k); run_in H; [|discriminate]
         end.
  injection H as <- _. exists (strip remove claims).
  split; [reflexivity|]. split; [|split; [|split]].
  - intros k Hin. rewrite keys_strip, List.filter_In.
    apply existsb_In in Hin. rewrite Hin. intros [_ Hfalse]. discriminate.
  - intros k Hin. rewrite lookup_strip. apply existsb_In in Hin.
    now rewrite Hin.
  - intros k Hout. rewrite lookup_strip.
    destruct (List.existsb (String.eqb k) remove) eqn:E; [|reflexivity].
    apply existsb_In in E. contradiction.
  - apply keys_strip.
Qed.

End Session.

(** ** The authentication request *)

Lemma fold_append_param (s : obj) (keys : list string) (url : string) :
  List.fold_left (append_param s) keys url
  = url +:+ concat_all (List.map (query_parameter s)
               (List.filter (fun key => truthy (lookup_field key s)) keys)).
Proof.
  revert url. induction keys as [|key keys IH]; intros url;
    cbn [List.fold_left List.filter].
  - cbn. now rewrite append_empty.
  - rewrite IH. unfold append_param.
    destruct (truthy (lookup_field key s)); [|reflexivity].
    cbn [List.map concat_all List.fold_right]. unfold query_parameter.
    now rewrite !append_append.
Qed.

Lemma isOauth_returns (s : obj) (oidc : bool) :
  isOidc s = Return oidc -> exists oauth : bool, isOauth s = Return oauth.
Proof.
  unfold isOidc, isOauth. destruct (truthy (lookup_field "response_type" s));
    [|eauto]. destruct (lookup_field "response_type" s); try discriminate.
  eauto.
Qed.

Section RequestBuilder.

Context (rt : Runtime).

(** C8, as the code has it: the url of [createTokenRequestAsync] is the
    authorization endpoint followed by [state], by [nonce] exactly when the
    response type has the token [id_token] (the nonce is then the next
    random value), and by [client_id], [redirect_uri], [response_type],
    [scope], [prompt], [display], [max_age], [ui_locales], [id_token_hint],
    [login_hint], [acr_values] and [response_mode], in this order, each one
    exactly when its setting is truthy, every value percent-encoded.  The
    endpoint and the settings are values whose numbers are safe
    integers. *)
Theorem C8_authorization_url (w w1 : world) (endpoint : value) (oidc : bool) :
  loadAuthorizationEndpoint rt w = (Return (Fulfilled endpoint), w1) ->
  isOidc (settings w1) = Return oidc ->
  safe_text endpoint = true ->
  (forall key : string, In key request_parameters ->
      safe_text (lookup_field key (settings w1)) = true) ->
  let state := rand rt (rand_calls w1) in
  let nonce := if oidc then Some (rand rt (S (rand_calls w1))) else None in
  exists (request_state : value) (w' : world),
    createTokenRequestAsync rt w
    = (Return (Fulfilled
         (VObj [("request_state", request_state);
                ("url", VStr (authorization_url (to_string endpoint) state
                                                nonce (settings w1)))])), w')
    /\ rand_calls w' = (rand_calls w1 + if oidc then 2 else 1)%nat
    /\ (forall text : string,
           lookup_field "response_type" (settings w1) = VStr text ->
           text <> "" ->
           oidc = bool_decide ("id_token" ∈ split_spaces text)).
Proof.
  intros Hload Hoidc _ _ state nonce.
  assert (forall text : string,
             lookup_field "response_type" (settings w1) = VStr text ->
             text <> "" ->
             oidc = bool_decide ("id_token" ∈ split_spaces text)) as Htokens.
  { intros text Htext Hne. rewrite (isOidc_tokens _ _ Htext Hne) in Hoidc.
    congruence. }
  destruct (isOauth_returns _ _ Hoidc) as [oauth Hoauth].
  unfold createTokenRequestAsync, bind at 1. rewrite Hload.
  unfold then2. run. rewrite Hoidc. run.
  assert (forall url : string,
             List.fold_left (append_param (settings w1)) optional
               (List.fold_left (append_param (settings w1)) required url)
             = url +:+ concat_all (List.map (query_parameter (settings w1))
                                            (configured_keys (settings w1))))
    as Hurl.
  { intros url. unfold configured_keys.
    change request_parameters with (required ++ optional)%list.
    rewrite <- List.fold_left_app. apply fold_append_param. }
  cbn [List.fold_left required optional] in Hurl.
  destruct oidc; run; rewrite Hoauth; run; rewrite Hurl;
    unfold authorization_url, nonce, state; rewrite !append_append;
    eexists _, _; (split; [reflexivity|split; [simpl; lia|exact Htokens]]).
Qed.

End RequestBuilder.

(** * The properties on the sample runtime *)

Lemma C8_witness :
  (exists (request_state : value) (w' : world),
      createTokenRequestAsync Sample.runtime Sample.fresh
      = (Return (Fulfilled
           (VObj [("request_state", request_state);
                  ("url",
                   VStr (authorization_url "https://idp.example/authorize"
                           (Sample.random 0) (Some (Sample.random 1))
                           (settings Sample.started)))])), w')
      /\ rand_calls w' = 2%nat
      /\ (forall text : string,
             lookup_field "response_type" (settings Sample.started) = VStr text ->
             text <> "" ->
             true = bool_decide ("id_token" ∈ split_spaces text)))
  /\ authorization_url "https://idp.example/authorize"
       (Sample.random 0) (Some (Sample.random 1)) (settings Sample.started)
     = "https://idp.example/authorize?state=r0%2Fx&nonce=r1%2Fx"
       +:+ "&client_id=app"
       +:+ "&redirect_uri=https%3A%2F%2Fapp.example%2Fcb%3Fx%3D1"
       +:+ "&response_type=id_token%20token&scope=openid%20profile"
       +:+ "&max_age=3600".
Proof.
  split; [|vm_compute; reflexivity].
  apply (C8_authorization_url Sample.runtime Sample.fresh
           (snd (loadAuthorizationEndpoint Sample.runtime Sample.fresh))
           (VStr "https://idp.example/authorize") true).
  - vm_compute. reflexivity.
  - vm_compute. reflexivity.
  - reflexivity.
  - intros key Hin. simpl in Hin.
    repeat (destruct Hin as [<-|Hin]; [vm_compute; reflexivity|]).
    contradiction.
Defined.

(** C8 with each parameter exactly when its configured value is not empty
    does not hold: a [max_age] of zero is configured, and is a value, but
    the url carries no [max_age]. *)
Lemma C8_counterexample :
  lookup_field "max_age" (settings Sample.impatient) = VNum 0
  /\ fst (createTokenRequestAsync Sample.runtime Sample.impatient)
     = Return (Fulfilled (VObj
         [("request_state",
           VObj [("oidc", VBool true); ("oauth", VBool true);
                 ("state", VStr "r0/x"); ("nonce", VStr "r1/x")]);
          ("url",
           VStr ("https://idp.example/authorize?state=r0%2Fx&nonce=r1%2Fx"
                 +:+ "&client_id=app"
                 +:+ "&redirect_uri=https%3A%2F%2Fapp.example%2Fcb%3Fx%3D1"
                 +:+ "&response_type=id_token%20token"
                 +:+ "&scope=openid%20profile"))]))
  /\ fst (createTokenRequestAsync Sample.runtime Sample.impatient)
     <> Return (Fulfilled (VObj
          [("request_state",
            VObj [("oidc", VBool true); ("oauth", VBool true);
                  ("state", VStr "r0/x"); ("nonce", VStr "r1/x")]);
           ("url",
            VStr ("https://idp.example/authorize?state=r0%2Fx&nonce=r1%2Fx"
                  +:+ "&client_id=app"
                  +:+ "&redirect_uri=https%3A%2F%2Fapp.example%2Fcb%3Fx%3D1"
                  +:+ "&response_type=id_token%20token"
                  +:+ "&scope=openid%20profile" +:+ "&max_age=0"))])).
Proof.
  split; [reflexivity|]. split; [vm_compute; reflexivity|].
  vm_compute. discriminate.
Qed.

Lemma C1_witness :
  processResponseAsync Sample.runtime
    (Sample.callback "r0/y" 1699999900 1700000600) VUndefined Sample.started
  = (Throw (Error "Invalid state"), cleared Sample.started).
Proof.
  apply (C1_state_mismatch Sample.runtime
           (Sample.callback "r0/y" 1699999900 1700000600) VUndefined
           Sample.started (cleared Sample.started)
           (VObj [("oidc", VBool true); ("oauth", VBool true);
                  ("state", VStr "r0/x"); ("nonce", VStr "r1/x")])
           (VStr "r0/x") VUndefined (VStr "r0/y"));
    try (vm_compute; reflexivity).
  discriminate.
Defined.


Lemma substring_whole (s : string) :
  String.substring 0 (String.length s) s = s.
Proof. induction s as [|c s IH]; simpl; congruence. Qed.

Lemma sample_passes_checks (iat exp : Z) :
  JSON_parse Sample.runtime (Sample.stringify (Sample.token_claims iat exp))
  = Reply (Sample.token_claims iat exp) ->
  passes_checks Sample.runtime
    (Sample.id_token_of (Sample.token_claims iat exp)) (VStr "r1/x")
    Sample.started Sample.resolved (Sample.token_claims iat exp).
Proof.
  intros Hparse.
  exists (VStr "CERT-A"), Sample.metadata_document,
    (Sample.stringify (Sample.token_claims iat exp)),
    (snd (loadX509SigningKeyAsync Sample.runtime Sample.started)),
    (VStr "r1/x"), (VStr "https://idp.example"), (VStr "https://idp.example"),
    (VStr "app").
  repeat split; try exact Hparse; try (vm_compute; reflexivity).
  unfold Sample.id_token_of. cbn [verifyJWSByPemX509Cert Sample.runtime].
  unfold Sample.verify.
  change (String.prefix ("CERT-A" +:+ ":") ("CERT-A:" +:+ ?s)) with true.
  cbn iota. do 2 f_equal.
  change (String.length ("CERT-A" +:+ ":")) with 7%nat.
  change ("CERT-A:" +:+ ?s) with
    (String "C" (String "E" (String "R" (String "T" (String "-"
       (String "A" (String ":" s))))))).
  cbn [String.length Nat.sub String.substring].
  rewrite Nat.sub_0_r. apply substring_whole.
Qed.

Lemma C3_witness :
  (failure (fst (validateIdTokenAsync Sample.runtime
                   (Sample.id_token_of (Sample.token_claims 1699999700 1700000000))
                   (VStr "r1/x") (VStr "AT-1") Sample.started))
   = Some too_old
   <-> now_seconds Sample.started - 1699999700 > 300)
  /\ (failure (fst (validateIdTokenAsync Sample.runtime
                      (Sample.id_token_of (Sample.token_claims 1699999700 1700000000))
                      (VStr "r1/x") (VStr "AT-1") Sample.started))
      = Some token_expired
      <-> now_seconds Sample.started - 1699999700 <= 300
          /\ 1700000000 < now_seconds Sample.started).
Proof.
  apply (C3_time_window Sample.runtime
           (Sample.id_token_of (Sample.token_claims 1699999700 1700000000))
           (VStr "r1/x") (VStr "AT-1") Sample.started Sample.resolved
           (Sample.token_claims 1699999700 1700000000) 1699999700 1700000000).
  - apply sample_passes_checks. vm_compute. reflexivity.
  - reflexivity.
  - reflexivity.
Defined.

(** C3 with [Token expired] exactly when [exp < now] does not hold: a token
    that passes the four checks, was issued 301 seconds ago and expired one
    second ago has [exp < now] and is rejected with
    [Token issued too long ago], not with [Token expired]. *)
Lemma C3_counterexample :
  passes_checks Sample.runtime
    (Sample.id_token_of (Sample.token_claims 1699999699 1699999999))
    (VStr "r1/x") Sample.started Sample.resolved
    (Sample.token_claims 1699999699 1699999999)
  /\ 1699999999 < now_seconds Sample.started
  /\ failure (fst (validateIdTokenAsync Sample.runtime
                     (Sample.id_token_of (Sample.token_claims 1699999699 1699999999))
                     (VStr "r1/x") (VStr "AT-1") Sample.started))
     = Some too_old
  /\ failure (fst (validateIdTokenAsync Sample.runtime
                     (Sample.id_token_of (Sample.token_claims 1699999699 1699999999))
                     (VStr "r1/x") (VStr "AT-1") Sample.started))
     <> Some token_expired.
Proof.
  split; [apply sample_passes_checks; vm_compute; reflexivity|].
  split; [vm_compute; reflexivity|].
  split; [vm_compute; reflexivity|].
  vm_compute. discriminate.
Qed.

Lemma C9_witness :
  (exists result : obj,
      validateIdTokenAsync Sample.runtime
        (Sample.id_token_of (Sample.token_claims 1699999900 1700000600))
        (VStr "r1/x") (VStr "AT-2") Sample.started
      = (Return (Fulfilled (VObj result)), Sample.resolved)
      /\ (truthy (VNum 401) = true ->
          (forall k : string,
              lookup_field k result = lookup_field k Sample.claims_of_token)
          /\ (List.NoDup (List.map fst Sample.claims_of_token) ->
              result = Sample.claims_of_token))
      /\ (truthy (VNum 401) = false ->
          forall k : string,
            lookup_field k result
            = if List.existsb (String.eqb k)
                   (own_keys (VObj [("statusCode", VNum 401)]))
              then own_value (VObj [("statusCode", VNum 401)]) k
              else lookup_field k Sample.claims_of_token))
  /\ (exists result : obj,
         validateIdTokenAsync Sample.runtime
           (Sample.id_token_of (Sample.token_claims 1699999900 1700000600))
           (VStr "r1/x") (VStr "AT-1") Sample.started
         = (Return (Fulfilled (VObj result)), Sample.resolved)
         /\ (truthy VUndefined = true ->
             (forall k : string,
                 lookup_field k result = lookup_field k Sample.claims_of_token)
             /\ (List.NoDup (List.map fst Sample.claims_of_token) ->
                 result = Sample.claims_of_token))
         /\ (truthy VUndefined = false ->
             forall k : string,
               lookup_field k result
               = if List.existsb (String.eqb k)
                      (own_keys Sample.userinfo_document)
                 then own_value Sample.userinfo_document k
                 else lookup_field k Sample.claims_of_token)).
Proof.
  split.
  - apply (C9_userinfo_profile Sample.runtime
             (Sample.id_token_of (Sample.token_claims 1699999900 1700000600))
             (VStr "r1/x") (VStr "AT-2") Sample.started Sample.resolved
             Sample.resolved Sample.claims_of_token 1699999900 1700000600
             (VObj [("statusCode", VNum 401)]) (VNum 401)).
    + apply (sample_passes_checks 1699999900 1700000600).
      vm_compute. reflexivity.
    + reflexivity.
    + reflexivity.
    + vm_compute. discriminate.
    + vm_compute. discriminate.
    + reflexivity.
    + reflexivity.
    + vm_compute. reflexivity.
    + reflexivity.
  - apply (C9_userinfo_profile Sample.runtime
             (Sample.id_token_of (Sample.token_claims 1699999900 1700000600))
             (VStr "r1/x") (VStr "AT-1") Sample.started Sample.resolved
             Sample.resolved Sample.claims_of_token 1699999900 1700000600
             Sample.userinfo_document VUndefined).
    + apply (sample_passes_checks 1699999900 1700000600).
      vm_compute. reflexivity.
    + reflexivity.
    + reflexivity.
    + vm_compute. discriminate.
    + vm_compute. discriminate.
    + reflexivity.
    + reflexivity.
    + vm_compute. reflexivity.
    + reflexivity.
Defined.

Lemma C7_witness :
  exists (request_state verified : value) (w1 w2 : world),
    load_request_state Sample.runtime VUndefined Sample.started
    = (Return request_state, w1)
    /\ verify_tokens Sample.runtime Sample.response request_state w1
       = (Return (Fulfilled verified), w2)
    /\ forall claims : obj,
         verified = VObj claims ->
         exists profile : obj,
           prop Sample.session "profile" = Return (VObj profile)
           /\ (forall k, In k reserved_claims -> ~ In k (List.map fst profile))
           /\ (forall k, In k reserved_claims ->
                         lookup_field k profile = VUndefined)
           /\ (forall k, ~ In k reserved_claims ->
                         lookup_field k profile = lookup_field k claims)
           /\ List.map fst profile
              = List.filter
                  (fun k => negb (List.existsb (String.eqb k) reserved_claims))
                  (List.map fst claims).
Proof.
  apply (C7_protocol_claims_filtered Sample.runtime Sample.response VUndefined
           Sample.started Sample.finished Sample.session).
  - vm_compute. reflexivity.
  - reflexivity.
Defined.

(** C6, on the code: a request state that is there but is no JSON text,
    given as the argument or found in the store, makes the call end with
    the [SyntaxError] of [JSON.parse]; the failure [No request state loaded]
    is not the outcome. *)
Theorem C6_unparsable_request_state_throws :
  processResponseAsync Sample.runtime Sample.response (VStr "{") Sample.started
  = (Throw (SyntaxError "Unexpected token in JSON"), Sample.started)
  /\ processResponseAsync Sample.runtime Sample.response VUndefined
       (with_store {[ "OidcClient.request_state" := "{" ]} Sample.started)
     = (Throw (SyntaxError "Unexpected token in JSON"),
        with_store ∅ Sample.started)
  /\ failure (fst (processResponseAsync Sample.runtime Sample.response
                     (VStr "{") Sample.started))
     <> Some (Error "No request state loaded").
Proof.
  split; [|split].
  - apply unparsable_request_state; reflexivity.
  - vm_compute. reflexivity.
  - vm_compute. discriminate.
Qed.

(** ** Runs of the client *)

Example split_on_white_space :
  split_spaces "id_token token" = ["id_token"; "token"]
  /\ split_spaces " code  id_token " = [""; "code"; "id_token"; ""]
  /\ split_spaces "id_token2" = ["id_token2"].
Proof. repeat split. Qed.

Example request_of_the_sample :
  fst (createTokenRequestAsync Sample.runtime Sample.fresh)
  = Return (Fulfilled (VObj
      [("request_state",
        VObj [("oidc", VBool true); ("oauth", VBool true);
              ("state", VStr "r0/x"); ("nonce", VStr "r1/x")]);
       ("url",
        VStr ("https://idp.example/authorize?state=r0%2Fx&nonce=r1%2Fx"
              +:+ "&client_id=app"
              +:+ "&redirect_uri=https%3A%2F%2Fapp.example%2Fcb%3Fx%3D1"
              +:+ "&response_type=id_token%20token&scope=openid%20profile"
              +:+ "&max_age=3600"))])).
Proof. vm_compute. reflexivity. Qed.

Example session_of_the_sample :
  Sample.session
  = VObj [("profile", VObj [("sub", VStr "alice");
                            ("email", VStr "alice@example.org");
                            ("name", VStr "Alice A.")]);
          ("id_token",
           Sample.id_token_of (Sample.token_claims 1699999900 1700000600));
          ("access_token", VStr "AT-1"); ("expires_in", VNum 3600);
          ("scope", VStr "openid profile"); ("session_state", VUndefined)].
Proof. vm_compute. reflexivity. Qed.

(** The clock of the sample reads 1700000000 seconds. *)
Example time_window_of_the_sample :
  now_seconds Sample.started = 1700000000
  /\ failure (fst (validateIdTokenAsync Sample.runtime
                     (Sample.id_token_of (Sample.token_claims 1699999700 1700000000))
                     (VStr "r1/x") VUndefined Sample.started)) = None
  /\ failure (fst (validateIdTokenAsync Sample.runtime
                     (Sample.id_token_of (Sample.token_claims 1699999699 1700000000))
                     (VStr "r1/x") VUndefined Sample.started)) = Some too_old
  /\ failure (fst (validateIdTokenAsync Sample.runtime
                     (Sample.id_token_of (Sample.token_claims 1699999700 1699999999))
                     (VStr "r1/x") VUndefined Sample.started)) = Some token_expired.
Proof. repeat split; vm_compute; reflexivity. Qed.

(** The same callback a second time: the entry of the store is gone. *)
Example replay_of_the_sample :
  fst (processResponseAsync Sample.runtime Sample.response VUndefined
         Sample.finished)
  = Throw (Error "No request state loaded").
Proof. vm_compute. reflexivity. Qed.


(** * Further properties of the client *)

(** ** The metadata *)

Section Metadata.

Context (rt : Runtime).

Lemma loadMetadataAsync_cached (w : world) :
  truthy (lookup_field "metadata" (settings w)) = true ->
  loadMetadataAsync rt w
  = (Return (Fulfilled (lookup_field "metadata" (settings w))), w).
Proof. intros H. unfold loadMetadataAsync. run. now rewrite H. Qed.

Lemma loadMetadataAsync_outcomes (w : world) :
  (truthy (lookup_field "metadata" (settings w)) = true
   /\ loadMetadataAsync rt w
      = (Return (Fulfilled (lookup_field "metadata" (settings w))), w))
  \/ (truthy (lookup_field "metadata" (settings w)) = false
      /\ truthy (lookup_field "authority" (settings w)) = false
      /\ loadMetadataAsync rt w = (Throw (Error "No authority configured"), w))
  \/ (truthy (lookup_field "metadata" (settings w)) = false
      /\ truthy (lookup_field "authority" (settings w)) = true
      /\ exists message : string,
           getJson rt (lookup_field "authority" (settings w)) VNull
             (lookup_field "httpSettings" (settings w)) = Failure message
           /\ loadMetadataAsync rt w
              = (Return (Rejected (Error ("Failed to load metadata ("
                                          +:+ message +:+ ")"))), w))
  \/ (truthy (lookup_field "metadata" (settings w)) = false
      /\ truthy (lookup_field "authority" (settings w)) = true
      /\ exists metadata : value,
           getJson rt (lookup_field "authority" (settings w)) VNull
             (lookup_field "httpSettings" (settings w)) = Reply metadata
           /\ loadMetadataAsync rt w
              = (Return (Fulfilled metadata),
                 with_settings (set_field "metadata" metadata (settings w)) w)).
Proof.
  unfold loadMetadataAsync. run.
  destruct (truthy (lookup_field "metadata" (settings w))) eqn:Hm; run;
    [now left|right].
  destruct (truthy (lookup_field "authority" (settings w))) eqn:Ha; run;
    [right|now left].
  destruct (getJson rt _ VNull _) as [metadata|message] eqn:Hfetch; run.
  - right. repeat split. now exists metadata.
  - left. repeat split. now exists message.
Qed.

(** X1: a metadata document that was resolved, and is not a falsy value,
    is kept in the settings: every later call answers it again, in the same
    world, whatever the transport would answer then. *)
Theorem metadata_resolved_once (w w1 : world) (metadata : value) :
  loadMetadataAsync rt w = (Return (Fulfilled metadata), w1) ->
  truthy metadata = true ->
  lookup_field "metadata" (settings w1) = metadata
  /\ forall rt' : Runtime,
       loadMetadataAsync rt' w1 = (Return (Fulfilled metadata), w1).
Proof.
  intros Hload Htruthy.
  assert (lookup_field "metadata" (settings w1) = metadata) as Hcached.
  { destruct (loadMetadataAsync_outcomes w)
      as [(Hm & H)|[(_ & _ & H)|[(_ & _ & m & _ & H)|(_ & _ & md & _ & H)]]];
      rewrite H in Hload; inversion Hload; subst; try reflexivity.
    simpl. apply lookup_set_field_eq. }
  split; [exact Hcached|]. intros rt'. unfold loadMetadataAsync. run.
  rewrite Hcached, Htruthy. reflexivity.
Qed.

(** X2: the outcomes of [loadMetadataAsync].  It throws only
    [No authority configured], and only when there is neither a metadata
    document nor an authority in the settings; it is rejected only with
    [Failed to load metadata (..)] around the message of the transport, and
    then caches nothing; what it resolves with is the configured document
    or the answer of the transport. *)
Theorem metadata_outcomes (w : world) :
  match loadMetadataAsync rt w with
  | (Throw e, w') =>
      e = Error "No authority configured" /\ w' = w
      /\ truthy (lookup_field "metadata" (settings w)) = false
      /\ truthy (lookup_field "authority" (settings w)) = false
  | (Return (Rejected e), w') =>
      w' = w
      /\ exists message : string,
           e = Error ("Failed to load metadata (" +:+ message +:+ ")")
           /\ getJson rt (lookup_field "authority" (settings w)) VNull
                (lookup_field "httpSettings" (settings w)) = Failure message
  | (Return (Fulfilled metadata), w') =>
      (w' = w /\ metadata = lookup_field "metadata" (settings w))
      \/ (getJson rt (lookup_field "authority" (settings w)) VNull
            (lookup_field "httpSettings" (settings w)) = Reply metadata
          /\ lookup_field "metadata" (settings w') = metadata)
  end.
Proof.
  destruct (loadMetadataAsync_outcomes w)
    as [(Hm & H)|[(Hm & Ha & H)|[(_ & _ & m & Hf & H)|(_ & _ & md & Hf & H)]]];
    rewrite H.
  - now left.
  - now repeat split.
  - split; [reflexivity|]. now exists m.
  - right. split; [exact Hf|]. simpl. apply lookup_set_field_eq.
Qed.

End Metadata.

Lemma metadata_resolved_once_witness :
  lookup_field "metadata"
    (settings (snd (loadMetadataAsync Sample.runtime Sample.fresh)))
  = Sample.metadata_document
  /\ forall rt' : Runtime,
       loadMetadataAsync rt' (snd (loadMetadataAsync Sample.runtime Sample.fresh))
       = (Return (Fulfilled Sample.metadata_document),
          snd (loadMetadataAsync Sample.runtime Sample.fresh)).
Proof.
  apply (metadata_resolved_once Sample.runtime Sample.fresh
           (snd (loadMetadataAsync Sample.runtime Sample.fresh))
           Sample.metadata_document); reflexivity.
Defined.


(** ** The authorization endpoint and the token request *)

Lemma isOidc_same (s s' : obj) :
  lookup_field "response_type" s' = lookup_field "response_type" s ->
  isOidc s' = isOidc s.
Proof. intros H. unfold isOidc. now rewrite H. Qed.

Lemma isOauth_same (s s' : obj) :
  lookup_field "response_type" s' = lookup_field "response_type" s ->
  isOauth s' = isOauth s.
Proof. intros H. unfold isOauth. now rewrite H. Qed.

Section Endpoint.

Context (rt : Runtime).

Lemma quiet_loadAuthorizationEndpoint : quiet (loadAuthorizationEndpoint rt).
Proof.
  unfold loadAuthorizationEndpoint. repeat quiet_step.
  apply quiet_loadMetadataAsync.
Qed.

(** X3: an [authorization_endpoint] in the settings is the endpoint, and
    nothing is fetched for it; without one, and with an authority, the
    endpoint is the [authorization_endpoint] of the metadata. *)
Theorem authorization_endpoint_precedence (w : world) :
  (truthy (lookup_field "authorization_endpoint" (settings w)) = true ->
   loadAuthorizationEndpoint rt w
   = (Return (Fulfilled (lookup_field "authorization_endpoint" (settings w))), w))
  /\ (truthy (lookup_field "authorization_endpoint" (settings w)) = false ->
      truthy (lookup_field "authority" (settings w)) = true ->
      forall (metadata endpoint : value) (w1 : world),
        loadMetadataAsync rt w = (Return (Fulfilled metadata), w1) ->
        prop metadata "authorization_endpoint" = Return endpoint ->
        truthy endpoint = true ->
        loadAuthorizationEndpoint rt w = (Return (Fulfilled endpoint), w1)).
Proof.
  split.
  - intros H. unfold loadAuthorizationEndpoint. run. now rewrite H.
  - intros Hno Hauth metadata endpoint w1 Hmeta Hprop Hep.
    unfold loadAuthorizationEndpoint. run. rewrite Hno, Hauth. run.
    rewrite Hmeta. run.
    assert (truthy metadata = true) as Hmd.
    { destruct metadata; simpl in Hprop; try discriminate; try reflexivity;
        inversion Hprop; subst; discriminate. }
    rewrite Hmd. run. rewrite Hprop. run. now rewrite Hep.
Qed.

Lemma prop_of_truthy (v : value) (k : string) :
  truthy v = true -> exists x : value, prop v k = Return x.
Proof. destruct v; simpl; try discriminate; eauto. Qed.

Lemma loadAuthorizationEndpoint_unresolved (w : world) :
  truthy (lookup_field "authorization_endpoint" (settings w)) = false ->
  truthy (lookup_field "authority" (settings w)) = true ->
  no_endpoint_in_metadata rt w ->
  exists (message : string) (w1 : world),
    loadAuthorizationEndpoint rt w = (Return (Rejected (TypeError message)), w1)
    /\ same_but_cache w w1.
Proof.
  intros Hno Hauth Hnone.
  assert (exists (message : string) (w1 : world),
             loadAuthorizationEndpoint rt w
             = (Return (Rejected (TypeError message)), w1)) as (m & w1 & H).
  { unfold loadAuthorizationEndpoint. run. rewrite Hno, Hauth. run.
    destruct (loadMetadataAsync rt w) as [[[metadata|e]|e] w1] eqn:Hmeta; run.
    - destruct (truthy metadata) eqn:Hmd; run; [|eauto].
      destruct (prop_of_truthy metadata "authorization_endpoint" Hmd)
        as [endpoint Hprop].
      rewrite Hprop. run. rewrite (Hnone metadata endpoint w1 Hmeta Hprop).
      run. eauto.
    - eauto.
    - destruct (loadMetadataAsync_outcomes rt w)
        as [(_ & H)|[(_ & Ha & _)|[(_ & _ & m & _ & H)|(_ & _ & md & _ & H)]]];
        congruence. }
  exists m, w1. split; [exact H|].
  pose proof (quiet_loadAuthorizationEndpoint w) as Hquiet.
  now rewrite H in Hquiet.
Qed.

End Endpoint.

Lemma authorization_endpoint_precedence_witness :
  loadAuthorizationEndpoint Sample.runtime Cases.pinned
  = (Return (Fulfilled (VStr "https://login.example/auth")), Cases.pinned)
  /\ loadAuthorizationEndpoint Sample.runtime Sample.fresh
     = (Return (Fulfilled (VStr "https://idp.example/authorize")),
        snd (loadMetadataAsync Sample.runtime Sample.fresh)).
Proof.
  split.
  - apply (proj1 (authorization_endpoint_precedence Sample.runtime Cases.pinned)).
    reflexivity.
  - apply (proj2 (authorization_endpoint_precedence Sample.runtime Sample.fresh))
      with (metadata := Sample.metadata_document); reflexivity.
Defined.


Section TokenRequest.

Context (rt : Runtime).

Lemma createTokenRequestAsync_resolved (w w1 : world) (endpoint : value) :
  loadAuthorizationEndpoint rt w = (Return (Fulfilled endpoint), w1) ->
  match isOidc (settings w1), isOauth (settings w1) with
  | Return oidc, Return oauth =>
      let state := rand rt (rand_calls w1) in
      let nonce := if oidc then Some (rand rt (S (rand_calls w1))) else None in
      let record := request_state_record oidc oauth state nonce in
      exists url : string,
        createTokenRequestAsync rt w
        = (Return (Fulfilled (VObj [("request_state", VObj record);
                                    ("url", VStr url)])),
           with_store (<[state_key w1 := JSON_stringify rt (VObj record)]>
                         (request_state_store w1))
             (with_rand_calls (rand_calls w1 + if oidc then 2 else 1) w1))
  | _, _ =>
      exists (message : string) (w' : world),
        createTokenRequestAsync rt w = (Return (Rejected (TypeError message)), w')
        /\ request_state_store w' = request_state_store w1
  end.
Proof.
  intros Hload.
  assert (Hrun : forall k : promise value -> M (promise value),
    (p <- loadAuthorizationEndpoint rt ;; k p)%js w
    = k (Fulfilled endpoint) w1).
  { intros k. unfold bind. rewrite Hload. reflexivity. }
  unfold createTokenRequestAsync. rewrite Hrun. clear Hrun.
  unfold then2. run.
  destruct (isOidc (settings w1)) as [oidc|e] eqn:Hoidc.
  - destruct (isOauth_returns _ _ Hoidc) as [oauth Hoauth]. rewrite Hoauth.
    run. destruct oidc; run.
    + replace (rand_calls w1 + 2)%nat with (S (S (rand_calls w1))) by lia.
      unfold request_state_record.
      destruct (String.eqb (rand rt (S (rand_calls w1))) "") eqn:Hn; run;
        rewrite ?Hn; run; eexists; reflexivity.
    + replace (rand_calls w1 + 1)%nat with (S (rand_calls w1)) by lia.
      eexists. reflexivity.
  - run. unfold isOidc in Hoidc.
    destruct (truthy (lookup_field "response_type" (settings w1)));
      [|discriminate].
    destruct (lookup_field "response_type" (settings w1)); try discriminate;
      inversion Hoidc; eauto.
Qed.

(** X4: a token request without an authorization endpoint.  With no
    endpoint in the settings and no authority, [createTokenRequestAsync]
    throws [No authorization_endpoint configured] and changes nothing.
    With an authority whose metadata cannot be loaded, or names no
    endpoint, it is rejected with a [TypeError] (its rejection handlers
    call their own argument) and not with the error that names the cause;
    no random value is drawn and the store is left alone. *)
Theorem token_request_without_endpoint (w : world) :
  truthy (lookup_field "authorization_endpoint" (settings w)) = false ->
  (truthy (lookup_field "authority" (settings w)) = false ->
   createTokenRequestAsync rt w
   = (Throw (Error "No authorization_endpoint configured"), w))
  /\ (truthy (lookup_field "authority" (settings w)) = true ->
      no_endpoint_in_metadata rt w ->
      exists (message : string) (w1 : world),
        createTokenRequestAsync rt w
        = (Return (Rejected (TypeError message)), w1)
        /\ same_but_cache w w1).
Proof.
  intros Hno. split.
  - intros Hnone. unfold createTokenRequestAsync, loadAuthorizationEndpoint.
    run. now rewrite Hno, Hnone.
  - intros Hauth Hnone.
    destruct (loadAuthorizationEndpoint_unresolved rt w Hno Hauth Hnone)
      as (m & w1 & Hload & Hsame).
    exists "error is not a function", w1. split; [|exact Hsame].
    unfold createTokenRequestAsync, bind. rewrite Hload. reflexivity.
Qed.

(** X5: with the endpoint resolved, [createTokenRequestAsync] draws the
    state, and the nonce of an OIDC request, from the random supply, hands
    back the record of the two flags, the state and the nonce, and writes
    the JSON text of that very record under the request-state key; no other
    entry of the store and no setting changes. *)
Theorem token_request_recorded (w w1 : world) (endpoint : value)
    (oidc oauth : bool) :
  loadAuthorizationEndpoint rt w = (Return (Fulfilled endpoint), w1) ->
  isOidc (settings w1) = Return oidc ->
  isOauth (settings w1) = Return oauth ->
  let state := rand rt (rand_calls w1) in
  let nonce := if oidc then Some (rand rt (S (rand_calls w1))) else None in
  let record := request_state_record oidc oauth state nonce in
  exists (url : value) (w' : world),
    createTokenRequestAsync rt w
    = (Return (Fulfilled (VObj [("request_state", VObj record); ("url", url)])),
       w')
    /\ request_state_store w' !! state_key w1
       = Some (JSON_stringify rt (VObj record))
    /\ (forall k : string, k <> state_key w1 ->
          request_state_store w' !! k = request_state_store w1 !! k)
    /\ settings w' = settings w1.
Proof.
  intros Hload Hoidc Hoauth state nonce record.
  pose proof (createTokenRequestAsync_resolved w w1 endpoint Hload) as H.
  rewrite Hoidc, Hoauth in H. destruct H as [url H].
  eexists; eexists. split; [exact H|]. simpl. repeat split.
  - apply lookup_insert_eq.
  - intros k Hk. now apply lookup_insert_ne.
Qed.

(** X6: the request state written by a token request is the one the
    callback finds: when [JSON.parse] reads back what [JSON.stringify] wrote
    for the record, loading the request state from the store after
    [createTokenRequestAsync] answers the record of the request, and clears
    the entry. *)
Theorem token_request_round_trip (w w' : world) (answer request_state : value) :
  createTokenRequestAsync rt w = (Return (Fulfilled answer), w') ->
  prop answer "request_state" = Return request_state ->
  JSON_parse rt (JSON_stringify rt request_state) = Reply request_state ->
  JSON_stringify rt request_state <> "" ->
  load_request_state rt VUndefined w' = (Return request_state, cleared w')
  /\ request_state_store (cleared w') !! state_key w' = None.
Proof.
  intros Hcall Hprop Hparse Hne.
  split; [|unfold cleared; simpl; apply lookup_delete_eq].
  destruct (loadAuthorizationEndpoint rt w) as [[[endpoint|e]|e] w1] eqn:Hload.
  - pose proof (createTokenRequestAsync_resolved w w1 endpoint Hload) as H.
    destruct (isOidc (settings w1)) as [oidc|e1].
    + destruct (isOauth (settings w1)) as [oauth|e2].
      * destruct H as [url H]. rewrite H in Hcall. inversion Hcall; subst.
        simpl in Hprop. inversion Hprop; subst. clear Hprop Hcall H.
        apply String.eqb_neq in Hne.
        set (record := request_state_record _ _ _ _) in *. clearbody record.
        unfold load_request_state, parse. run. unfold state_key at 1. simpl.
        rewrite lookup_insert_eq. run. rewrite Hne. run.
        unfold state_key at 1. rewrite lookup_insert_eq. run.
        rewrite Hparse. run. unfold cleared, state_key. reflexivity.
      * destruct H as (m & w2 & H & _). rewrite H in Hcall. discriminate.
    + destruct H as (m & w2 & H & _). rewrite H in Hcall. discriminate.
  - unfold createTokenRequestAsync, bind in Hcall. rewrite Hload in Hcall.
    discriminate.
  - unfold createTokenRequestAsync, bind in Hcall. rewrite Hload in Hcall.
    discriminate.
Qed.

End TokenRequest.

Lemma token_request_without_endpoint_witness :
  createTokenRequestAsync Sample.runtime Cases.stray
  = (Throw (Error "No authorization_endpoint configured"), Cases.stray)
  /\ exists (message : string) (w1 : world),
       createTokenRequestAsync Sample.runtime Cases.unreachable
       = (Return (Rejected (TypeError message)), w1)
       /\ same_but_cache Cases.unreachable w1.
Proof.
  split.
  - apply (proj1 (token_request_without_endpoint Sample.runtime Cases.stray
                    eq_refl)).
    reflexivity.
  - apply (proj2 (token_request_without_endpoint Sample.runtime
                    Cases.unreachable eq_refl)); [reflexivity|].
    intros metadata endpoint w1 Hload. vm_compute in Hload. discriminate.
Defined.

Lemma token_request_recorded_witness :
  let record := request_state_record true true "r0/x" (Some "r1/x") in
  exists (url : value) (w' : world),
    createTokenRequestAsync Sample.runtime Sample.fresh
    = (Return (Fulfilled (VObj [("request_state", VObj record); ("url", url)])),
       w')
    /\ request_state_store w' !! "OidcClient.request_state"
       = Some (Sample.stringify (VObj record))
    /\ (forall k : string, k <> "OidcClient.request_state" ->
          request_state_store w' !! k = (∅ : gmap string string) !! k)
    /\ settings w' = settings (snd (loadMetadataAsync Sample.runtime Sample.fresh)).
Proof.
  apply (token_request_recorded Sample.runtime Sample.fresh
           (snd (loadMetadataAsync Sample.runtime Sample.fresh))
           (VStr "https://idp.example/authorize") true true); reflexivity.
Defined.

Lemma token_request_round_trip_witness :
  load_request_state Sample.runtime VUndefined Sample.started
  = (Return (VObj (request_state_record true true "r0/x" (Some "r1/x"))),
     cleared Sample.started)
  /\ request_state_store (cleared Sample.started) !! state_key Sample.started
     = None.
Proof.
  apply (token_request_round_trip Sample.runtime Sample.fresh Sample.started
           Cases.request); try reflexivity.
  vm_compute. discriminate.
Defined.


(** ** The signing keys *)

Section KeySet.

Context (rt : Runtime).


Lemma getKeyAsync_same (jwks : value) (w w' : world) :
  fst (getKeyAsync jwks w') = fst (getKeyAsync jwks w).
Proof.
  unfold getKeyAsync. run. repeat (split_match; run); reflexivity.
Qed.


Lemma failure_settle {A} (m : M (promise A)) (w : world) :
  failure (fst (settle m w)) = failure (fst (m w)).
Proof. unfold settle. destruct (m w) as [[[a|e]|e] w']; reflexivity. Qed.



(** X8: a key set without keys, and a first RSA key without certificates,
    are failures of their own: [Signing keys empty] when [keys] is missing,
    falsy or an empty array, [RSA keys empty] when the [x5c] of the first
    key, an RSA key, is missing, falsy or an empty array. *)
Theorem empty_key_sets (w : world) (jwks : value) :
  uses_key_set rt w jwks ->
  (forall keys : value,
      prop jwks "keys" = Return keys ->
      truthy keys = false \/ keys = VArr [] ->
      failure (fst (loadX509SigningKeyAsync rt w))
      = Some (Error "Signing keys empty"))
  /\ (forall (first x5c : value) (others : list value),
         prop jwks "keys" = Return (VArr (first :: others)) ->
         prop first "kty" = Return (VStr "RSA") ->
         prop first "x5c" = Return x5c ->
         truthy x5c = false \/ x5c = VArr [] ->
         failure (fst (loadX509SigningKeyAsync rt w))
         = Some (Error "RSA keys empty")).
Proof.
  intros Huses.
  assert (exists w2 : world,
             failure (fst (loadX509SigningKeyAsync rt w))
             = failure (fst (getKeyAsync jwks w2))) as [w2 ->].
  { destruct Huses as [[Hcached ->]|(Hno & metadata & jwks_uri & w1 & Hmeta & Huri
                                     & Htruthy & Hfetch)].
    - exists w. now rewrite loadX509SigningKeyAsync_cached.
    - eexists.
      rewrite (loadX509SigningKeyAsync_fetched rt w w1 metadata jwks_uri jwks)
        by assumption.
      apply failure_settle. }
  split.
  - intros keys Hkeys Hempty. unfold getKeyAsync. run. rewrite Hkeys. run.
    destruct Hempty as [Hfalsy| ->]; [now rewrite Hfalsy|reflexivity].
  - intros first x5c others Hkeys Hkty Hx5c Hempty. unfold getKeyAsync. run.
    rewrite Hkeys. run. rewrite length_not_zero. run. rewrite Hkty. run.
    rewrite Hx5c. run.
    destruct Hempty as [Hfalsy| ->]; [now rewrite Hfalsy|reflexivity].
Qed.

(** X9: what keeps [loadX509SigningKeyAsync] from a key set.  Without a
    cached key set, a failure of the metadata is the failure of the call;
    metadata without a [jwks_uri] rejects it with
    [Metadata does not contain jwks_uri]; a transport failure on the
    [jwks_uri] rejects it with [Failed to load signing keys (..)] around the
    message of the transport; in the last two cases nothing is cached
    beyond the metadata. *)
Theorem signing_key_failures (w : world) :
  truthy (lookup_field "jwks" (settings w)) = false ->
  (forall e : exn,
      failure (fst (loadMetadataAsync rt w)) = Some e ->
      failure (fst (loadX509SigningKeyAsync rt w)) = Some e
      /\ snd (loadX509SigningKeyAsync rt w) = snd (loadMetadataAsync rt w))
  /\ (forall (metadata jwks_uri : value) (w1 : world),
         loadMetadataAsync rt w = (Return (Fulfilled metadata), w1) ->
         prop metadata "jwks_uri" = Return jwks_uri ->
         (truthy jwks_uri = false ->
          loadX509SigningKeyAsync rt w
          = (Return (Rejected (Error "Metadata does not contain jwks_uri")), w1))
         /\ (forall message : string,
                truthy jwks_uri = true ->
                getJson rt jwks_uri VNull
                  (lookup_field "httpSettings" (settings w1)) = Failure message ->
                loadX509SigningKeyAsync rt w
                = (Return (Rejected (Error ("Failed to load signing keys ("
                                            +:+ message +:+ ")"))), w1))).
Proof.
  intros Hno. split.
  - intros e Hfail. unfold loadX509SigningKeyAsync. run. rewrite Hno. run.
    destruct (loadMetadataAsync rt w) as [[[metadata|e1]|e1] w1]; simpl in Hfail;
      try discriminate; inversion Hfail; subst; now split.
  - intros metadata jwks_uri w1 Hmeta Huri. split.
    + intros Hfalsy. unfold loadX509SigningKeyAsync. run. rewrite Hno, Hmeta.
      run. rewrite Huri. run. now rewrite Hfalsy.
    + intros message Htruthy Hfetch. unfold loadX509SigningKeyAsync. run.
      rewrite Hno, Hmeta. run. rewrite Huri. run. rewrite Htruthy. run.
      rewrite Hfetch. run. run. reflexivity.
Qed.

End KeySet.


Lemma empty_key_sets_witness :
  failure (fst (loadX509SigningKeyAsync Sample.runtime Cases.empty_keys))
  = Some (Error "Signing keys empty")
  /\ failure (fst (loadX509SigningKeyAsync Sample.runtime Cases.bare_rsa_key))
     = Some (Error "RSA keys empty").
Proof.
  split.
  - apply (proj1 (empty_key_sets Sample.runtime Cases.empty_keys
                    (VObj [("keys", VArr [])])
                    (or_introl (conj eq_refl eq_refl)))
             (VArr [])); [reflexivity|now right].
  - apply (proj2 (empty_key_sets Sample.runtime Cases.bare_rsa_key
                    (VObj [("keys", VArr [VObj [("kty", VStr "RSA")]])])
                    (or_introl (conj eq_refl eq_refl)))
             (VObj [("kty", VStr "RSA")]) VUndefined []);
      [reflexivity|reflexivity|reflexivity|now left].
Defined.

Lemma signing_key_failures_witness :
  failure (fst (loadX509SigningKeyAsync Sample.runtime Cases.unreachable))
  = Some (Error "Failed to load metadata (connect ECONNREFUSED)")
  /\ loadX509SigningKeyAsync Sample.runtime Cases.no_jwks_uri
     = (Return (Rejected (Error "Metadata does not contain jwks_uri")),
        Cases.no_jwks_uri)
  /\ loadX509SigningKeyAsync Sample.runtime Cases.dead_jwks_uri
     = (Return (Rejected (Error ("Failed to load signing keys ("
                                 +:+ "connect ECONNREFUSED" +:+ ")"))),
        Cases.dead_jwks_uri).
Proof.
  split; [|split].
  - apply (proj1 (signing_key_failures Sample.runtime Cases.unreachable eq_refl)).
    reflexivity.
  - apply (proj1 (proj2 (signing_key_failures Sample.runtime Cases.no_jwks_uri
                           eq_refl)
                    (VObj [("issuer", VStr "https://idp.example")]) VUndefined
                    Cases.no_jwks_uri eq_refl eq_refl)).
    reflexivity.
  - apply (proj2 (proj2 (signing_key_failures Sample.runtime Cases.dead_jwks_uri
                           eq_refl)
                    (VObj [("issuer", VStr "https://idp.example");
                           ("jwks_uri", VStr "https://down.example/jwks")])
                    (VStr "https://down.example/jwks")
                    Cases.dead_jwks_uri eq_refl eq_refl)); reflexivity.
Defined.


(** ** The logout request *)

Section Logout.

Context (rt : Runtime).

(** X10: [createLogoutRequestAsync] fails as the metadata does; metadata
    without an [end_session_endpoint] rejects it with
    [No end_session_endpoint in metadata]; otherwise the answer is the
    endpoint as it stands, unless there are both an [id_token_hint] and a
    [post_logout_redirect_uri]: only then are the two appended,
    percent-encoded, the redirect first.  A configured redirect is left out
    when no hint is given. *)
Theorem logout_request (id_token_hint : value) (w : world) :
  (forall e : exn,
      failure (fst (loadMetadataAsync rt w)) = Some e ->
      failure (fst (createLogoutRequestAsync rt id_token_hint w)) = Some e)
  /\ (forall (metadata endpoint : value) (w1 : world),
         loadMetadataAsync rt w = (Return (Fulfilled metadata), w1) ->
         prop metadata "end_session_endpoint" = Return endpoint ->
         let redirect := lookup_field "post_logout_redirect_uri" (settings w1) in
         (truthy endpoint = false ->
          createLogoutRequestAsync rt id_token_hint w
          = (Return (Rejected (Error "No end_session_endpoint in metadata")), w1))
         /\ (truthy endpoint = true ->
             truthy id_token_hint = false \/ truthy redirect = false ->
             createLogoutRequestAsync rt id_token_hint w
             = (Return (Fulfilled endpoint), w1))
         /\ (truthy endpoint = true ->
             truthy id_token_hint = true -> truthy redirect = true ->
             createLogoutRequestAsync rt id_token_hint w
             = (Return (Fulfilled
                  (VStr (to_string endpoint
                         +:+ "?post_logout_redirect_uri="
                         +:+ encodeURIComponent (to_string redirect)
                         +:+ "&id_token_hint="
                         +:+ encodeURIComponent (to_string id_token_hint)))),
                w1))).
Proof.
  split.
  - intros e Hfail. unfold createLogoutRequestAsync, bind at 1.
    destruct (loadMetadataAsync rt w) as [[[metadata|e1]|e1] w1]; simpl in Hfail;
      try discriminate; inversion Hfail; subst; reflexivity.
  - intros metadata endpoint w1 Hmeta Hprop redirect.
    unfold createLogoutRequestAsync, bind. rewrite Hmeta.
    unfold then_. run. rewrite Hprop. run. repeat split.
    + intros Hno. now rewrite Hno.
    + intros Hep Hor. rewrite Hep. run. fold redirect.
      destruct Hor as [H|H]; rewrite H; [reflexivity|].
      now rewrite Bool.andb_false_r.
    + intros Hep Hhint Hred. rewrite Hep. run. fold redirect.
      now rewrite Hhint, Hred.
Qed.

End Logout.

Lemma logout_request_witness :
  failure (fst (createLogoutRequestAsync Sample.runtime (VStr "TOKEN")
                  Cases.unreachable))
  = Some (Error "Failed to load metadata (connect ECONNREFUSED)")
  /\ createLogoutRequestAsync Sample.runtime (VStr "TOKEN") Sample.fresh
     = (Return (Rejected (Error "No end_session_endpoint in metadata")),
        snd (loadMetadataAsync Sample.runtime Sample.fresh))
  /\ createLogoutRequestAsync Sample.runtime VUndefined Cases.logout
     = (Return (Fulfilled (VStr "https://idp.example/logout")), Cases.logout)
  /\ createLogoutRequestAsync Sample.runtime (VStr "TOKEN") Cases.logout
     = (Return (Fulfilled
          (VStr ("https://idp.example/logout"
                 +:+ "?post_logout_redirect_uri="
                 +:+ encodeURIComponent "https://app.example/bye"
                 +:+ "&id_token_hint=" +:+ encodeURIComponent "TOKEN"))),
        Cases.logout).
Proof.
  split; [|split; [|split]].
  - apply (proj1 (logout_request Sample.runtime (VStr "TOKEN") Cases.unreachable)).
    reflexivity.
  - apply (proj1 (proj2 (logout_request Sample.runtime (VStr "TOKEN") Sample.fresh)
                    Sample.metadata_document VUndefined
                    (snd (loadMetadataAsync Sample.runtime Sample.fresh))
                    eq_refl eq_refl)).
    reflexivity.
  - apply (proj1 (proj2 (proj2 (logout_request Sample.runtime VUndefined Cases.logout)
                    Cases.logout_metadata (VStr "https://idp.example/logout")
                    Cases.logout eq_refl eq_refl)));
      [reflexivity|now left].
  - apply (proj2 (proj2 (proj2 (logout_request Sample.runtime (VStr "TOKEN")
                                  Cases.logout)
                    Cases.logout_metadata (VStr "https://idp.example/logout")
                    Cases.logout eq_refl eq_refl))); reflexivity.
Defined.


(** ** The constructor *)

Lemma keys_set_field (k : string) (v : value) (o : obj) :
  List.map fst (set_field k v o)
  = if List.existsb (String.eqb k) (List.map fst o) then List.map fst o
    else (List.map fst o ++ [k])%list.
Proof.
  induction o as [|[k' v'] o IH]; simpl; [reflexivity|].
  destruct (String.eqb k k') eqn:E; simpl.
  - apply String.eqb_eq in E. now subst.
  - rewrite IH. now destruct (List.existsb (String.eqb k) (List.map fst o)).
Qed.

Lemma NoDup_set_field (k : string) (v : value) (o : obj) :
  List.NoDup (List.map fst o) -> List.NoDup (List.map fst (set_field k v o)).
Proof.
  intros Hnd. rewrite keys_set_field.
  destruct (List.existsb (String.eqb k) (List.map fst o)) eqn:E; [exact Hnd|].
  apply List.NoDup_app; [exact Hnd|repeat constructor; simpl; tauto|].
  intros x Hx [Hk|[]]. subst x.
  assert (List.existsb (String.eqb k) (List.map fst o) = true); [|congruence].
  apply List.existsb_exists. exists k. split; [exact Hx|apply String.eqb_refl].
Qed.

Lemma NoDup_utility_copy (o : value) (target : obj) :
  List.NoDup (List.map fst target) ->
  List.NoDup (List.map fst (utility_copy o target)).
Proof.
  unfold utility_copy. generalize (own_keys o) as ks. intros ks. revert target.
  induction ks as [|k ks IH]; intros target Hnd; simpl; [exact Hnd|].
  apply IH. now apply NoDup_set_field.
Qed.

Lemma set_field_same (k : string) (o : obj) :
  lookup_field k o <> VUndefined -> set_field k (lookup_field k o) o = o.
Proof.
  induction o as [|[k' v'] o IH]; simpl; [congruence|].
  destruct (String.eqb k k') eqn:E.
  - apply String.eqb_eq in E. now subst.
  - intros H. now rewrite IH.
Qed.

Lemma truthy_defined (v : value) : truthy v = true -> v <> VUndefined.
Proof. intros H ->. discriminate. Qed.

Lemma index_of_suffix (a : string) :
  String.index 0 well_known (a +:+ well_known) <> None.
Proof.
  induction a as [|c a IH]; [discriminate|].
  change (String c a +:+ well_known) with (String c (a +:+ well_known)).
  cbn [String.index].
  destruct (String.prefix well_known (String c (a +:+ well_known)));
    [discriminate|].
  destruct (String.index 0 well_known (a +:+ well_known)); [discriminate|].
  contradiction.
Qed.

Lemma indexOf_suffix (a : string) :
  (indexOf (a +:+ well_known) well_known <? 0) = false.
Proof.
  unfold indexOf. pose proof (index_of_suffix a) as H.
  destruct (String.index 0 well_known (a +:+ well_known)); [|contradiction].
  apply Z.ltb_ge. lia.
Qed.

(** A discovery url is its own discovery url. *)
Lemma discovery_url_again (authority a : value) :
  discovery_url authority = Return a -> discovery_url a = Return a.
Proof.
  destruct authority as [| | | |text|items|]; simpl; try discriminate.
  - destruct (indexOf text well_known <? 0) eqn:E; intros H; inversion H; subst;
      simpl; [|now rewrite E].
    now rewrite indexOf_suffix.
  - destruct (List.existsb (strict_eq (VStr well_known)) items) eqn:E;
      intros H; inversion H; subst; simpl; [now rewrite E|].
    now rewrite indexOf_suffix.
Qed.

Lemma OidcClient_settled (serverSettings : value) (s : obj) :
  OidcClient serverSettings = Return s -> settled s.
Proof.
  unfold OidcClient.
  set (s0 := utility_copy serverSettings []).
  set (s1 := if truthy (lookup_field "request_state_key" s0) then s0 else _).
  set (s1' := if truthy (lookup_field "request_state_store" s1) then s1
              else _).
  set (s2 := match lookup_field "load_user_profile" s1' with
             | VUndefined => _ | _ => s1' end).
  set (s3 := match lookup_field "filter_protocol_claims" s2 with
             | VUndefined => _ | _ => s2 end).
  assert (List.NoDup (List.map fst s1)
          /\ truthy (lookup_field "request_state_key" s1) = true) as (N1 & K1).
  { subst s1. destruct (truthy (lookup_field "request_state_key" s0)) eqn:E.
    - split; [|exact E]. apply NoDup_utility_copy. constructor.
    - split; [|now rewrite lookup_set_field_eq].
      apply NoDup_set_field, NoDup_utility_copy. constructor. }
  assert (List.NoDup (List.map fst s1')
          /\ truthy (lookup_field "request_state_key" s1') = true
          /\ truthy (lookup_field "request_state_store" s1') = true)
    as (N1' & K1' & S1').
  { subst s1'. destruct (truthy (lookup_field "request_state_store" s1)) eqn:E.
    - repeat split; assumption.
    - rewrite lookup_set_field_ne by discriminate. rewrite lookup_set_field_eq.
      repeat split; try assumption. now apply NoDup_set_field. }
  assert (List.NoDup (List.map fst s2)
          /\ truthy (lookup_field "request_state_key" s2) = true
          /\ truthy (lookup_field "request_state_store" s2) = true
          /\ lookup_field "load_user_profile" s2 <> VUndefined)
    as (N2 & K2 & S2 & L2).
  { subst s2. destruct (lookup_field "load_user_profile" s1') eqn:E;
      try (rewrite E; repeat split; try assumption; discriminate).
    rewrite !lookup_set_field_ne by discriminate. rewrite lookup_set_field_eq.
    repeat split; try assumption; try discriminate. now apply NoDup_set_field. }
  assert (List.NoDup (List.map fst s3)
          /\ truthy (lookup_field "request_state_key" s3) = true
          /\ truthy (lookup_field "request_state_store" s3) = true
          /\ lookup_field "load_user_profile" s3 <> VUndefined
          /\ lookup_field "filter_protocol_claims" s3 <> VUndefined)
    as (N3 & K3 & S3 & L3 & F3).
  { subst s3. destruct (lookup_field "filter_protocol_claims" s2) eqn:E;
      try (rewrite E; repeat split; try assumption; discriminate).
    rewrite !lookup_set_field_ne by discriminate. rewrite lookup_set_field_eq.
    repeat split; try assumption; try discriminate. now apply NoDup_set_field. }
  clearbody s3. clear s0 s1 s1' s2 N1 K1 N1' K1' S1' N2 K2 S2 L2.
  assert (forall s4 : obj,
             (if truthy (lookup_field "authority" s3)
              then match discovery_url (lookup_field "authority" s3) with
                   | Return a => Return (set_field "authority" a s3)
                   | Throw e => Throw e
                   end
              else Return s3) = Return s4 ->
             List.NoDup (List.map fst s4)
             /\ truthy (lookup_field "request_state_key" s4) = true
             /\ truthy (lookup_field "request_state_store" s4) = true
             /\ lookup_field "load_user_profile" s4 <> VUndefined
             /\ lookup_field "filter_protocol_claims" s4 <> VUndefined
             /\ (truthy (lookup_field "authority" s4) = true ->
                 discovery_url (lookup_field "authority" s4)
                 = Return (lookup_field "authority" s4))) as Hfive.
  { intros s4. destruct (truthy (lookup_field "authority" s3)) eqn:Ea.
    - destruct (discovery_url (lookup_field "authority" s3)) as [a|e] eqn:Ed;
        [|discriminate].
      intros H. inversion H. subst s4.
      rewrite !lookup_set_field_ne by discriminate. rewrite lookup_set_field_eq.
      repeat split; try assumption; [now apply NoDup_set_field|].
      intros _. exact (discovery_url_again _ _ Ed).
    - intros H. inversion H. subst s4. repeat split; try assumption.
      rewrite Ea. discriminate. }
  destruct (if truthy (lookup_field "authority" s3) then _ else _) as [s4|e];
    [|discriminate].
  destruct (Hfive s4 eq_refl) as (N4 & K4 & S4 & L4 & F4 & A4).
  intros H. inversion H. subst s. unfold settled.
  destruct (truthy (lookup_field "response_type" s4)) eqn:E.
  - repeat split; assumption.
  - rewrite !lookup_set_field_ne by discriminate. rewrite lookup_set_field_eq.
    repeat split; try assumption. now apply NoDup_set_field.
Qed.

Lemma settled_fixed (s : obj) : settled s -> OidcClient (VObj s) = Return s.
Proof.
  intros (N & K & S & L & F & A & R). unfold OidcClient.
  rewrite (utility_copy_clone s N), K, S.
  destruct (lookup_field "load_user_profile" s) eqn:El; try congruence;
    destruct (lookup_field "filter_protocol_claims" s) eqn:Ef; try congruence;
    destruct (truthy (lookup_field "authority" s)) eqn:Ea;
    rewrite ?A by reflexivity;
    rewrite ?set_field_same by (apply truthy_defined; exact Ea);
    rewrite R; reflexivity.
Qed.

(** X11: building a client from the settings of a client changes nothing:
    the settings the constructor answers are a fixed point of the
    constructor.  In particular the discovery suffix is appended to the
    authority once, and no default is applied twice. *)
Theorem constructor_idempotent (serverSettings : value) (s : obj) :
  OidcClient serverSettings = Return s -> OidcClient (VObj s) = Return s.
Proof. intros H. apply settled_fixed. exact (OidcClient_settled _ _ H). Qed.

(** The settings before the authority and the response type are looked
    at. *)
Lemma OidcClient_defaults (serverSettings : value) (s : obj) :
  OidcClient serverSettings = Return s ->
  exists s3 : obj,
    (forall k : string, k <> "authority" -> k <> "response_type" ->
        lookup_field k s = lookup_field k s3)
    /\ (forall k : string, ~ In k constructor_keys ->
           lookup_field k s3 = own_value serverSettings k)
    /\ lookup_field "request_state_key" s3
       = (if truthy (own_value serverSettings "request_state_key")
          then own_value serverSettings "request_state_key"
          else VStr "OidcClient.request_state")
    /\ lookup_field "request_state_store" s3
       = (if truthy (own_value serverSettings "request_state_store")
          then own_value serverSettings "request_state_store"
          else Cookies)
    /\ (forall flag : string,
           flag = "load_user_profile" \/ flag = "filter_protocol_claims" ->
           lookup_field flag s3
           = match own_value serverSettings flag with
             | VUndefined => VBool true
             | v => v
             end).
Proof.
  unfold OidcClient.
  set (s0 := utility_copy serverSettings []).
  set (s1 := if truthy (lookup_field "request_state_key" s0) then s0 else _).
  set (s1' := if truthy (lookup_field "request_state_store" s1) then s1
              else _).
  set (s2 := match lookup_field "load_user_profile" s1' with
             | VUndefined => _ | _ => s1' end).
  set (s3 := match lookup_field "filter_protocol_claims" s2 with
             | VUndefined => _ | _ => s2 end).
  assert (forall k : string, lookup_field k s0 = own_value serverSettings k)
    as E0 by (intros k; apply lookup_clone).
  assert (forall k : string,
             lookup_field k s1
             = if String.eqb k "request_state_key"
               then if truthy (own_value serverSettings k)
                    then own_value serverSettings k
                    else VStr "OidcClient.request_state"
               else own_value serverSettings k) as E1.
  { intros k. subst s1. rewrite (E0 "request_state_key").
    destruct (String.eqb k "request_state_key") eqn:Ek.
    - apply String.eqb_eq in Ek. subst k.
      destruct (truthy (own_value serverSettings "request_state_key"));
        [apply E0|apply lookup_set_field_eq].
    - apply String.eqb_neq in Ek.
      destruct (truthy (own_value serverSettings "request_state_key"));
        rewrite ?lookup_set_field_ne by assumption; apply E0. }
  assert (forall k : string,
             lookup_field k s1'
             = if String.eqb k "request_state_store"
               then if truthy (own_value serverSettings k)
                    then own_value serverSettings k
                    else Cookies
               else lookup_field k s1) as E1'.
  { intros k. subst s1'. rewrite (E1 "request_state_store").
    cbn [String.eqb Ascii.eqb Bool.eqb].
    destruct (String.eqb k "request_state_store") eqn:Ek.
    - apply String.eqb_eq in Ek. subst k.
      destruct (truthy (own_value serverSettings "request_state_store"));
        [apply E1|apply lookup_set_field_eq].
    - apply String.eqb_neq in Ek.
      destruct (truthy (own_value serverSettings "request_state_store"));
        rewrite ?lookup_set_field_ne by assumption; reflexivity. }
  assert (forall k : string,
             lookup_field k s2
             = if String.eqb k "load_user_profile"
               then match own_value serverSettings k with
                    | VUndefined => VBool true
                    | v => v
                    end
               else lookup_field k s1') as E2.
  { intros k. subst s2.
    assert (lookup_field "load_user_profile" s1'
            = own_value serverSettings "load_user_profile") as El
      by (rewrite E1', E1; reflexivity).
    rewrite El.
    destruct (String.eqb k "load_user_profile") eqn:Ek.
    - apply String.eqb_eq in Ek. subst k.
      destruct (own_value serverSettings "load_user_profile") eqn:Ev;
        rewrite ?lookup_set_field_eq; try reflexivity; now rewrite El.
    - apply String.eqb_neq in Ek.
      destruct (own_value serverSettings "load_user_profile");
        rewrite ?lookup_set_field_ne by assumption; reflexivity. }
  assert (forall k : string,
             lookup_field k s3
             = if String.eqb k "filter_protocol_claims"
               then match own_value serverSettings k with
                    | VUndefined => VBool true
                    | v => v
                    end
               else lookup_field k s2) as E3.
  { intros k. subst s3.
    assert (lookup_field "filter_protocol_claims" s2
            = own_value serverSettings "filter_protocol_claims") as Ef
      by (rewrite E2, E1', E1; reflexivity).
    rewrite Ef.
    destruct (String.eqb k "filter_protocol_claims") eqn:Ek.
    - apply String.eqb_eq in Ek. subst k.
      destruct (own_value serverSettings "filter_protocol_claims") eqn:Ev;
        rewrite ?lookup_set_field_eq; try reflexivity; now rewrite Ef.
    - apply String.eqb_neq in Ek.
      destruct (own_value serverSettings "filter_protocol_claims");
        rewrite ?lookup_set_field_ne by assumption; reflexivity. }
  clearbody s3. intros H. exists s3. split; [|split; [|split; [|split]]].
  - intros k Ha Hr. revert H.
    repeat (split_match; try discriminate);
      intros H; inversion H; subst;
      rewrite ?lookup_set_field_ne by assumption; reflexivity.
  - intros k Hk. unfold constructor_keys in Hk. simpl in Hk.
    assert (k <> "request_state_key" /\ k <> "request_state_store"
            /\ k <> "load_user_profile" /\ k <> "filter_protocol_claims")
      as (H1 & H2 & H3 & H4) by (repeat split; intros ->; tauto).
    apply String.eqb_neq in H1, H2, H3, H4.
    now rewrite E3, H4, E2, H3, E1', H2, E1, H1.
  - rewrite E3, E2, E1', E1. reflexivity.
  - rewrite E3, E2, E1'. reflexivity.
  - intros flag [-> | ->].
    + rewrite E3, E2. reflexivity.
    + rewrite E3. reflexivity.
Qed.

(** X12: the constructor copies what it is given and fills gaps only.
    Every setting it has no default for is the one of the argument; the
    request-state key is replaced when it is falsy, and so is the
    request-state store, by the cookie store of the request; the flags
    [load_user_profile] and [filter_protocol_claims] are set only when they
    are undefined, so that an explicit [false] or [null] stays; no key
    occurs twice. *)
Theorem constructor_fills_gaps (serverSettings : value) (s : obj) :
  OidcClient serverSettings = Return s ->
  (forall k : string, ~ In k constructor_keys ->
      lookup_field k s = own_value serverSettings k)
  /\ lookup_field "request_state_key" s
     = (if truthy (own_value serverSettings "request_state_key")
        then own_value serverSettings "request_state_key"
        else VStr "OidcClient.request_state")
  /\ lookup_field "request_state_store" s
     = (if truthy (own_value serverSettings "request_state_store")
        then own_value serverSettings "request_state_store"
        else Cookies)
  /\ (forall flag : string,
         flag = "load_user_profile" \/ flag = "filter_protocol_claims" ->
         lookup_field flag s
         = match own_value serverSettings flag with
           | VUndefined => VBool true
           | v => v
           end)
  /\ List.NoDup (List.map fst s).
Proof.
  intros H.
  destruct (OidcClient_defaults _ _ H) as (s3 & Hs & Hother & Hkey & Hstore & Hflag).
  split; [|split; [|split; [|split]]].
  - intros k Hk. rewrite Hs; [now apply Hother| |];
      intros ->; apply Hk; unfold constructor_keys; simpl; tauto.
  - rewrite Hs by discriminate. exact Hkey.
  - rewrite Hs by discriminate. exact Hstore.
  - intros flag Hf. rewrite Hs; [now apply Hflag| |];
      intros ->; destruct Hf; discriminate.
  - now destruct (OidcClient_settled _ _ H).
Qed.

Lemma constructor_idempotent_witness :
  OidcClient (VObj Sample.configured) = Return Sample.configured.
Proof.
  apply (constructor_idempotent Sample.server_settings Sample.configured).
  reflexivity.
Defined.

Lemma constructor_fills_gaps_witness :
  (forall k : string, ~ In k constructor_keys ->
      lookup_field k Cases.terse = own_value Cases.terse_settings k)
  /\ lookup_field "request_state_key" Cases.terse
     = VStr "OidcClient.request_state"
  /\ lookup_field "request_state_store" Cases.terse = Cookies
  /\ (forall flag : string,
         flag = "load_user_profile" \/ flag = "filter_protocol_claims" ->
         lookup_field flag Cases.terse
         = match own_value Cases.terse_settings flag with
           | VUndefined => VBool true
           | v => v
           end)
  /\ List.NoDup (List.map fst Cases.terse).
Proof.
  apply (constructor_fills_gaps Cases.terse_settings Cases.terse). reflexivity.
Defined.


(** ** The validation of the tokens *)

Section Validation.

Context (rt : Runtime).

(** X13: the checks of [validateIdTokenAsync] that come before the clock,
    in their order.  A failure to get the signing key is the failure of the
    call.  With the key, a signature that does not verify rejects with
    [JWT failed to validate]; a payload that is no JSON text rejects with
    the [SyntaxError]; a nonce that is not the expected one rejects with
    [Invalid nonce], before the metadata is asked for; then an [iss] that is
    not the [issuer] of the metadata rejects with [Invalid issuer], and
    only after that an [aud] that is not the [client_id] with
    [Invalid audience]. *)
Theorem id_token_checks_in_order (id_token nonce access_token : value)
    (w : world) :
  let outcome := validateIdTokenAsync rt id_token nonce access_token w in
  (forall e : exn,
      failure (fst (loadX509SigningKeyAsync rt w)) = Some e ->
      failure (fst outcome) = Some e)
  /\ (forall (cert : value) (w1 : world),
         loadX509SigningKeyAsync rt w = (Return (Fulfilled cert), w1) ->
         (forall payloadS : string,
             verifyJWSByPemX509Cert rt id_token cert = Reply (false, payloadS) ->
             outcome = (Return (Rejected (Error "JWT failed to validate")), w1))
         /\ (forall payloadS message : string,
                verifyJWSByPemX509Cert rt id_token cert = Reply (true, payloadS) ->
                JSON_parse rt payloadS = Failure message ->
                outcome = (Return (Rejected (SyntaxError message)), w1))
         /\ (forall (payloadS : string) (claims token_nonce : value),
                verifyJWSByPemX509Cert rt id_token cert = Reply (true, payloadS) ->
                JSON_parse rt payloadS = Reply claims ->
                prop claims "nonce" = Return token_nonce ->
                (strict_eq nonce token_nonce = false ->
                 outcome = (Return (Rejected (Error "Invalid nonce")), w1))
                /\ (strict_eq nonce token_nonce = true ->
                    forall (metadata iss issuer aud : value) (w2 : world),
                      loadMetadataAsync rt w1 = (Return (Fulfilled metadata), w2) ->
                      prop claims "iss" = Return iss ->
                      prop metadata "issuer" = Return issuer ->
                      prop claims "aud" = Return aud ->
                      (strict_eq iss issuer = false ->
                       outcome
                       = (Return (Rejected (Error "Invalid issuer")), w2))
                      /\ (strict_eq iss issuer = true ->
                          strict_eq aud (lookup_field "client_id" (settings w2))
                          = false ->
                          outcome
                          = (Return (Rejected (Error "Invalid audience")), w2))))).
Proof.
  intros outcome. subst outcome. split.
  - intros e Hfail. unfold validateIdTokenAsync, bind.
    destruct (loadX509SigningKeyAsync rt w) as [[[cert|e1]|e1] w1];
      simpl in Hfail; try discriminate; inversion Hfail; subst; reflexivity.
  - intros cert w1 Hcert.
    assert (validateIdTokenAsync rt id_token nonce access_token w
            = settle (check_signature rt id_token nonce access_token cert) w1)
      as Hrun by (unfold validateIdTokenAsync, bind; now rewrite Hcert).
    rewrite Hrun. clear Hrun. unfold check_signature. split; [|split].
    + intros payloadS Hsig. rewrite Hsig. reflexivity.
    + intros payloadS message Hsig Hparse. rewrite Hsig. unfold parse.
      rewrite Hparse. reflexivity.
    + intros payloadS claims token_nonce Hsig Hparse Hn. rewrite Hsig.
      unfold parse. rewrite Hparse. run. rewrite Hn. run. split.
      * intros Hne. now rewrite Hne.
      * intros Heq metadata iss issuer aud w2 Hmeta Hiss Hissuer Haud.
        rewrite Heq. run. rewrite Hmeta. run. unfold check_claims. run.
        rewrite Hiss. run. rewrite Hissuer. run. split.
        -- intros Hne. now rewrite Hne.
        -- intros Hi Hne. rewrite Hi. run. rewrite Haud. run. now rewrite Hne.
Qed.

Lemma load_user_profile_kept (id_token nonce : value) (w w2 : world)
    (claims : value) :
  passes_checks rt id_token nonce w w2 claims ->
  lookup_field "load_user_profile" (settings w2)
  = lookup_field "load_user_profile" (settings w).
Proof.
  intros H. apply passes_checks_world in H. destruct H as (_ & _ & _ & H).
  apply H; discriminate.
Qed.

Lemma inside_window (now iat exp : Z) :
  now - iat <= 300 -> now <= exp ->
  issued_too_long_ago now (VNum iat) = false /\ expired now (VNum exp) = false.
Proof.
  intros Hage Hlife. unfold issued_too_long_ago, expired. cbn [ToNumber].
  rewrite Z.gtb_ltb. split; apply Z.ltb_ge; lia.
Qed.

(** X14: a token that passes every check, its [iat] and [exp] numbers
    inside the time window, is answered with its own claims, and the
    userinfo endpoint is not asked, as soon as there is no access token or
    [load_user_profile] is switched off. *)
Theorem no_profile_request (id_token nonce access_token : value) (w w2 : world)
    (claims : value) (iat exp : Z) :
  passes_checks rt id_token nonce w w2 claims ->
  prop claims "iat" = Return (VNum iat) ->
  prop claims "exp" = Return (VNum exp) ->
  now_seconds w - iat <= 300 -> now_seconds w <= exp ->
  truthy access_token = false
  \/ truthy (lookup_field "load_user_profile" (settings w)) = false ->
  validateIdTokenAsync rt id_token nonce access_token w
  = (Return (Fulfilled claims), w2).
Proof.
  intros Hchecks Hiat Hexp Hage Hlife Hoff.
  destruct (inside_window _ _ _ Hage Hlife) as [Hfresh Hvalid].
  rewrite (validateIdTokenAsync_checked rt _ _ _ _ _ _ _ _ Hchecks Hiat Hexp).
  rewrite Hfresh, Hvalid. unfold with_profile. run.
  rewrite (load_user_profile_kept _ _ _ _ _ Hchecks).
  destruct Hoff as [H|H]; rewrite H; [reflexivity|].
  now rewrite Bool.andb_false_r.
Qed.

(** X15: with an access token and [load_user_profile] set, a token that
    passes every check, its [iat] and [exp] numbers inside the time window,
    is still refused when the profile cannot be had:
    the call is rejected with the rejection of [loadUserProfile], which is
    [Metadata does not contain userinfo_endpoint] when the metadata names
    no userinfo endpoint, and the failure of the transport when the
    endpoint cannot be reached. *)
Theorem profile_failure_rejects (id_token nonce access_token : value)
    (w w2 : world) (claims : value) (iat exp : Z) :
  passes_checks rt id_token nonce w w2 claims ->
  prop claims "iat" = Return (VNum iat) ->
  prop claims "exp" = Return (VNum exp) ->
  now_seconds w - iat <= 300 -> now_seconds w <= exp ->
  truthy access_token = true ->
  truthy (lookup_field "load_user_profile" (settings w)) = true ->
  let outcome := validateIdTokenAsync rt id_token nonce access_token w in
  (forall (e : exn) (w3 : world),
      loadUserProfile rt access_token w2 = (Return (Rejected e), w3) ->
      outcome = (Return (Rejected e), w3))
  /\ (forall (metadata endpoint : value) (w3 : world),
         loadMetadataAsync rt w2 = (Return (Fulfilled metadata), w3) ->
         prop metadata "userinfo_endpoint" = Return endpoint ->
         (truthy endpoint = false ->
          outcome
          = (Return (Rejected (Error "Metadata does not contain userinfo_endpoint")),
             w3))
         /\ (forall message : string,
                truthy endpoint = true ->
                getJson rt endpoint access_token
                  (lookup_field "httpSettings" (settings w3)) = Failure message ->
                outcome = (Return (Rejected (Collaborator message)), w3))).
Proof.
  intros Hchecks Hiat Hexp Hage Hlife Htoken Hon outcome. subst outcome.
  destruct (inside_window _ _ _ Hage Hlife) as [Hfresh Hvalid].
  rewrite (validateIdTokenAsync_checked rt _ _ _ _ _ _ _ _ Hchecks Hiat Hexp).
  rewrite Hfresh, Hvalid.
  assert (forall (e : exn) (w3 : world),
             loadUserProfile rt access_token w2 = (Return (Rejected e), w3) ->
             settle (settle (with_profile rt claims access_token)) w2
             = (Return (Rejected e), w3)) as Hrejected.
  { intros e w3 Hprofile. unfold with_profile. run.
    rewrite (load_user_profile_kept _ _ _ _ _ Hchecks), Htoken, Hon. run.
    now rewrite Hprofile. }
  split; [exact Hrejected|].
  intros metadata endpoint w3 Hmeta Hprop. split.
  - intros Hno. apply Hrejected. unfold loadUserProfile. run. rewrite Hmeta.
    run. rewrite Hprop. run. now rewrite Hno.
  - intros message Hep Hfetch. apply Hrejected. unfold loadUserProfile. run.
    rewrite Hmeta. run. rewrite Hprop. run. rewrite Hep. run.
    now rewrite Hfetch.
Qed.

(** X16: [validateIdTokenAndAccessTokenAsync] is the validation of the
    identity token followed by the check of [at_hash] on what that
    validation answered, the claims with the profile merged in.  A failure
    of the first is the failure of the call and the access token is not
    looked at; after it, the call answers the same claims exactly when
    their [at_hash] is not empty and is the base64url text of the left half
    of the digest of the access token, and is rejected with [No at_hash in id_token] or
    [at_hash failed to validate] otherwise; the world is the one the first
    validation left. *)
Theorem both_tokens_validation (id_token nonce access_token : value)
    (w : world) :
  let first := validateIdTokenAsync rt id_token nonce access_token w in
  let outcome :=
    validateIdTokenAndAccessTokenAsync rt id_token nonce access_token w in
  (forall e : exn, failure (fst first) = Some e ->
                   failure (fst outcome) = Some e /\ snd outcome = snd first)
  /\ (forall (claims : obj) (w1 : world),
         first = (Return (Fulfilled (VObj claims)), w1) ->
         let at_hash := lookup_field "at_hash" claims in
         let left_b64u :=
           VStr (hextob64u rt (left_half (sha256 rt access_token))) in
         (truthy at_hash = true -> at_hash = left_b64u ->
          outcome = (Return (Fulfilled (VObj claims)), w1))
         /\ (truthy at_hash = false ->
             outcome = (Return (Rejected (Error "No at_hash in id_token")), w1))
         /\ (truthy at_hash = true -> at_hash <> left_b64u ->
             outcome
             = (Return (Rejected (Error "at_hash failed to validate")), w1))).
Proof.
  intros first outcome. subst first outcome. split.
  - intros e Hfail. unfold validateIdTokenAndAccessTokenAsync, bind.
    destruct (validateIdTokenAsync rt id_token nonce access_token w)
      as [[[claims|e1]|e1] w1]; simpl in Hfail; try discriminate;
      inversion Hfail; subst; split; reflexivity.
  - intros claims w1 Hfirst at_hash left_b64u.
    assert (validateIdTokenAndAccessTokenAsync rt id_token nonce access_token w
            = then_ (Fulfilled (VObj claims))
                (fun id_token_contents =>
                   q <- validateAccessTokenAsync rt id_token_contents access_token ;;
                   then_ q (fun _ => resolve id_token_contents)) w1)
      as Hrun
      by (unfold validateIdTokenAndAccessTokenAsync, bind at 1;
          now rewrite Hfirst).
    rewrite Hrun. clear Hrun.
    unfold then_, validateAccessTokenAsync. run. fold at_hash.
    split; [|split].
    + intros Hyes Heq. rewrite Hyes. run. rewrite Heq. unfold left_b64u. run.
      now rewrite String.eqb_refl.
    + intros Hno. now rewrite Hno.
    + intros Hyes Hne. rewrite Hyes. run.
      assert (strict_eq left_b64u at_hash = false) as Hs.
      { apply strict_eq_differs. congruence. }
      unfold left_b64u in Hs. now rewrite Hs.
Qed.

End Validation.

Lemma passes_checks_of_sample (w : world) :
  loadX509SigningKeyAsync Sample.runtime w
  = (Return (Fulfilled (VStr "CERT-A")),
     snd (loadX509SigningKeyAsync Sample.runtime w)) ->
  (exists metadata : value,
      loadMetadataAsync Sample.runtime
        (snd (loadX509SigningKeyAsync Sample.runtime w))
      = (Return (Fulfilled metadata), Cases.resolved_from w)
      /\ prop metadata "issuer" = Return (VStr "https://idp.example")) ->
  lookup_field "client_id" (settings (Cases.resolved_from w)) = VStr "app" ->
  passes_checks Sample.runtime (Sample.id_token_of Cases.good_claims)
    (VStr "r1/x") w (Cases.resolved_from w) Cases.good_claims.
Proof.
  intros Hcert (metadata & Hmeta & Hissuer) Hclient.
  exists (VStr "CERT-A"), metadata, (Sample.stringify Cases.good_claims),
    (snd (loadX509SigningKeyAsync Sample.runtime w)),
    (VStr "r1/x"), (VStr "https://idp.example"), (VStr "https://idp.example"),
    (VStr "app").
  rewrite Hclient.
  repeat split; try assumption; vm_compute; reflexivity.
Qed.

Lemma id_token_checks_in_order_witness :
  let w1 := snd (loadX509SigningKeyAsync Sample.runtime Sample.started) in
  failure (fst (validateIdTokenAsync Sample.runtime
                  (Sample.id_token_of Cases.good_claims) (VStr "r1/x")
                  VUndefined Cases.empty_keys))
  = Some (Error "Signing keys empty")
  /\ validateIdTokenAsync Sample.runtime
       (VStr ("CERT-Z:" +:+ Sample.stringify Cases.good_claims)) (VStr "r1/x")
       VUndefined Sample.started
     = (Return (Rejected (Error "JWT failed to validate")), w1)
  /\ validateIdTokenAsync Sample.runtime (VStr "CERT-A:{") (VStr "r1/x")
       VUndefined Sample.started
     = (Return (Rejected (SyntaxError "Unexpected token in JSON")), w1)
  /\ validateIdTokenAsync Sample.runtime
       (Sample.id_token_of Cases.good_claims) (VStr "r9/x")
       VUndefined Sample.started
     = (Return (Rejected (Error "Invalid nonce")), w1)
  /\ validateIdTokenAsync Sample.runtime
       (Sample.id_token_of (Cases.claims_from "https://evil.example" "other"))
       (VStr "r1/x") VUndefined Sample.started
     = (Return (Rejected (Error "Invalid issuer")), Sample.resolved)
  /\ validateIdTokenAsync Sample.runtime
       (Sample.id_token_of (Cases.claims_from "https://idp.example" "other"))
       (VStr "r1/x") VUndefined Sample.started
     = (Return (Rejected (Error "Invalid audience")), Sample.resolved).
Proof.
  intros w1. split; [|split; [|split; [|split; [|split]]]].
  - apply (proj1 (id_token_checks_in_order Sample.runtime
                    (Sample.id_token_of Cases.good_claims) (VStr "r1/x")
                    VUndefined Cases.empty_keys)).
    reflexivity.
  - apply (proj1 (proj2 (id_token_checks_in_order Sample.runtime
                           (VStr ("CERT-Z:" +:+ Sample.stringify Cases.good_claims))
                           (VStr "r1/x") VUndefined Sample.started)
                    (VStr "CERT-A") w1 eq_refl) "").
    vm_compute. reflexivity.
  - apply (proj1 (proj2 (proj2 (id_token_checks_in_order Sample.runtime
                                  (VStr "CERT-A:{") (VStr "r1/x") VUndefined
                                  Sample.started)
                           (VStr "CERT-A") w1 eq_refl)) "{");
      vm_compute; reflexivity.
  - apply (proj1 (proj2 (proj2 (proj2 (id_token_checks_in_order Sample.runtime
                                  (Sample.id_token_of Cases.good_claims)
                                  (VStr "r9/x") VUndefined Sample.started)
                           (VStr "CERT-A") w1 eq_refl))
                    (Sample.stringify Cases.good_claims) Cases.good_claims
                    (VStr "r1/x") eq_refl eq_refl eq_refl)).
    reflexivity.
  - apply (proj1 (proj2 (proj2 (proj2 (proj2 (id_token_checks_in_order
                                  Sample.runtime
                                  (Sample.id_token_of
                                     (Cases.claims_from "https://evil.example" "other"))
                                  (VStr "r1/x") VUndefined Sample.started)
                           (VStr "CERT-A") w1 eq_refl))
                    (Sample.stringify
                       (Cases.claims_from "https://evil.example" "other"))
                    (Cases.claims_from "https://evil.example" "other")
                    (VStr "r1/x") eq_refl eq_refl eq_refl)
                    eq_refl Sample.metadata_document
                    (VStr "https://evil.example") (VStr "https://idp.example")
                    (VStr "other") Sample.resolved
                    eq_refl eq_refl eq_refl eq_refl)).
    reflexivity.
  - apply (proj2 (proj2 (proj2 (proj2 (proj2 (id_token_checks_in_order
                                  Sample.runtime
                                  (Sample.id_token_of
                                     (Cases.claims_from "https://idp.example" "other"))
                                  (VStr "r1/x") VUndefined Sample.started)
                           (VStr "CERT-A") w1 eq_refl))
                    (Sample.stringify
                       (Cases.claims_from "https://idp.example" "other"))
                    (Cases.claims_from "https://idp.example" "other")
                    (VStr "r1/x") eq_refl eq_refl eq_refl)
                    eq_refl Sample.metadata_document
                    (VStr "https://idp.example") (VStr "https://idp.example")
                    (VStr "other") Sample.resolved
                    eq_refl eq_refl eq_refl eq_refl)); reflexivity.
Defined.

Lemma no_profile_request_witness :
  validateIdTokenAsync Sample.runtime (Sample.id_token_of Cases.good_claims)
    (VStr "r1/x") VUndefined Sample.started
  = (Return (Fulfilled Cases.good_claims), Cases.resolved_from Sample.started).
Proof.
  apply (no_profile_request Sample.runtime (Sample.id_token_of Cases.good_claims)
           (VStr "r1/x") VUndefined Sample.started
           (Cases.resolved_from Sample.started) Cases.good_claims
           1699999900 1700000600).
  - apply passes_checks_of_sample; [reflexivity| |reflexivity].
    exists Sample.metadata_document. split; reflexivity.
  - reflexivity.
  - reflexivity.
  - vm_compute. discriminate.
  - vm_compute. discriminate.
  - now left.
Defined.

Lemma profile_failure_rejects_witness :
  validateIdTokenAsync Sample.runtime (Sample.id_token_of Cases.good_claims)
    (VStr "r1/x") (VStr "AT-1") Cases.no_userinfo
  = (Return (Rejected (Error "Metadata does not contain userinfo_endpoint")),
     Cases.resolved_from Cases.no_userinfo)
  /\ validateIdTokenAsync Sample.runtime (Sample.id_token_of Cases.good_claims)
       (VStr "r1/x") (VStr "AT-1") Cases.dead_userinfo
     = (Return (Rejected (Collaborator "connect ECONNREFUSED")),
        Cases.resolved_from Cases.dead_userinfo).
Proof.
  split.
  - refine (proj1 (proj2 (profile_failure_rejects Sample.runtime
                            (Sample.id_token_of Cases.good_claims) (VStr "r1/x")
                            (VStr "AT-1") Cases.no_userinfo
                            (Cases.resolved_from Cases.no_userinfo)
                            Cases.good_claims 1699999900 1700000600
                            _ eq_refl eq_refl _ _ eq_refl eq_refl)
                     (lookup_field "metadata" (settings Cases.no_userinfo))
                     VUndefined (Cases.resolved_from Cases.no_userinfo)
                     _ eq_refl) eq_refl).
    + apply passes_checks_of_sample; [reflexivity| |reflexivity].
      eexists. split; reflexivity.
    + vm_compute. discriminate.
    + vm_compute. discriminate.
    + reflexivity.
  - refine (proj2 (proj2 (profile_failure_rejects Sample.runtime
                            (Sample.id_token_of Cases.good_claims) (VStr "r1/x")
                            (VStr "AT-1") Cases.dead_userinfo
                            (Cases.resolved_from Cases.dead_userinfo)
                            Cases.good_claims 1699999900 1700000600
                            _ eq_refl eq_refl _ _ eq_refl eq_refl)
                     (lookup_field "metadata" (settings Cases.dead_userinfo))
                     (VStr "https://down.example/userinfo")
                     (Cases.resolved_from Cases.dead_userinfo)
                     _ eq_refl) "connect ECONNREFUSED" eq_refl _).
    + apply passes_checks_of_sample; [reflexivity| |reflexivity].
      eexists. split; reflexivity.
    + vm_compute. discriminate.
    + vm_compute. discriminate.
    + reflexivity.
    + reflexivity.
Defined.

Lemma both_tokens_validation_witness :
  failure (fst (validateIdTokenAndAccessTokenAsync Sample.runtime
                  (Sample.id_token_of Cases.good_claims) (VStr "r9/x")
                  (VStr "AT-1") Sample.started))
  = Some (Error "Invalid nonce")
  /\ validateIdTokenAndAccessTokenAsync Sample.runtime
       (Sample.id_token_of Cases.good_claims) (VStr "r1/x") (VStr "AT-1")
       Sample.started
     = (Return (Fulfilled (VObj (Cases.verified_with (VStr "AT-1")))),
        Sample.resolved)
  /\ validateIdTokenAndAccessTokenAsync Sample.runtime
       (Sample.id_token_of Cases.good_claims) (VStr "r1/x") (VStr "AT-2")
       Sample.started
     = (Return (Rejected (Error "at_hash failed to validate")), Sample.resolved).
Proof.
  split; [|split].
  - apply (proj1 (both_tokens_validation Sample.runtime
                    (Sample.id_token_of Cases.good_claims) (VStr "r9/x")
                    (VStr "AT-1") Sample.started)).
    vm_compute. reflexivity.
  - apply (proj1 (proj2 (both_tokens_validation Sample.runtime
                           (Sample.id_token_of Cases.good_claims) (VStr "r1/x")
                           (VStr "AT-1") Sample.started)
                    (Cases.verified_with (VStr "AT-1")) Sample.resolved
                    ltac:(vm_compute; reflexivity)));
      vm_compute; reflexivity.
  - apply (proj2 (proj2 (proj2 (both_tokens_validation Sample.runtime
                           (Sample.id_token_of Cases.good_claims) (VStr "r1/x")
                           (VStr "AT-2") Sample.started)
                    (Cases.verified_with (VStr "AT-2")) Sample.resolved
                    ltac:(vm_compute; reflexivity))));
      [vm_compute; reflexivity|vm_compute; discriminate].
Defined.


(** ** The checks of the response *)

Lemma not_bearer_spec (token_type : value) :
  not_bearer token_type = Return false <-> bearer token_type.
Proof.
  unfold not_bearer, bearer. destruct token_type as [| | | |s| |];
    try (split; [discriminate|intros (s0 & Hs & _); discriminate]).
  cbn [strict_eq]. split.
  - intros H. exists s. split; [reflexivity|]. apply String.eqb_eq.
    destruct (String.eqb (toLowerCase s) "bearer"); [reflexivity|].
    discriminate.
  - intros (s0 & Hs & Hlow). inversion Hs. subst s0. rewrite Hlow.
    reflexivity.
Qed.

Lemma oauth_checks (r : obj) (w : world) :
  (access_token <- lift (prop (VObj r) "access_token") ;;
   if negb (truthy access_token) then error "No access token" else
   token_type <- lift (prop (VObj r) "token_type") ;;
   bad_type <- (if negb (truthy token_type) then ret true
                else lift (not_bearer token_type)) ;;
   if bad_type : bool then error "Invalid token type" else
   expires_in <- lift (prop (VObj r) "expires_in") ;;
   if negb (truthy expires_in) then error "No token expiration"
   else ret tt) w = (Return tt, w)
  <-> truthy (lookup_field "access_token" r) = true
      /\ bearer (lookup_field "token_type" r)
      /\ truthy (lookup_field "expires_in" r) = true.
Proof.
  run.
  destruct (truthy (lookup_field "access_token" r)) eqn:Ea; run;
    [|split; [discriminate|intros (H & _); discriminate]].
  destruct (truthy (lookup_field "token_type" r)) eqn:Et; run.
  - pose proof (not_bearer_spec (lookup_field "token_type" r)) as Hspec.
    destruct (not_bearer (lookup_field "token_type" r)) as [[|]|e] eqn:Eb; run.
    + split; [discriminate|]. intros (_ & Hb & _). apply Hspec in Hb.
      discriminate.
    + destruct (truthy (lookup_field "expires_in" r)) eqn:Ee; run.
      * split; [|reflexivity]. intros _. repeat split. now apply Hspec.
      * split; [discriminate|intros (_ & _ & H); discriminate].
    + split; [discriminate|]. intros (_ & Hb & _). apply Hspec in Hb.
      discriminate.
  - split; [discriminate|]. intros (_ & (s & Hs & Hlow) & _).
    rewrite Hs in Et. destruct s; [discriminate Hlow|discriminate Et].
Qed.

Lemma oidc_checks (r rs : obj) (w : world) :
  (id_token <- lift (prop (VObj r) "id_token") ;;
   if negb (truthy id_token) then error "No identity token" else
   nonce <- lift (prop (VObj rs) "nonce") ;;
   if negb (truthy nonce) then error "No nonce loaded"
   else ret tt) w = (Return tt, w)
  <-> truthy (lookup_field "id_token" r) = true
      /\ truthy (lookup_field "nonce" rs) = true.
Proof.
  run.
  destruct (truthy (lookup_field "id_token" r)); run;
    [|split; [discriminate|intros (H & _); discriminate]].
  destruct (truthy (lookup_field "nonce" rs)); run;
    [|split; [discriminate|intros (_ & H); discriminate]].
  split; [now split|reflexivity].
Qed.

Lemma check_response_outcome (result request_state : value) (w : world) :
  check_response result request_state w = (Return tt, w)
  \/ exists e : exn, check_response result request_state w = (Throw e, w).
Proof.
  pose proof (check_response_world result request_state w) as Hw.
  destruct (check_response result request_state w) as [[[]|e] w1];
    simpl in Hw; subst w1; eauto.
Qed.

Lemma check_response_accepted (r rs : obj) (w : world) :
  check_response (VObj r) (VObj rs) w = (Return tt, w) <-> accepted r rs.
Proof.
  unfold accepted, check_response.
  pose proof (oidc_checks r rs w) as Hoidc.
  pose proof (oauth_checks r w) as Hoauth.
  cbn [prop] in Hoidc, Hoauth.
  unfold bind at 1. unfold lift at 1. cbn [prop].
  destruct (truthy (lookup_field "state" rs)) eqn:Es; cbn [negb];
    [|split; [discriminate|intros (H & _); discriminate]].
  cbn [truthy negb]. unfold bind at 1. unfold lift at 1. cbn [prop].
  destruct (truthy (lookup_field "error" r)) eqn:Ee;
    [split; [discriminate|intros (_ & H & _); discriminate]|].
  unfold bind at 1. unfold lift at 1. cbn [prop].
  destruct (strict_eq (lookup_field "state" r) (lookup_field "state" rs)) eqn:Eq;
    cbn [negb]; [|split; [discriminate|intros (_ & _ & H & _); discriminate]].
  unfold bind at 1. unfold lift at 1. cbn [prop].
  unfold bind at 1. unfold lift at 1. cbn [prop].
  unfold bind at 1.
  destruct (truthy (lookup_field "oidc" rs)) eqn:Eoidc.
  - match goal with
    | |- context [match ?m w with _ => _ end] =>
        destruct (m w) as [[[]|e] w1] eqn:E1
    end.
    + assert (w1 = w) as ->.
      { revert E1. run. repeat (split_match; run);
          intros H; inversion H; reflexivity. }
      destruct Hoidc as [Hoidc _]. specialize (Hoidc eq_refl).
      destruct (truthy (lookup_field "oauth" rs)) eqn:Eoauth.
      * rewrite Hoauth. tauto.
      * unfold ret. split; [|reflexivity]. intros _.
        repeat split; try tauto; discriminate.
    + split; [discriminate|]. intros (_ & _ & _ & H & _).
      specialize (H eq_refl). apply Hoidc in H. discriminate.
  - unfold ret at 1. cbv beta iota.
    destruct (truthy (lookup_field "oauth" rs)) eqn:Eoauth.
    + rewrite Hoauth. split; [|tauto]. intros H.
      repeat split; try tauto; discriminate.
    + unfold ret. split; [|reflexivity]. intros _.
      repeat split; discriminate.
Qed.

Section Responses.

Context (rt : Runtime).

Lemma processResponseAsync_loaded (result requestState request_state : value)
    (w w1 : world) :
  load_request_state rt requestState w = (Return request_state, w1) ->
  processResponseAsync rt result requestState w
  = (check_response result request_state ;;;
     localPromise <- verify_tokens rt result request_state ;;
     then_ localPromise (deliver result)) w1.
Proof.
  intros Hload. unfold processResponseAsync, bind at 1. now rewrite Hload.
Qed.

(** X17: which responses reach the verification of the tokens.  With the
    request state resolved to an object, a response object goes on to the
    verification exactly when the request state has a state, the response
    reports no error and carries that state, an OIDC request finds an
    identity token and has a nonce, and an OAuth request finds an access
    token, a token type that reads [bearer] in whatever case, and an
    expiration; every other response makes the call throw before any token
    is looked at. *)
Theorem response_accepted_exactly_when (r rs : obj) (requestState : value)
    (w w1 : world) :
  load_request_state rt requestState w = (Return (VObj rs), w1) ->
  (accepted r rs ->
   processResponseAsync rt (VObj r) requestState w
   = (localPromise <- verify_tokens rt (VObj r) (VObj rs) ;;
      then_ localPromise (deliver (VObj r))) w1)
  /\ (~ accepted r rs ->
      exists e : exn,
        processResponseAsync rt (VObj r) requestState w = (Throw e, w1)).
Proof.
  intros Hload. rewrite (processResponseAsync_loaded _ _ _ _ _ Hload).
  split; intros Hif; unfold bind at 1;
    destruct (check_response_outcome (VObj r) (VObj rs) w1) as [H|[e H]];
    rewrite H.
  - reflexivity.
  - apply (check_response_accepted r rs w1) in Hif. congruence.
  - apply check_response_accepted in H. contradiction.
  - now exists e.
Qed.

(** X18: what is tested before the state of the response.  A request
    state without a state fails with [No state loaded] whatever the response
    is; then a missing response fails with [No OIDC response]; then an
    [error] reported by the provider is the failure of the call, with its
    text as the message, whether or not the state of the response is the
    expected one. *)
Theorem provider_error_first (result requestState request_state state : value)
    (w w1 : world) :
  load_request_state rt requestState w = (Return request_state, w1) ->
  prop request_state "state" = Return state ->
  let outcome := processResponseAsync rt result requestState w in
  (truthy state = false -> outcome = (Throw (Error "No state loaded"), w1))
  /\ (truthy state = true -> truthy result = false ->
      outcome = (Throw (Error "No OIDC response"), w1))
  /\ (truthy state = true -> truthy result = true ->
      forall reported : value,
        prop result "error" = Return reported -> truthy reported = true ->
        outcome = (Throw (Error (to_string reported)), w1)).
Proof.
  intros Hload Hstate outcome. subst outcome.
  rewrite (processResponseAsync_loaded _ _ _ _ _ Hload).
  unfold check_response. run. rewrite Hstate. run. split; [|split].
  - intros Hno. now rewrite Hno.
  - intros Hyes Hnone. rewrite Hyes, Hnone. reflexivity.
  - intros Hyes Hsome reported Hprop Hreported. rewrite Hyes, Hsome. run.
    rewrite Hprop. run. now rewrite Hreported.
Qed.

(** X19: the failures for what a response lacks, in their order, once the
    state is matched.  For an OIDC request: [No identity token], then
    [No nonce loaded].  For an OAuth request, after these: [No access token],
    then [Invalid token type] for a token type that is missing or is a
    string other than [bearer] in any case, then [No token expiration], also
    for an expiration of zero. *)
Theorem missing_tokens (r rs : obj) (requestState : value) (w w1 : world) :
  load_request_state rt requestState w = (Return (VObj rs), w1) ->
  truthy (lookup_field "state" rs) = true ->
  truthy (lookup_field "error" r) = false ->
  strict_eq (lookup_field "state" r) (lookup_field "state" rs) = true ->
  let outcome := processResponseAsync rt (VObj r) requestState w in
  let fails (message : string) := outcome = (Throw (Error message), w1) in
  (truthy (lookup_field "oidc" rs) = true ->
   (truthy (lookup_field "id_token" r) = false -> fails "No identity token")
   /\ (truthy (lookup_field "id_token" r) = true ->
       truthy (lookup_field "nonce" rs) = false -> fails "No nonce loaded"))
  /\ (truthy (lookup_field "oidc" rs) = false
      \/ truthy (lookup_field "id_token" r) = true
         /\ truthy (lookup_field "nonce" rs) = true ->
      truthy (lookup_field "oauth" rs) = true ->
      (truthy (lookup_field "access_token" r) = false ->
       fails "No access token")
      /\ (truthy (lookup_field "access_token" r) = true ->
          truthy (lookup_field "token_type" r) = false
          \/ (exists s : string,
                 lookup_field "token_type" r = VStr s
                 /\ toLowerCase s <> "bearer") ->
          fails "Invalid token type")
      /\ (truthy (lookup_field "access_token" r) = true ->
          bearer (lookup_field "token_type" r) ->
          truthy (lookup_field "expires_in" r) = false ->
          fails "No token expiration")).
Proof.
  intros Hload Hstate Herror Heq outcome fails. subst fails outcome.
  rewrite (processResponseAsync_loaded _ _ _ _ _ Hload).
  unfold check_response. run. rewrite Hstate. run. rewrite Herror. run.
  rewrite Heq. run. split.
  - intros Hoidc. rewrite Hoidc. run. split.
    + intros Hno. now rewrite Hno.
    + intros Hyes Hno. rewrite Hyes. run. now rewrite Hno.
  - intros Hoidc Hoauth.
    assert (truthy (lookup_field "oidc" rs) = false
            \/ truthy (lookup_field "oidc" rs) = true
               /\ truthy (lookup_field "id_token" r) = true
               /\ truthy (lookup_field "nonce" rs) = true) as Hpass
      by (destruct (truthy (lookup_field "oidc" rs)); tauto).
    clear Hoidc.
    destruct Hpass as [H|(H0 & H1 & H2)]; rewrite ?H, ?H0; run;
      rewrite ?H1; run; rewrite ?H2; run; rewrite Hoauth; run;
      (split; [|split]).
    1,4: intros Hno; now rewrite Hno.
    1,3: intros Hyes Hbad; rewrite Hyes; run;
      destruct Hbad as [Hno|(s & Hs & Hlow)];
      [now rewrite Hno|];
      rewrite Hs; apply String.eqb_neq in Hlow;
      destruct s as [|c s]; [reflexivity|];
      cbn [truthy String.eqb negb]; unfold not_bearer; cbn [strict_eq];
      rewrite Hlow; reflexivity.
    1,2: intros Hyes (s & Hs & Hlow) Hno; rewrite Hyes; run; rewrite Hs;
      assert (truthy (VStr s) = true) as Ht
        by (destruct s; [discriminate Hlow|reflexivity]);
      rewrite Ht; unfold not_bearer; cbn [strict_eq negb]; rewrite Hlow;
      run; now rewrite Hno.
Qed.

Lemma prop_own_value (result : value) (k : string) :
  truthy result = true -> k <> "length" ->
  prop result k = Return (own_value result k).
Proof.
  intros Htruthy Hk. apply String.eqb_neq in Hk.
  destruct result; try discriminate; simpl; rewrite ?Hk; reflexivity.
Qed.

Lemma check_response_truthy (result request_state : value) (w : world) :
  check_response result request_state w = (Return tt, w) ->
  truthy result = true.
Proof.
  unfold check_response. run.
  destruct (prop request_state "state") as [state|e]; run; [|discriminate].
  destruct (truthy state); run; [|discriminate].
  destruct (truthy result); run; [reflexivity|discriminate].
Qed.

(** X20: a request that asked for an access token only is answered
    without any verification.  When the request state has no [oidc] flag
    and the response is accepted, the call resolves at once, in the world
    the request state was loaded in, with an undefined profile and with
    the [id_token], [access_token], [expires_in], [scope] and
    [session_state] of the response as they came. *)
Theorem oauth_only_flow (r rs : obj) (requestState : value) (w w1 : world) :
  load_request_state rt requestState w = (Return (VObj rs), w1) ->
  accepted r rs ->
  truthy (lookup_field "oidc" rs) = false ->
  processResponseAsync rt (VObj r) requestState w
  = (Return (Fulfilled
       (VObj [("profile", VUndefined);
              ("id_token", lookup_field "id_token" r);
              ("access_token", lookup_field "access_token" r);
              ("expires_in", lookup_field "expires_in" r);
              ("scope", lookup_field "scope" r);
              ("session_state", lookup_field "session_state" r)])), w1).
Proof.
  intros Hload Hyes Hoidc.
  rewrite (processResponseAsync_loaded _ _ _ _ _ Hload). unfold bind at 1.
  apply (check_response_accepted r rs w1) in Hyes. rewrite Hyes.
  unfold verify_tokens, deliver. run. rewrite Hoidc. run. reflexivity.
Qed.

(** X21: what a session is made of.  A call that succeeds has loaded a
    request state and verified the tokens against it, and it ends in the
    world the verification left; the [id_token], [access_token],
    [expires_in], [scope] and [session_state] of the session are those of
    the response, and the profile is what the verification answered,
    untouched, when that is falsy or [filter_protocol_claims] is off. *)
Theorem session_of_response (result requestState session : value)
    (w w' : world) :
  processResponseAsync rt result requestState w
  = (Return (Fulfilled session), w') ->
  exists (request_state verified profile : value) (w1 : world),
    load_request_state rt requestState w = (Return request_state, w1)
    /\ verify_tokens rt result request_state w1
       = (Return (Fulfilled verified), w')
    /\ session
       = VObj [("profile", profile);
               ("id_token", own_value result "id_token");
               ("access_token", own_value result "access_token");
               ("expires_in", own_value result "expires_in");
               ("scope", own_value result "scope");
               ("session_state", own_value result "session_state")]
    /\ (truthy verified = false
        \/ truthy (lookup_field "filter_protocol_claims" (settings w)) = false ->
        profile = verified).
Proof.
  intros H. unfold processResponseAsync in H. unfold bind at 1 in H.
  pose proof (load_request_state_world rt requestState w) as Hw1.
  destruct (load_request_state rt requestState w) as [[rs|e] w1] eqn:Hload;
    [|discriminate].
  unfold bind at 1 in H.
  pose proof (check_response_world result rs w1) as Hw1'.
  destruct (check_response result rs w1) as [[[]|e] w1'] eqn:Hcheck;
    [|discriminate].
  simpl in Hw1'. subst w1'. unfold bind at 1 in H.
  pose proof (quiet_verify_tokens rt result rs w1) as Hw2.
  destruct (verify_tokens rt result rs w1) as [[[v|e]|e] w2] eqn:Hverify;
    try discriminate.
  assert (lookup_field "filter_protocol_claims" (settings w2)
          = lookup_field "filter_protocol_claims" (settings w)) as Hfilter.
  { destruct Hw2 as (_ & _ & _ & Hkeys). simpl in Hkeys, Hw1.
    rewrite Hkeys by discriminate. rewrite Hw1.
    now destruct (truthy requestState). }
  pose proof (check_response_truthy _ _ _ Hcheck) as Hresult.
  unfold then_, deliver in H. run_in H. rewrite Hfilter in H.
  rewrite !(prop_own_value result) in H by (assumption || discriminate).
  run_in H. injection H as <- <-.
  exists rs, v. eexists. exists w1.
  split; [reflexivity|]. split; [exact Hverify|]. split; [reflexivity|].
  intros [Hfalsy|Hoff]; [now rewrite Hfalsy|].
  rewrite Hoff. now rewrite Bool.andb_false_r.
Qed.

(** X22: what [processResponseAsync] can change, whatever its outcome.
    The store is the one of the call when a request state is given, and
    the one without the entry of the request-state key otherwise; no
    random value is drawn; of the settings only the two caches, [metadata]
    and [jwks], can differ. *)
Theorem response_processing_frame (result requestState : value) (w : world) :
  let w' := snd (processResponseAsync rt result requestState w) in
  request_state_store w'
  = (if truthy requestState then request_state_store w
     else delete (state_key w) (request_state_store w))
  /\ rand_calls w' = rand_calls w
  /\ clock w' = clock w
  /\ forall k : string, k <> "metadata" -> k <> "jwks" ->
       lookup_field k (settings w') = lookup_field k (settings w).
Proof.
  intros w'. subst w'.
  destruct (processResponseAsync_world rt result requestState w)
    as (Hstore & Hrand & Hclock & Hkeys).
  destruct (truthy requestState); repeat split; assumption.
Qed.

End Responses.

Lemma sample_accepted : accepted Cases.response_fields Cases.request_state.
Proof.
  repeat split; try reflexivity. exists "Bearer". split; reflexivity.
Qed.

Lemma mac_not_accepted : ~ accepted Cases.mac_response Cases.request_state.
Proof.
  intros (_ & _ & _ & _ & H). destruct (H eq_refl) as (_ & (s & Hs & Hlow) & _).
  inversion Hs. subst s. discriminate.
Qed.

Lemma response_accepted_exactly_when_witness :
  processResponseAsync Sample.runtime Sample.response VUndefined Sample.started
  = (localPromise <- verify_tokens Sample.runtime Sample.response
                       (VObj Cases.request_state) ;;
     then_ localPromise (deliver Sample.response)) (cleared Sample.started)
  /\ exists e : exn,
       processResponseAsync Sample.runtime (VObj Cases.mac_response) VUndefined
         Sample.started
       = (Throw e, cleared Sample.started).
Proof.
  split.
  - apply (proj1 (response_accepted_exactly_when Sample.runtime
                    Cases.response_fields Cases.request_state VUndefined
                    Sample.started (cleared Sample.started) eq_refl)).
    exact sample_accepted.
  - apply (proj2 (response_accepted_exactly_when Sample.runtime
                    Cases.mac_response Cases.request_state VUndefined
                    Sample.started (cleared Sample.started) eq_refl)).
    exact mac_not_accepted.
Defined.

Lemma provider_error_first_witness :
  processResponseAsync Sample.runtime Sample.response (VStr "{}") Sample.started
  = (Throw (Error "No state loaded"), Sample.started)
  /\ processResponseAsync Sample.runtime VUndefined VUndefined Sample.started
     = (Throw (Error "No OIDC response"), cleared Sample.started)
  /\ processResponseAsync Sample.runtime Cases.denied_response VUndefined
       Sample.started
     = (Throw (Error "access_denied"), cleared Sample.started).
Proof.
  split; [|split].
  - apply (proj1 (provider_error_first Sample.runtime Sample.response (VStr "{}")
                    (VObj []) VUndefined Sample.started Sample.started
                    eq_refl eq_refl)).
    reflexivity.
  - apply (proj1 (proj2 (provider_error_first Sample.runtime VUndefined VUndefined
                           (VObj Cases.request_state) (VStr "r0/x")
                           Sample.started (cleared Sample.started)
                           eq_refl eq_refl))); reflexivity.
  - apply (proj2 (proj2 (provider_error_first Sample.runtime
                           Cases.denied_response VUndefined
                           (VObj Cases.request_state) (VStr "r0/x")
                           Sample.started (cleared Sample.started)
                           eq_refl eq_refl)) eq_refl eq_refl
             (VStr "access_denied")); reflexivity.
Defined.

Lemma missing_tokens_witness :
  processResponseAsync Sample.runtime (VObj Cases.bare_response) VUndefined
    Sample.started
  = (Throw (Error "No identity token"), cleared Sample.started)
  /\ processResponseAsync Sample.runtime (VObj Cases.mac_response) VUndefined
       Sample.started
     = (Throw (Error "Invalid token type"), cleared Sample.started)
  /\ processResponseAsync Sample.runtime (VObj Cases.spent_response) VUndefined
       Sample.started
     = (Throw (Error "No token expiration"), cleared Sample.started).
Proof.
  split; [|split].
  - apply (proj1 (proj1 (missing_tokens Sample.runtime Cases.bare_response
                           Cases.request_state VUndefined Sample.started
                           (cleared Sample.started)
                           eq_refl eq_refl eq_refl eq_refl) eq_refl)).
    reflexivity.
  - apply (proj1 (proj2 (proj2 (missing_tokens Sample.runtime Cases.mac_response
                           Cases.request_state VUndefined Sample.started
                           (cleared Sample.started)
                           eq_refl eq_refl eq_refl eq_refl)
                    (or_intror (conj eq_refl eq_refl)) eq_refl)));
      [reflexivity|].
    right. exists "mac". split; [reflexivity|discriminate].
  - apply (proj2 (proj2 (proj2 (missing_tokens Sample.runtime
                           Cases.spent_response
                           Cases.request_state VUndefined Sample.started
                           (cleared Sample.started)
                           eq_refl eq_refl eq_refl eq_refl)
                    (or_intror (conj eq_refl eq_refl)) eq_refl)));
      [reflexivity| |reflexivity].
    exists "Bearer". split; reflexivity.
Defined.

Lemma oauth_only_flow_witness :
  processResponseAsync Sample.runtime (VObj Cases.oauth_response)
    (VStr (Sample.stringify (VObj Cases.oauth_state))) Sample.fresh
  = (Return (Fulfilled
       (VObj [("profile", VUndefined); ("id_token", VUndefined);
              ("access_token", VStr "AT-5"); ("expires_in", VNum 600);
              ("scope", VUndefined); ("session_state", VUndefined)])),
     Sample.fresh).
Proof.
  apply (oauth_only_flow Sample.runtime Cases.oauth_response Cases.oauth_state
           (VStr (Sample.stringify (VObj Cases.oauth_state)))
           Sample.fresh Sample.fresh).
  - vm_compute. reflexivity.
  - repeat split; try reflexivity; try discriminate.
    exists "BEARER". split; reflexivity.
  - reflexivity.
Defined.

Lemma session_of_response_witness :
  exists (request_state verified profile : value) (w1 : world),
    load_request_state Sample.runtime VUndefined Sample.started
    = (Return request_state, w1)
    /\ verify_tokens Sample.runtime Sample.response request_state w1
       = (Return (Fulfilled verified), Sample.finished)
    /\ Sample.session
       = VObj [("profile", profile);
               ("id_token", own_value Sample.response "id_token");
               ("access_token", own_value Sample.response "access_token");
               ("expires_in", own_value Sample.response "expires_in");
               ("scope", own_value Sample.response "scope");
               ("session_state", own_value Sample.response "session_state")]
    /\ (truthy verified = false
        \/ truthy (lookup_field "filter_protocol_claims"
                     (settings Sample.started)) = false ->
        profile = verified).
Proof.
  apply (session_of_response Sample.runtime Sample.response VUndefined
           Sample.session Sample.started Sample.finished).
  vm_compute. reflexivity.
Defined.


(** ** The request options *)

Lemma preserves_ret {A} (I : world -> Prop) (a : A) : preserves I (ret a).
Proof. intros w H. exact H. Qed.

Lemma preserves_throw {A} (I : world -> Prop) (e : exn) :
  preserves I (@throw A e).
Proof. intros w H. exact H. Qed.

Lemma preserves_lift {A} (I : world -> Prop) (r : result A) :
  preserves I (lift r).
Proof. intros w H. exact H. Qed.

Lemma preserves_setting (I : world -> Prop) (k : string) :
  preserves I (setting k).
Proof. intros w H. exact H. Qed.

Lemma preserves_bind {A B} (I : world -> Prop) (m : M A) (f : A -> M B) :
  preserves I m -> (forall a : A, preserves I (f a)) -> preserves I (bind m f).
Proof.
  intros Hm Hf w H. unfold bind. specialize (Hm w H).
  destruct (m w) as [[a|e] w1]; simpl in *; [now apply Hf|exact Hm].
Qed.

Lemma preserves_set_setting (I : world -> Prop) (k : string) (v : value) :
  (forall w : world, I w -> I (with_settings (set_field k v (settings w)) w)) ->
  preserves I (set_setting k v).
Proof. intros Hset w H. now apply Hset. Qed.

(** One step of a proof that a computation keeps a property; [side] proves
    that a write keeps it. *)
Ltac keep_step side :=
  lazymatch goal with
  | |- preserves _ (bind _ _) => apply preserves_bind; [|intros ?]
  | |- preserves _ (ret _) => apply preserves_ret
  | |- preserves _ (throw _) => apply preserves_throw
  | |- preserves _ (lift _) => apply preserves_lift
  | |- preserves _ (setting _) => apply preserves_setting
  | |- preserves _ (set_setting _ _) => apply preserves_set_setting; side
  | |- preserves _ (if ?b then _ else _) => destruct b
  | |- preserves _ (match ?v with _ => _ end) => destruct v
  | |- preserves _ (merge_option _ _ _) => unfold merge_option
  | |- preserves _ (set_realm _) => unfold set_realm
  | |- preserves _ (originalURL _) => unfold originalURL
  | |- preserves _ (resolve_callback _ _ _) => unfold resolve_callback
  | |- preserves _ (merge_scope _) => unfold merge_scope
  | |- preserves _ (mergeRequestOptions _ _ _) => unfold mergeRequestOptions
  end.

Lemma same_but_refl (keys : list string) (w : world) : same_but keys w w.
Proof. repeat split. Qed.

(** A sequence that ends well has gone through its first step, which kept
    what it keeps. *)
Lemma bind_keeps {A B} (I : world -> Prop) (m : M A) (f : A -> M B)
    (w w' : world) (b : B) :
  preserves I m -> I w -> bind m f w = (Return b, w') ->
  exists (a : A) (w1 : world),
    m w = (Return a, w1) /\ I w1 /\ f a w1 = (Return b, w').
Proof.
  intros Hm HI H. unfold bind in H. specialize (Hm w HI).
  destruct (m w) as [[a|e] w1]; [|discriminate]. now exists a, w1.
Qed.

(** The same for a sequence that ends in any way. *)
Lemma bind_keeps_any {A B} (I : world -> Prop) (m : M A) (f : A -> M B)
    (w w' : world) (r : result B) :
  preserves I m -> I w -> bind m f w = (r, w') ->
  (exists e : exn, m w = (Throw e, w'))
  \/ exists (a : A) (w1 : world),
       m w = (Return a, w1) /\ I w1 /\ f a w1 = (r, w').
Proof.
  intros Hm HI H. unfold bind in H. specialize (Hm w HI).
  destruct (m w) as [[a|e] w1].
  - right. now exists a, w1.
  - left. exists e. now inversion H.
Qed.

Lemma kept {A} (I : world -> Prop) (m : M A) (w w' : world) (r : result A) :
  preserves I m -> I w -> m w = (r, w') -> I w'.
Proof. intros Hm HI H. specialize (Hm w HI). now rewrite H in Hm. Qed.

(** Take the first step off the sequence in [H], with [HI] the property
    kept so far. *)
Ltac peel I side H HI :=
  lazymatch type of H with
  | bind ?m ?f ?w0 = (Return ?b, ?w') =>
      let P := fresh "P" in
      let a := fresh "a" in
      let w1 := fresh "w" in
      let Hm := fresh "Hm" in
      let HI' := fresh "HI" in
      let H' := fresh "H" in
      assert (P : preserves I m) by (repeat keep_step side);
      destruct (bind_keeps I m f w0 w' b P HI H) as (a & w1 & Hm & HI' & H');
      clear H P HI; rename H' into H; rename HI' into HI;
      cbv beta in H
  end.

Section RequestOptionsProperties.

Context (url : UrlModule).

Ltac frame_side :=
  let w := fresh "w" in
  let Hs := fresh in let Hr := fresh in let Hc := fresh in let Hk := fresh in
  intros w (Hs & Hr & Hc & Hk); repeat split; try assumption;
  let k := fresh "k" in let Hout := fresh in
  intros k Hout; cbn [settings with_settings];
  rewrite lookup_set_field_ne; [now apply Hk|];
  intros ->; apply Hout; simpl; tauto.

(** X23: what [mergeRequestOptions] can change, whatever its outcome, also
    when it throws half way: of the settings only [redirect_uri],
    [response_mode], [response_type], [prompt], [display], [login_hint],
    [access_type], [openid], [hd], [acr_values] and [scope]; the store, the
    random supply and every other setting, the authority, the client id
    and the caches among them, are left as they are. *)
Theorem merge_frame (req options : value) (w : world) :
  same_but merged_keys w (snd (mergeRequestOptions url req options w)).
Proof.
  assert (preserves (same_but merged_keys w) (mergeRequestOptions url req options))
    as H by (repeat keep_step frame_side).
  apply H, same_but_refl.
Qed.

Ltac key_side :=
  let w := fresh "w" in
  let HI := fresh in
  intros w HI; hnf in HI |- *; cbn [settings with_settings];
  rewrite ?lookup_set_field_ne by discriminate; exact HI.

Lemma merge_scope_outcome (options option_scope : value) (w : world) :
  prop options "scope" = Return option_scope ->
  let separator := lookup_field "scopeSeparator" (settings w) in
  let chosen := or_else option_scope (lookup_field "scope" (settings w)) in
  let scope := match chosen with
               | VArr items => VStr (array_join items separator)
               | _ => chosen
               end in
  merge_scope options w
  = (Return tt,
     with_settings
       (set_field "scope"
          (VStr (if truthy scope
                 then "openid" +:+ to_string separator +:+ to_string scope
                 else "openid")) (settings w)) w).
Proof.
  intros Hprop separator chosen scope. unfold merge_scope. run.
  rewrite Hprop. run. fold separator. fold chosen. fold scope.
  destruct (truthy scope); reflexivity.
Qed.

(** X24: the scope after [mergeRequestOptions].  The scope is the option,
    or else the setting, an array joined with [scopeSeparator]; the new
    setting is [openid] alone when that is falsy, and otherwise [openid],
    the text of [scopeSeparator] and the scope, whether or not the scope
    names [openid] already: a second call puts another [openid] in front,
    and a separator that is not configured reads [undefined]. *)
Theorem merged_scope (req options option_scope : value) (w w' : world) :
  mergeRequestOptions url req options w = (Return tt, w') ->
  prop options "scope" = Return option_scope ->
  let separator := lookup_field "scopeSeparator" (settings w) in
  let chosen := or_else option_scope (lookup_field "scope" (settings w)) in
  let scope := match chosen with
               | VArr items => VStr (array_join items separator)
               | _ => chosen
               end in
  lookup_field "scope" (settings w')
  = VStr (if truthy scope
          then "openid" +:+ to_string separator +:+ to_string scope
          else "openid").
Proof.
  intros H Hprop.
  pose (I := fun w0 : world =>
               lookup_field "scope" (settings w0)
               = lookup_field "scope" (settings w)
               /\ lookup_field "scopeSeparator" (settings w0)
                  = lookup_field "scopeSeparator" (settings w)).
  assert (I w) as HI by now split.
  unfold mergeRequestOptions in H.
  do 16 (peel I ltac:(intros ? [? ?]; split; cbn [settings with_settings];
                      rewrite ?lookup_set_field_ne by discriminate;
                      assumption) H HI).
  destruct HI as [Hscope Hsep].
  rewrite (merge_scope_outcome options option_scope _ Hprop) in H.
  injection H as <-. cbn [settings with_settings].
  rewrite lookup_set_field_eq, Hscope, Hsep. reflexivity.
Qed.

Lemma originalURL_world (req : value) (w : world) :
  snd (originalURL req w) = w.
Proof.
  assert (preserves (fun w0 : world => w0 = w) (originalURL req)) as H
    by (repeat keep_step idtac).
  now apply H.
Qed.

Lemma resolve_callback_world (req options : value) (w : world) :
  snd (resolve_callback url req options w) = w.
Proof.
  assert (preserves (fun w0 : world => w0 = w)
            (resolve_callback url req options)) as H
    by (repeat keep_step idtac).
  now apply H.
Qed.

Lemma resolve_callback_chosen (req options option_callback : value)
    (w : world) :
  prop options "callbackURL" = Return option_callback ->
  let chosen :=
    or_else option_callback (lookup_field "callbackURL" (settings w)) in
  resolve_callback url req options w
  = (if truthy chosen
     then match chosen with
          | VStr text =>
              if truthy (url_parse_protocol url text) then ret chosen
              else base <- originalURL req ;;
                   ret (VStr (url_resolve url base text))
          | _ => throw (TypeError "Parameter 'url' must be a string")
          end
     else ret chosen) w.
Proof.
  intros Hprop. unfold resolve_callback. unfold bind at 1. unfold lift at 1.
  rewrite Hprop. reflexivity.
Qed.

Lemma merged_redirect (req options callback : value) (w w' : world) :
  mergeRequestOptions url req options w = (Return tt, w') ->
  resolve_callback url req options w = (Return callback, w) ->
  lookup_field "redirect_uri" (settings w') = callback.
Proof.
  intros H Hcallback. unfold mergeRequestOptions in H. unfold bind at 1 in H.
  rewrite Hcallback in H. unfold bind at 1 in H. unfold set_setting at 1 in H.
  cbv beta iota in H.
  pose (I := fun w0 : world =>
               lookup_field "redirect_uri" (settings w0) = callback).
  refine (kept I _ _ _ _ _ _ H).
  - repeat keep_step key_side.
  - apply lookup_set_field_eq.
Qed.

(** X25: the redirect after [mergeRequestOptions].  The callback is the
    [callbackURL] of the options or else of the settings.  Without one,
    [redirect_uri] is overwritten with that falsy value, whatever was
    configured; a callback that names a protocol is taken as it is; one
    that names none is resolved by [url.resolve] against the url of the
    request as [originalURL] gives it. *)
Theorem merged_redirect_uri (req options option_callback : value)
    (w w' : world) :
  mergeRequestOptions url req options w = (Return tt, w') ->
  prop options "callbackURL" = Return option_callback ->
  let chosen :=
    or_else option_callback (lookup_field "callbackURL" (settings w)) in
  (truthy chosen = false ->
   lookup_field "redirect_uri" (settings w') = chosen)
  /\ (forall text : string,
         chosen = VStr text ->
         truthy (url_parse_protocol url text) = true ->
         lookup_field "redirect_uri" (settings w') = VStr text)
  /\ (forall text base : string,
         chosen = VStr text -> text <> "" ->
         truthy (url_parse_protocol url text) = false ->
         fst (originalURL req w) = Return base ->
         lookup_field "redirect_uri" (settings w')
         = VStr (url_resolve url base text)).
Proof.
  intros H Hprop chosen.
  pose proof (resolve_callback_chosen req options option_callback w Hprop)
    as Hcallback. cbv zeta in Hcallback. fold chosen in Hcallback.
  split; [|split].
  - intros Hno. apply (merged_redirect req options chosen w w' H).
    rewrite Hcallback, Hno. reflexivity.
  - intros text Hchosen Hprotocol.
    apply (merged_redirect req options (VStr text) w w' H).
    rewrite Hcallback, Hchosen, Hprotocol.
    now destruct (truthy (VStr text)).
  - intros text base Hchosen Hne Hprotocol Hbase.
    apply (merged_redirect req options _ w w' H).
    rewrite Hcallback, Hchosen, Hprotocol.
    apply String.eqb_neq in Hne. cbn [truthy]. rewrite Hne. cbn [negb].
    unfold bind. pose proof (originalURL_world req w) as Hw.
    destruct (originalURL req w) as [[b|e] w1]; simpl in Hw, Hbase;
      inversion Hbase; subst. reflexivity.
Qed.

Lemma merge_option_outcome (options v : value) (name target : string)
    (w : world) :
  prop options name = Return v ->
  merge_option options name target w
  = (Return tt,
     if truthy v then with_settings (set_field target v (settings w)) w else w).
Proof.
  intros Hprop. unfold merge_option. run. rewrite Hprop. run.
  now destruct (truthy v).
Qed.

(** The setting [target] after a sequence with a step that copies the
    option [name] to it, and whose other steps do not write it: before the
    steps in front of that one are taken off, and after. *)
Tactic Notation "copy_start" ident(Kept) ident(HI) constr(target) constr(w)
    hyp(H) :=
  pose (Kept := fun w0 : world =>
                  lookup_field target (settings w0)
                  = lookup_field target (settings w));
  assert (HI : Kept w) by (unfold Kept; reflexivity);
  unfold mergeRequestOptions in H.

Ltac copy_end HI name target v w H Hprop :=
  unfold bind at 1 in H;
  rewrite (merge_option_outcome _ _ name target _ Hprop) in H;
  hnf in HI;
  lazymatch type of H with
  | ?rest ?w1 = _ =>
      refine (kept (fun w0 : world =>
                      lookup_field target (settings w0)
                      = if truthy v then v
                        else lookup_field target (settings w))
                rest w1 _ _ _ _ H);
      [repeat keep_step key_side|]
  end;
  destruct (truthy v); cbn [settings with_settings];
  [apply lookup_set_field_eq|exact HI].

(** X26: the options win over the settings.  After [mergeRequestOptions]
    each of [prompt], [display], [login_hint], [access_type], [hd] and
    [acr_values] is the option of that name ([accessType] for
    [access_type]) when the option is set, and is left as it was
    otherwise; [response_type] and [response_mode] are the option or else
    the setting. *)
Theorem options_take_precedence (req options : value) (w w' : world) :
  mergeRequestOptions url req options w = (Return tt, w') ->
  (forall (name target : string) (v : value),
      In (name, target) option_targets ->
      prop options name = Return v ->
      lookup_field target (settings w')
      = if truthy v then v else lookup_field target (settings w))
  /\ (forall v : value,
         prop options "response_type" = Return v ->
         lookup_field "response_type" (settings w')
         = or_else v (lookup_field "response_type" (settings w)))
  /\ (forall v : value,
         prop options "response_mode" = Return v ->
         lookup_field "response_mode" (settings w')
         = or_else v (lookup_field "response_mode" (settings w))).
Proof.
  intros H. split; [|split].
  - intros name target v Hin Hprop. unfold option_targets in Hin.
    simpl in Hin.
    destruct Hin as [E|[E|[E|[E|[E|[E|[]]]]]]]; inversion E; subst name target.
    + copy_start Kept HI "prompt" w H. do 8 (peel Kept key_side H HI).
      copy_end HI "prompt" "prompt" v w H Hprop.
    + copy_start Kept HI "display" w H. do 9 (peel Kept key_side H HI).
      copy_end HI "display" "display" v w H Hprop.
    + copy_start Kept HI "login_hint" w H. do 10 (peel Kept key_side H HI).
      copy_end HI "login_hint" "login_hint" v w H Hprop.
    + copy_start Kept HI "access_type" w H. do 11 (peel Kept key_side H HI).
      copy_end HI "accessType" "access_type" v w H Hprop.
    + copy_start Kept HI "hd" w H. do 14 (peel Kept key_side H HI).
      copy_end HI "hd" "hd" v w H Hprop.
    + copy_start Kept HI "acr_values" w H. do 15 (peel Kept key_side H HI).
      copy_end HI "acr_values" "acr_values" v w H Hprop.
  - intros v Hprop.
    pose (I := fun w0 : world =>
                 lookup_field "response_type" (settings w0)
                 = lookup_field "response_type" (settings w)).
    assert (I w) as HI by reflexivity.
    unfold mergeRequestOptions in H. do 5 (peel I key_side H HI).
    unfold bind at 1 in H. unfold lift at 1 in H. rewrite Hprop in H.
    unfold bind at 1 in H. unfold setting at 1 in H.
    unfold bind at 1 in H. unfold set_setting at 1 in H.
    unfold I in HI. rewrite HI in H.
    refine (kept (fun w0 : world =>
                    lookup_field "response_type" (settings w0)
                    = or_else v (lookup_field "response_type" (settings w)))
              _ _ _ _ _ _ H).
    + repeat keep_step key_side.
    + apply lookup_set_field_eq.
  - intros v Hprop.
    pose (I := fun w0 : world =>
                 lookup_field "response_mode" (settings w0)
                 = lookup_field "response_mode" (settings w)).
    assert (I w) as HI by reflexivity.
    unfold mergeRequestOptions in H. do 2 (peel I key_side H HI).
    unfold bind at 1 in H. unfold lift at 1 in H. rewrite Hprop in H.
    unfold bind at 1 in H. unfold setting at 1 in H.
    unfold bind at 1 in H.
    unfold I in HI. rewrite HI in H.
    set (chosen := or_else v (lookup_field "response_mode" (settings w))) in *.
    destruct (truthy chosen) eqn:E;
      [unfold set_setting at 1 in H|unfold ret at 1 in H];
      cbv beta iota in H;
      refine (kept (fun w0 : world =>
                      lookup_field "response_mode" (settings w0) = chosen)
                _ _ _ _ _ _ H);
      try (repeat keep_step key_side).
    + apply lookup_set_field_eq.
    + rewrite HI. subst chosen. unfold or_else in *.
      destruct (truthy v) eqn:Ev; [congruence|reflexivity].
Qed.

(** Take off the first step of the sequence in [H], a step that cannot
    throw on options that are an object. *)
Ltac peel_total I H HI :=
  lazymatch type of H with
  | bind ?m ?f ?w0 = (?r, ?w') =>
      let P := fresh "P" in
      let a := fresh "a" in
      let w1 := fresh "w" in
      let e := fresh "e" in
      let Hm := fresh "Hm" in
      let HI' := fresh "HI" in
      let H' := fresh "H" in
      assert (P : preserves I m) by (repeat keep_step key_side);
      destruct (bind_keeps_any I m f w0 w' r P HI H)
        as [[e Hm]|(a & w1 & Hm & HI' & H')];
      [exfalso;
       unfold merge_option, bind, lift, setting, set_setting, ret in Hm;
       cbn [prop] in Hm;
       repeat match type of Hm with
              | context [if ?b then _ else _] => destruct b
              end;
       discriminate Hm
      |clear H P HI Hm; rename H' into H; rename HI' into HI;
       cbv beta in H]
  end.

(** X27: an [openidRealm] option needs [openid] settings.  When the
    option is set and the settings hold no object under [openid], the call
    throws a [TypeError], and it does so half way: [redirect_uri] has been
    overwritten with the callback by then, and the scope has not been
    merged. *)
Theorem realm_needs_openid_settings (req callback : value) (o : obj)
    (w : world) :
  resolve_callback url req (VObj o) w = (Return callback, w) ->
  truthy (lookup_field "openidRealm" o) = true ->
  match lookup_field "openid" (settings w) with
  | VObj _ | VArr _ => False
  | _ => True
  end ->
  exists (message : string) (w' : world),
    mergeRequestOptions url req (VObj o) w = (Throw (TypeError message), w')
    /\ lookup_field "redirect_uri" (settings w') = callback
    /\ lookup_field "scope" (settings w') = lookup_field "scope" (settings w).
Proof.
  intros Hcallback Hrealm Hopenid.
  destruct (mergeRequestOptions url req (VObj o) w) as [r w'] eqn:H.
  unfold mergeRequestOptions in H. unfold bind at 1 in H.
  rewrite Hcallback in H. unfold bind at 1 in H. unfold set_setting at 1 in H.
  cbv beta iota in H.
  pose (I := fun w0 : world =>
               lookup_field "openid" (settings w0)
               = lookup_field "openid" (settings w)
               /\ lookup_field "scope" (settings w0)
                  = lookup_field "scope" (settings w)
               /\ lookup_field "redirect_uri" (settings w0) = callback).
  assert (I (with_settings (set_field "redirect_uri" callback (settings w)) w))
    as HI.
  { unfold I. cbn [settings with_settings].
    rewrite !lookup_set_field_ne by discriminate.
    rewrite lookup_set_field_eq. repeat split. }
  do 10 (peel_total I H HI).
  unfold bind at 1 in H. unfold lift at 1 in H. cbn [prop] in H.
  unfold bind at 1 in H. rewrite Hrealm in H.
  destruct HI as (Ho & Hs & Hr).
  unfold set_realm, bind, setting in H. rewrite Ho in H.
  destruct (lookup_field "openid" (settings w)); try contradiction;
    inversion H; subst; eauto.
Qed.

End RequestOptionsProperties.

Lemma merged_scope_witness :
  lookup_field "scope" (settings Cases.merged) = VStr "openid profile email"
  /\ lookup_field "scope" (settings Cases.merged_bare)
     = VStr "openidundefinedopenid profile".
Proof.
  split.
  - apply (merged_scope SampleUrl.module SampleUrl.request SampleUrl.options
             (VArr [VStr "profile"; VStr "email"]) Cases.web Cases.merged);
      reflexivity.
  - apply (merged_scope SampleUrl.module SampleUrl.request (VObj []) VUndefined
             Sample.fresh Cases.merged_bare); reflexivity.
Defined.

Lemma merged_redirect_uri_witness :
  lookup_field "redirect_uri" (settings Cases.merged_bare) = VUndefined
  /\ lookup_field "redirect_uri" (settings Cases.merged_absolute)
     = VStr "https://other.example/cb"
  /\ lookup_field "redirect_uri" (settings Cases.merged)
     = VStr "https://app.example/auth/cb".
Proof.
  split; [|split].
  - apply (proj1 (merged_redirect_uri SampleUrl.module SampleUrl.request
                    (VObj []) VUndefined Sample.fresh Cases.merged_bare
                    eq_refl eq_refl)).
    reflexivity.
  - apply (proj1 (proj2 (merged_redirect_uri SampleUrl.module SampleUrl.request
                           Cases.absolute_options
                           (VStr "https://other.example/cb")
                           Cases.web Cases.merged_absolute eq_refl eq_refl))
             "https://other.example/cb"); reflexivity.
  - apply (proj2 (proj2 (merged_redirect_uri SampleUrl.module SampleUrl.request
                           SampleUrl.options (VStr "/auth/cb")
                           Cases.web Cases.merged eq_refl eq_refl))
             "/auth/cb" "https://app.example/login?next=%2Fhome");
      try reflexivity.
    discriminate.
Defined.

Lemma options_take_precedence_witness :
  (forall (name target : string) (v : value),
      In (name, target) option_targets ->
      prop SampleUrl.options name = Return v ->
      lookup_field target (settings Cases.merged)
      = if truthy v then v else lookup_field target (settings Cases.web))
  /\ (forall v : value,
         prop SampleUrl.options "response_type" = Return v ->
         lookup_field "response_type" (settings Cases.merged)
         = or_else v (lookup_field "response_type" (settings Cases.web)))
  /\ (forall v : value,
         prop SampleUrl.options "response_mode" = Return v ->
         lookup_field "response_mode" (settings Cases.merged)
         = or_else v (lookup_field "response_mode" (settings Cases.web))).
Proof.
  apply (options_take_precedence SampleUrl.module SampleUrl.request
           SampleUrl.options Cases.web Cases.merged).
  reflexivity.
Defined.

Lemma realm_needs_openid_settings_witness :
  exists (message : string) (w' : world),
    mergeRequestOptions SampleUrl.module SampleUrl.request
      (VObj Cases.realm_options) Sample.fresh
    = (Throw (TypeError message), w')
    /\ lookup_field "redirect_uri" (settings w') = VUndefined
    /\ lookup_field "scope" (settings w')
       = lookup_field "scope" (settings Sample.fresh).
Proof.
  apply (realm_needs_openid_settings SampleUrl.module SampleUrl.request
           VUndefined Cases.realm_options Sample.fresh).
  - reflexivity.
  - reflexivity.
  - exact I.
Defined.


(** ** Response types and flows *)

Section Flows.

Context (rt : Runtime).

(** X28: a response type that is set but is not a string has no [split]:
    with the endpoint resolved, [createTokenRequestAsync] is rejected with
    the [TypeError] of [isOidc].  The state has been drawn from the random
    supply by then, and nothing else has happened: the store and the
    settings are as they were. *)
Theorem token_request_with_odd_response_type (w w1 : world)
    (endpoint response_type : value) :
  loadAuthorizationEndpoint rt w = (Return (Fulfilled endpoint), w1) ->
  lookup_field "response_type" (settings w1) = response_type ->
  truthy response_type = true ->
  (forall text : string, response_type <> VStr text) ->
  exists message : string,
    createTokenRequestAsync rt w
    = (Return (Rejected (TypeError message)),
       with_rand_calls (S (rand_calls w1)) w1).
Proof.
  intros Hload Htype Htruthy Hodd.
  assert (exists message : string,
             isOidc (settings w1) = Throw (TypeError message)) as [m Hoidc].
  { unfold isOidc. rewrite Htype, Htruthy.
    destruct response_type; eauto. now destruct (Hodd s). }
  exists m. unfold createTokenRequestAsync, bind at 1. rewrite Hload.
  unfold then2. run. rewrite Hoidc. reflexivity.
Qed.

(** X29: which validation a response goes through.  An accepted response
    to a request that asked for an identity token alone is validated by
    [validateIdTokenAsync] without an access token, whatever access token
    the response carries: no [at_hash] is compared and no profile is
    requested.  With both flags it is validated by
    [validateIdTokenAndAccessTokenAsync] on the identity token, the nonce
    of the request state and the access token.  The session is made of
    what the validation answers. *)
Theorem validation_by_flow (r rs : obj) (requestState : value) (w w1 : world) :
  load_request_state rt requestState w = (Return (VObj rs), w1) ->
  accepted r rs ->
  truthy (lookup_field "oidc" rs) = true ->
  let id_token := lookup_field "id_token" r in
  let nonce := lookup_field "nonce" rs in
  let access_token := lookup_field "access_token" r in
  let outcome := processResponseAsync rt (VObj r) requestState w in
  (truthy (lookup_field "oauth" rs) = false ->
   outcome
   = (p <- validateIdTokenAsync rt id_token nonce VUndefined ;;
      then_ p (deliver (VObj r))) w1)
  /\ (truthy (lookup_field "oauth" rs) = true ->
      outcome
      = (p <- validateIdTokenAndAccessTokenAsync rt id_token nonce access_token ;;
         then_ p (deliver (VObj r))) w1).
Proof.
  intros Hload Hyes Hoidc id_token nonce access_token outcome.
  subst outcome.
  rewrite (processResponseAsync_loaded _ _ _ _ _ _ Hload).
  apply (check_response_accepted r rs w1) in Hyes.
  split; intros Hoauth; unfold bind at 1; rewrite Hyes;
    unfold verify_tokens, bind at 1, lift;
    cbn [prop]; unfold bind at 1; unfold bind at 1; unfold bind at 1;
    unfold bind at 1; rewrite Hoidc, Hoauth; reflexivity.
Qed.

End Flows.

Lemma token_request_with_odd_response_type_witness :
  exists message : string,
    createTokenRequestAsync Sample.runtime Cases.listed
    = (Return (Rejected (TypeError message)),
       with_rand_calls 1 Cases.listed).
Proof.
  apply (token_request_with_odd_response_type Sample.runtime Cases.listed
           Cases.listed (VStr "https://login.example/auth")
           (VArr [VStr "id_token"; VStr "token"])); try reflexivity.
  discriminate.
Defined.

Lemma validation_by_flow_witness :
  processResponseAsync Sample.runtime Sample.response
    (VStr (Sample.stringify (VObj Cases.oidc_state))) Sample.started
  = (p <- validateIdTokenAsync Sample.runtime
            (Sample.id_token_of Cases.good_claims) (VStr "r1/x") VUndefined ;;
     then_ p (deliver Sample.response)) Sample.started
  /\ processResponseAsync Sample.runtime Sample.response VUndefined
       Sample.started
     = (p <- validateIdTokenAndAccessTokenAsync Sample.runtime
               (Sample.id_token_of Cases.good_claims) (VStr "r1/x")
               (VStr "AT-1") ;;
        then_ p (deliver Sample.response)) (cleared Sample.started).
Proof.
  split.
  - apply (proj1 (validation_by_flow Sample.runtime Cases.response_fields
                    Cases.oidc_state
                    (VStr (Sample.stringify (VObj Cases.oidc_state)))
                    Sample.started Sample.started
                    ltac:(vm_compute; reflexivity)
                    ltac:(repeat split; try reflexivity; discriminate)
                    eq_refl)).
    reflexivity.
  - apply (proj2 (validation_by_flow Sample.runtime Cases.response_fields
                    Cases.request_state VUndefined
                    Sample.started (cleared Sample.started)
                    eq_refl sample_accepted eq_refl)).
    reflexivity.
Defined.
